(** * Weather application: shallow embedding and checked properties

    The development follows the JavaScript modules of the application:

    - [Auth]    : js/auth.js (user list, registration, login, session,
                  administration);
    - [History] : the search-history module (per-user capped list), with
                  its statistics in [HistoryStats];
    - [Weather] : the weather module (fetch + cache, unit conversion,
                  forecast aggregation, alert derivation);
    - [Settings]: the settings module (per-user preferences and the shared
                  defaults).

    Conventions of the embedding.

    - JavaScript numbers are exact rationals ([Q]); [Math.round] yields an
      integer ([Z]).  IEEE-754 rounding, infinities and NaN are not
      modelled; epoch seconds and milliseconds are integers.
    - Instants ([Date.now()], [new Date()]) are integers: milliseconds since
      the epoch, read from an explicit clock.
    - Texts are Rocq strings holding UTF-8, as the source files and the
      JSON in [localStorage] do.  [length], [trim] and the class [\s] are
      read on the UTF-16 code units that JavaScript sees: [Auth.JS_length]
      counts them, and the white space of [trim] and [\s] is recognised by
      its encoding.  Byte sequences that are not UTF-8 stand for no text.
    - [localStorage] is a record with one field per key family; the JSON
      text stored under a key is identified with the value it encodes.
    - Plain objects used as dictionaries are finite maps when only lookup
      matters ([gmap]) and insertion-ordered association lists when
      [Object.keys] / [Object.values] order matters.  Keys are assumed not
      to be members of [Object.prototype]; weather conditions and date keys
      are assumed not to be array indices, while city names, which the user
      types, may be: [HistoryStats.Object_entries] lists those first.
    - A function that can throw returns a [Completion]. *)

From Stdlib Require Import ZArith QArith Qround Qminmax Lia Lqa.
From Stdlib Require Import Ascii String DecimalString Sorted.
From stdpp Require Import gmap strings list.

Local Open Scope Z_scope.

(** ** Host environment *)

(** Built-in string functions of the host whose result depends on Unicode
    tables.  Every property below holds for any implementation. *)
Class JsHost := {
  toLowerCase : string -> string;
  encodeURIComponent : string -> string
}.

(** Result of a call that may throw (or of a promise that may reject). *)
Inductive Completion (A : Type) : Type :=
| Returned (a : A)
| Thrown (message : string).
Arguments Returned {A} a.
Arguments Thrown {A} message.

(** [Math.round]: nearest integer, halves towards plus infinity. *)
Definition Math_round (x : Q) : Z := Qfloor (x + (1 # 2)).

(** [Math.floor(n / 2)] on an array length. *)
Definition half (n : nat) : nat := Nat.div n 2.

(** [x > y] and [x < y] on numbers. *)
Definition gt_num (x y : Q) : bool := negb (Qle_bool x y).
Definition lt_num (x y : Q) : bool := negb (Qle_bool y x).

(** ** Insertion-ordered dictionaries

    [obj[k] = f(obj[k])]: an existing key keeps its position, a new key is
    appended; [Object.keys] and [Object.values] follow that order. *)
Section Dict.
Context {K V : Type} `{EqDecision K}.

Fixpoint dict_get (k : K) (d : list (K * V)) : option V :=
  match d with
  | [] => None
  | (k', v) :: d' => if decide (k' = k) then Some v else dict_get k d'
  end.

Fixpoint dict_upsert (k : K) (f : option V -> V) (d : list (K * V)) : list (K * V) :=
  match d with
  | [] => [(k, f None)]
  | (k', v) :: d' =>
      if decide (k' = k) then (k', f (Some v)) :: d'
      else (k', v) :: dict_upsert k f d'
  end.

Definition Object_keys (d : list (K * V)) : list K := map fst d.
Definition Object_values (d : list (K * V)) : list V := map snd d.

End Dict.

(** ** Data kept in [localStorage] *)

Record Preferences := {
  temperatureUnit : string;
  defaultCity : string;
  enableAlerts : bool;
  darkMode : bool
}.

Record User := {
  id : string;
  name : string;
  email : string;
  password : string;
  createdAt : Z;
  isAdmin : bool;
  preferences : Preferences
}.

Record Session := {
  userId : string;
  session_name : string;
  session_email : string;
  loginTime : Z
}.

(** One entry of the search history.  [hist_timestamp] is the instant whose
    ISO rendering the code stores. *)
Record HistoryEntry := {
  hist_city : string;
  hist_timestamp : Z;
  hist_temperature : option Q;
  hist_condition : option string;
  hist_icon : option string
}.

(** [localStorage].  [users_item] is the value under ['weather_app_users'],
    [session_item] the value under ['weather_app_session'], and
    [history_items] maps each key ['weather_history_' + userId] to the list
    stored there.  [None] (or an absent key) is [getItem] returning [null]. *)
Record LocalStorage := {
  users_item : option (list User);
  session_item : option Session;
  history_items : gmap string (list HistoryEntry)
}.

(** ** js/auth.js *)
Module Auth.

Definition USERS_KEY : string := "weather_app_users".
Definition SESSION_KEY : string := "weather_app_session".
Definition MIN_PASSWORD_LENGTH : nat := 6.

Definition getAllUsers (st : LocalStorage) : list User :=
  match users_item st with
  | Some users => users
  | None => []
  end.

Definition saveUsers (users : list User) (st : LocalStorage) : LocalStorage :=
  {| users_item := Some users;
     session_item := session_item st;
     history_items := history_items st |}.

Definition findUserByEmail `{JsHost} (st : LocalStorage) (mail : string) : option User :=
  find (fun user => bool_decide (toLowerCase (email user) = toLowerCase mail))
       (getAllUsers st).

(** The class [\s] (white space and line terminators), which is also what
    [trim] strips.  Its one-byte members: U+0009 to U+000D and U+0020. *)
Definition is_space (c : Ascii.ascii) : bool :=
  let n := nat_of_ascii c in
  ((9 <=? n)%nat && (n <=? 13)%nat) || (n =? 32)%nat.

(** U+00A0, encoded C2 A0. *)
Definition is_nbsp (c1 c2 : Ascii.ascii) : bool :=
  (nat_of_ascii c1 =? 194)%nat && (nat_of_ascii c2 =? 160)%nat.

(** The three-byte members: U+1680 (E1 9A 80), U+2000 to U+200A
    (E2 80 80 to E2 80 8A), U+2028, U+2029, U+202F (E2 80 A8, A9, AF),
    U+205F (E2 81 9F), U+3000 (E3 80 80) and U+FEFF (EF BB BF). *)
Definition is_wide_space (c1 c2 c3 : Ascii.ascii) : bool :=
  let b1 := nat_of_ascii c1 in
  let b2 := nat_of_ascii c2 in
  let b3 := nat_of_ascii c3 in
  ((b1 =? 225)%nat && (b2 =? 154)%nat && (b3 =? 128)%nat)
  || ((b1 =? 226)%nat && (b2 =? 128)%nat
      && (((128 <=? b3)%nat && (b3 <=? 138)%nat)
          || (b3 =? 168)%nat || (b3 =? 169)%nat || (b3 =? 175)%nat))
  || ((b1 =? 226)%nat && (b2 =? 129)%nat && (b3 =? 159)%nat)
  || ((b1 =? 227)%nat && (b2 =? 128)%nat && (b3 =? 128)%nat)
  || ((b1 =? 239)%nat && (b2 =? 187)%nat && (b3 =? 191)%nat).

(** Does a member of [\s] start the text? *)
Definition starts_with_space (l : list Ascii.ascii) : bool :=
  match l with
  | c1 :: r1 =>
      is_space c1
      || match r1 with
         | c2 :: r2 =>
             is_nbsp c1 c2
             || match r2 with
                | c3 :: _ => is_wide_space c1 c2 c3
                | [] => false
                end
         | [] => false
         end
  | [] => false
  end.

(** No member of [\s] occurs in the text. *)
Fixpoint no_space (l : list Ascii.ascii) : bool :=
  match l with
  | [] => true
  | _ :: rest => negb (starts_with_space l) && no_space rest
  end.

(** The class [[^\s@]]. *)
Definition is_atom (c : Ascii.ascii) : bool :=
  negb (is_space c) && negb (Ascii.eqb c "@").

(** [[^\s@]+\.[^\s@]+$]: only atoms, and a dot with an atom on each side. *)
Fixpoint inner_dot (l : list Ascii.ascii) : bool :=
  match l with
  | c :: ((d :: rest) as tl) =>
      (Ascii.eqb d "." && negb (bool_decide (rest = []))) || inner_dot tl
  | _ => false
  end.

Definition domain_ok (l : list Ascii.ascii) : bool :=
  forallb is_atom l && inner_dot l.

(** [^[^\s@]+@...]: a non-empty run of atoms up to the first [@]. *)
Fixpoint email_match (seen : bool) (l : list Ascii.ascii) : bool :=
  match l with
  | [] => false
  | c :: rest =>
      if Ascii.eqb c "@" then seen && domain_ok rest
      else is_atom c && email_match true rest
  end.

(** [/^[^\s@]+@[^\s@]+\.[^\s@]+$/.test(email)]: no member of [\s]
    anywhere, one [@] after a non-empty local part, and a dot inside what
    follows it. *)
Definition isValidEmail (mail : string) : bool :=
  no_space (list_ascii_of_string mail)
  && email_match false (list_ascii_of_string mail).

Record LoginResult := {
  success : bool;
  message : string;
  user : option Session
}.

(** [loginUser(email, password)]; [now] is the reading of [new Date()]. *)
Definition loginUser `{JsHost} (now : Z) (mail pass : string) (st : LocalStorage)
  : LoginResult * LocalStorage :=
  if bool_decide (mail = "") || bool_decide (pass = "") then
    ({| success := false; message := "Please enter both email and password";
        user := None |}, st)
  else if negb (isValidEmail mail) then
    ({| success := false; message := "Please enter a valid email address";
        user := None |}, st)
  else
    match findUserByEmail st mail with
    | None =>
        ({| success := false; message := "Invalid email or password";
            user := None |}, st)
    | Some u =>
        if negb (bool_decide (password u = pass)) then
          ({| success := false; message := "Invalid email or password";
              user := None |}, st)
        else
          let session := {| userId := id u; session_name := name u;
                            session_email := email u; loginTime := now |} in
          ({| success := true; message := "Login successful!";
              user := Some session |},
           {| users_item := users_item st;
              session_item := Some session;
              history_items := history_items st |})
    end.

Definition getCurrentSession (st : LocalStorage) : option Session :=
  session_item st.

Definition isLoggedIn (st : LocalStorage) : bool :=
  bool_decide (is_Some (getCurrentSession st)).

Definition logoutUser (st : LocalStorage) : LocalStorage :=
  {| users_item := users_item st;
     session_item := None;
     history_items := history_items st |}.

(** [String.prototype.trim]: the members of [\s] are stripped from both
    ends. *)
Fixpoint trim_start (l : list Ascii.ascii) : list Ascii.ascii :=
  match l with
  | [] => []
  | c1 :: r1 =>
      if is_space c1 then trim_start r1
      else
        match r1 with
        | [] => l
        | c2 :: r2 =>
            if is_nbsp c1 c2 then trim_start r2
            else
              match r2 with
              | [] => l
              | c3 :: r3 => if is_wide_space c1 c2 c3 then trim_start r3 else l
              end
        end
  end.

(** The same from the end; the argument is the text reversed. *)
Fixpoint trim_end_rev (l : list Ascii.ascii) : list Ascii.ascii :=
  match l with
  | [] => []
  | c1 :: r1 =>
      if is_space c1 then trim_end_rev r1
      else
        match r1 with
        | [] => l
        | c2 :: r2 =>
            if is_nbsp c2 c1 then trim_end_rev r2
            else
              match r2 with
              | [] => l
              | c3 :: r3 => if is_wide_space c3 c2 c1 then trim_end_rev r3 else l
              end
        end
  end.

Definition trim (s : string) : string :=
  string_of_list_ascii
    (rev (trim_end_rev (rev (trim_start (list_ascii_of_string s))))).

(** Number of UTF-16 code units of the character a byte belongs to, counted
    on its first byte: one up to U+FFFF, two (a surrogate pair) above. *)
Definition code_units (c : Ascii.ascii) : nat :=
  let n := nat_of_ascii c in
  if (n <? 128)%nat then 1%nat
  else if (n <? 192)%nat then 0%nat
  else if (n <? 240)%nat then 1%nat
  else 2%nat.

(** [s.length]: the number of UTF-16 code units. *)
Definition JS_length (s : string) : nat :=
  foldr (fun c n => (code_units c + n)%nat) 0%nat (list_ascii_of_string s).

(** [n.toString()] for an integer. *)
Definition Number_toString (n : Z) : string := NilZero.string_of_int (Z.to_int n).

Record Validation := { isValid : bool; validation_message : string }.

Definition validatePassword (pass : string) : Validation :=
  if (JS_length pass <? MIN_PASSWORD_LENGTH)%nat then
    {| isValid := false;
       validation_message := "Password must be at least "
                             +:+ Number_toString (Z.of_nat MIN_PASSWORD_LENGTH)
                             +:+ " characters long" |}
  else {| isValid := true; validation_message := "Password is valid" |}.

Definition validateName (nm : string) : Validation :=
  if bool_decide (nm = "") || (JS_length (trim nm) <? 2)%nat then
    {| isValid := false;
       validation_message := "Name must be at least 2 characters long" |}
  else if (50 <? JS_length (trim nm))%nat then
    {| isValid := false;
       validation_message := "Name must not exceed 50 characters" |}
  else {| isValid := true; validation_message := "Name is valid" |}.

(** The [user] field of a successful registration. *)
Record PublicUser := {
  pub_id : string;
  pub_name : string;
  pub_email : string;
  pub_isAdmin : bool
}.

Record RegisterResult := {
  reg_success : bool;
  reg_message : string;
  reg_user : option PublicUser
}.

Definition register_failure (msg : string) : RegisterResult :=
  {| reg_success := false; reg_message := msg; reg_user := None |}.

(** [registerUser(name, email, password)]; [now] is the reading of
    [Date.now()] and [new Date()]. *)
Definition registerUser `{JsHost} (now : Z) (nm mail pass : string) (st : LocalStorage)
  : RegisterResult * LocalStorage :=
  let nameValidation := validateName nm in
  if negb (isValid nameValidation) then
    (register_failure (validation_message nameValidation), st)
  else if negb (isValidEmail mail) then
    (register_failure "Please enter a valid email address", st)
  else
    let passwordValidation := validatePassword pass in
    if negb (isValid passwordValidation) then
      (register_failure (validation_message passwordValidation), st)
    else
      match findUserByEmail st mail with
      | Some _ => (register_failure "An account with this email already exists", st)
      | None =>
          let users := getAllUsers st in
          let newUser :=
            {| id := Number_toString now;
               name := trim nm;
               email := trim (toLowerCase mail);
               password := pass;
               createdAt := now;
               isAdmin := false;
               preferences :=
                 {| temperatureUnit := "celsius";
                    defaultCity := "Thiruvananthapuram";
                    enableAlerts := true;
                    darkMode := false |} |} in
          ({| reg_success := true;
              reg_message := "Registration successful! Please login to continue.";
              reg_user := Some {| pub_id := id newUser; pub_name := name newUser;
                                  pub_email := email newUser;
                                  pub_isAdmin := isAdmin newUser |} |},
           saveUsers (users ++ [newUser]) st)
      end.

Definition DEFAULT_ADMIN_USERNAME : string := "Admin".
Definition DEFAULT_ADMIN_EMAIL : string := "admin@weather.com".
Definition DEFAULT_ADMIN_PASSWORD : string := "admin@123".

(** [initializeDefaultAdmin()], run when the script loads. *)
Definition initializeDefaultAdmin (now : Z) (st : LocalStorage) : LocalStorage :=
  let users := getAllUsers st in
  let adminExists := existsb (fun u => bool_decide (email u = DEFAULT_ADMIN_EMAIL)) users in
  if negb adminExists && bool_decide (users = []) then
    let defaultAdmin :=
      {| id := "admin-" +:+ Number_toString now;
         name := DEFAULT_ADMIN_USERNAME;
         email := DEFAULT_ADMIN_EMAIL;
         password := DEFAULT_ADMIN_PASSWORD;
         createdAt := now;
         isAdmin := true;
         preferences :=
           {| temperatureUnit := "celsius";
              defaultCity := "Thiruvananthapuram";
              enableAlerts := true;
              darkMode := true |} |} in
    saveUsers (users ++ [defaultAdmin]) st
  else st.

(** [getCurrentUser()] *)
Definition getCurrentUser (st : LocalStorage) : option User :=
  match getCurrentSession st with
  | None => None
  | Some session =>
      find (fun u => bool_decide (id u = userId session)) (getAllUsers st)
  end.

(** [isAdmin()], as a truth value. *)
Definition currentIsAdmin (st : LocalStorage) : bool :=
  match getCurrentUser st with
  | Some u => isAdmin u
  | None => false
  end.

(** Where [requireAuth] and [redirectIfLoggedIn] send the browser, if
    anywhere. *)
Definition requireAuth (st : LocalStorage) : option string :=
  if negb (isLoggedIn st) then Some "login.html" else None.

Definition redirectIfLoggedIn (st : LocalStorage) : option string :=
  if isLoggedIn st then Some "index.html" else None.

Record DeleteResult := {
  del_success : bool;
  del_message : string;
  deletedUser : option (string * string * string)
}.

Definition delete_failure (msg : string) : DeleteResult :=
  {| del_success := false; del_message := msg; deletedUser := None |}.

(** [users.findIndex(pred)]; [None] is [-1]. *)
Fixpoint findIndex {A : Type} (pred : A -> bool) (l : list A) : option nat :=
  match l with
  | [] => None
  | x :: rest => if pred x then Some 0%nat else S <$> findIndex pred rest
  end.

(** [deleteUser(userId)].  The session exists whenever [isAdmin()] holds,
    and [findIndex] answers a position of the array: the two branches that
    report a [TypeError] are never taken. *)
Definition deleteUser (uid : string) (st : LocalStorage) : DeleteResult * LocalStorage :=
  if negb (currentIsAdmin st) then
    (delete_failure "Unauthorized: Admin access required", st)
  else
    match getCurrentSession st with
    | None => (delete_failure "TypeError", st)
    | Some session =>
        if bool_decide (userId session = uid) then
          (delete_failure "Cannot delete your own account", st)
        else
          let users := getAllUsers st in
          match findIndex (fun u => bool_decide (id u = uid)) users with
          | None => (delete_failure "User not found", st)
          | Some userIndex =>
              match users !! userIndex with
              | None => (delete_failure "TypeError", st)
              | Some gone =>
                  ({| del_success := true;
                      del_message := "User " +:+ name gone +:+ " deleted successfully";
                      deletedUser := Some (id gone, name gone, email gone) |},
                   saveUsers (delete userIndex users) st)
              end
          end
    end.

(** [getAllUsersAdmin()]; [None] is [null]. *)
Definition getAllUsersAdmin (st : LocalStorage) : option (list User) :=
  if negb (currentIsAdmin st) then None else Some (getAllUsers st).

Record ToggleResult := {
  tog_success : bool;
  tog_message : string;
  tog_isAdmin : option bool
}.

Definition toggle_failure (msg : string) : ToggleResult :=
  {| tog_success := false; tog_message := msg; tog_isAdmin := None |}.

Definition flip_admin (u : User) : User :=
  {| id := id u; name := name u; email := email u; password := password u;
     createdAt := createdAt u; isAdmin := negb (isAdmin u);
     preferences := preferences u |}.

(** [user.isAdmin = !user.isAdmin] on the first user with that id, inside
    the array that is saved afterwards. *)
Fixpoint flip_first (uid : string) (users : list User) : list User :=
  match users with
  | [] => []
  | u :: rest =>
      if bool_decide (id u = uid) then flip_admin u :: rest
      else u :: flip_first uid rest
  end.

(** [toggleAdminStatus(userId)] *)
Definition toggleAdminStatus (uid : string) (st : LocalStorage)
  : ToggleResult * LocalStorage :=
  if negb (currentIsAdmin st) then
    (toggle_failure "Unauthorized: Admin access required", st)
  else
    match getCurrentSession st with
    | None => (toggle_failure "TypeError", st)
    | Some session =>
        if bool_decide (userId session = uid) then
          (toggle_failure "Cannot modify your own admin status", st)
        else
          let users := getAllUsers st in
          match find (fun u => bool_decide (id u = uid)) users with
          | None => (toggle_failure "User not found", st)
          | Some u =>
              let now_admin := negb (isAdmin u) in
              ({| tog_success := true;
                  tog_message := name u +:+ " "
                                 +:+ (if now_admin then "granted" else "revoked")
                                 +:+ " admin privileges";
                  tog_isAdmin := Some now_admin |},
               saveUsers (flip_first uid users) st)
          end
    end.

End Auth.

(** ** Search-history module *)
Module History.

Definition MAX_HISTORY_ITEMS : nat := 20.
Definition HISTORY_KEY_PREFIX : string := "weather_history_".

(** What [addToHistory] reads from its optional [weatherData] argument. *)
Record WeatherSummary := {
  sum_temperature : Q;
  sum_main : string;
  sum_icon : string
}.

Definition getUserHistoryKey (st : LocalStorage) : option string :=
  match Auth.getCurrentSession st with
  | None => None
  | Some session => Some (HISTORY_KEY_PREFIX +:+ userId session)
  end.

Definition getSearchHistory (st : LocalStorage) : list HistoryEntry :=
  match getUserHistoryKey st with
  | None => []
  | Some key =>
      match history_items st !! key with
      | Some history => history
      | None => []
      end
  end.

Definition saveSearchHistory (history : list HistoryEntry) (st : LocalStorage)
  : LocalStorage :=
  match getUserHistoryKey st with
  | None => st
  | Some key =>
      let limitedHistory := take MAX_HISTORY_ITEMS history in
      {| users_item := users_item st;
         session_item := session_item st;
         history_items := <[key := limitedHistory]> (history_items st) |}
  end.

(** [addToHistory(city, weatherData = null)]; [now] is [new Date()]. *)
Definition addToHistory `{JsHost} (now : Z) (city : string)
    (weatherData : option WeatherSummary) (st : LocalStorage) : LocalStorage :=
  let history := getSearchHistory st in
  let entry := {| hist_city := city;
                  hist_timestamp := now;
                  hist_temperature := sum_temperature <$> weatherData;
                  hist_condition := sum_main <$> weatherData;
                  hist_icon := sum_icon <$> weatherData |} in
  let filtered :=
    filter (fun item => toLowerCase (hist_city item) ≠ toLowerCase city) history in
  saveSearchHistory (entry :: filtered) st.

Definition clearSearchHistory (st : LocalStorage) : LocalStorage :=
  match getUserHistoryKey st with
  | None => st
  | Some key =>
      {| users_item := users_item st;
         session_item := session_item st;
         history_items := delete key (history_items st) |}
  end.

Definition removeHistoryEntry (index : nat) (st : LocalStorage) : LocalStorage :=
  let history := getSearchHistory st in
  if (index <? length history)%nat then saveSearchHistory (delete index history) st
  else st.

Definition isInHistory `{JsHost} (city : string) (st : LocalStorage) : bool :=
  existsb (fun item => bool_decide (toLowerCase (hist_city item) = toLowerCase city))
          (getSearchHistory st).

End History.

(** ** Weather module *)
Module Weather.

(** *** Configuration *)

Definition API_KEY : string := "9eadcf9f429cb9cdb40bf6e7e9259a7e".
Definition BASE_URL : string := "https://api.openweathermap.org/data/2.5".
Definition ICON_URL : string := "https://openweathermap.org/img/wn".
Definition DEFAULT_CITY : string := "Thiruvananthapuram".
Definition CACHE_DURATION : Z := 10 * 60 * 1000.

(** *** Provider payloads (parsed JSON) *)

(** Body of the current-weather endpoint; [api_main], [api_description] and
    [api_icon] are the fields of [weather[0]]. *)
Record CurrentData := {
  api_name : string;
  api_country : string;
  api_temp : Q;
  api_feels_like : Q;
  api_temp_min : Q;
  api_temp_max : Q;
  api_humidity : Q;
  api_pressure : Q;
  api_description : string;
  api_main : string;
  api_icon : string;
  api_wind_speed : Q;
  api_wind_deg : Q;
  api_clouds : Q;
  api_visibility : Q;
  api_sunrise : Z;
  api_sunset : Z;
  api_timezone : Z;
  api_dt : Z
}.

(** One 3-hour record of the forecast endpoint. *)
Record ForecastItem := {
  fc_dt : Z;
  fc_temp : Q;
  fc_humidity : Q;
  fc_main : string;
  fc_icon : string;
  fc_wind_speed : Q;
  fc_pop : Q
}.

Record ForecastData := { fc_list : list ForecastItem }.

(** *** Cache *)

Record CacheEntry (A : Type) := { data : A; timestamp : Z }.
Arguments data {A} _.
Arguments timestamp {A} _.

(** The module state [weatherCache], the clock read by [Date.now()], and
    the URLs requested through [fetch] so far (oldest first). *)
Record World := {
  current : gmap string (CacheEntry CurrentData);
  forecast : gmap string (CacheEntry ForecastData);
  clock : Z;
  requests : list string
}.

(** [isCacheValid(cacheEntry)] with [now] the reading of [Date.now()].  A
    missing entry and a falsy (zero) timestamp are both invalid. *)
Definition isCacheValid {A : Type} (now : Z) (cacheEntry : option (CacheEntry A)) : bool :=
  match cacheEntry with
  | None => false
  | Some e =>
      if timestamp e =? 0 then false
      else now - timestamp e <? CACHE_DURATION
  end.

(** *** The remote provider *)

(** What [await fetch(url)] followed by [await response.json()] can do:
    reject, or answer with a status and a body that parses or not. *)
Inductive FetchOutcome (A : Type) : Type :=
| NetworkFailure (error : string)
| Response (status : Z) (body : A + string).
Arguments NetworkFailure {A} error.
Arguments Response {A} status body.

(** An answer and the time that passes while awaiting it. *)
Record Reply (A : Type) := { outcome : FetchOutcome A; elapsed : Z }.
Arguments outcome {A} _.
Arguments elapsed {A} _.

(** [response.ok] *)
Definition response_ok (status : Z) : bool := (200 <=? status) && (status <=? 299).

Definition request (url : string) (dt : Z) (w : World) : World :=
  {| current := current w; forecast := forecast w;
     clock := clock w + dt; requests := requests w ++ [url] |}.

Definition store_current (city : string) (d : CurrentData) (w : World) : World :=
  {| current := <[city := {| data := d; timestamp := clock w |}]> (current w);
     forecast := forecast w; clock := clock w; requests := requests w |}.

Definition store_forecast (city : string) (d : ForecastData) (w : World) : World :=
  {| current := current w;
     forecast := <[city := {| data := d; timestamp := clock w |}]> (forecast w);
     clock := clock w; requests := requests w |}.

(** [fetchCurrentWeather(city)] *)
Definition fetchCurrentWeather `{JsHost} (remote : string -> Reply CurrentData)
    (city : string) (w : World) : Completion CurrentData * World :=
  if isCacheValid (clock w) (current w !! city) then
    match current w !! city with
    | Some e => (Returned (data e), w)
    | None => (Thrown "TypeError", w)
    end
  else
    let url := BASE_URL +:+ "/weather?q=" +:+ encodeURIComponent city
               +:+ "&appid=" +:+ API_KEY +:+ "&units=metric" in
    let reply := remote url in
    let w1 := request url (elapsed reply) w in
    match outcome reply with
    | NetworkFailure error => (Thrown error, w1)
    | Response status body =>
        if negb (response_ok status) then
          if status =? 404 then
            (Thrown "City not found. Please check the spelling and try again.", w1)
          else if status =? 401 then
            (Thrown "API key error. Please contact support.", w1)
          else
            (Thrown "Failed to fetch weather data. Please try again.", w1)
        else
          match body with
          | inr error => (Thrown error, w1)
          | inl d => (Returned d, store_current city d w1)
          end
    end.

(** [fetchForecastWeather(city)] *)
Definition fetchForecastWeather `{JsHost} (remote : string -> Reply ForecastData)
    (city : string) (w : World) : Completion ForecastData * World :=
  if isCacheValid (clock w) (forecast w !! city) then
    match forecast w !! city with
    | Some e => (Returned (data e), w)
    | None => (Thrown "TypeError", w)
    end
  else
    let url := BASE_URL +:+ "/forecast?q=" +:+ encodeURIComponent city
               +:+ "&appid=" +:+ API_KEY +:+ "&units=metric" in
    let reply := remote url in
    let w1 := request url (elapsed reply) w in
    match outcome reply with
    | NetworkFailure error => (Thrown error, w1)
    | Response status body =>
        if negb (response_ok status) then
          if status =? 404 then
            (Thrown "City not found for forecast data.", w1)
          else
            (Thrown "Failed to fetch forecast data.", w1)
        else
          match body with
          | inr error => (Thrown error, w1)
          | inl d => (Returned d, store_forecast city d w1)
          end
    end.

(** *** Formatting *)

(** [convertTemperature(celsius, unit)] *)
Definition convertTemperature (celsius : Q) (unit : string) : Q :=
  if bool_decide (unit = "fahrenheit") then (celsius * 9 / 5 + 32)%Q
  else celsius.

Definition getWeatherIconUrl (iconCode : string) : string :=
  ICON_URL +:+ "/" +:+ iconCode +:+ "@2x.png".

Definition unitSymbolOf (unit : string) : string :=
  if bool_decide (unit = "celsius") then "¬∞C" else "¬∞F".

(** The object built by [formatWeatherData]; dates are milliseconds. *)
Record WeatherData := {
  city : string;
  country : string;
  temperature : Q;
  feelsLike : Q;
  tempMin : Q;
  tempMax : Q;
  description : string;
  main : string;
  icon : string;
  iconUrl : string;
  humidity : Q;
  pressure : Q;
  windSpeed : Q;
  windDeg : Q;
  clouds : Q;
  visibility : Q;
  sunrise : Z;
  sunset : Z;
  timezone : Z;
  unitSymbol : string;
  captured : Z
}.

(** [formatWeatherData(data, unit)]; [captured] is the field [timestamp]. *)
Definition formatWeatherData (d : CurrentData) (unit : string) : WeatherData :=
  let temp := convertTemperature (api_temp d) unit in
  let feels := convertTemperature (api_feels_like d) unit in
  let tmin := convertTemperature (api_temp_min d) unit in
  let tmax := convertTemperature (api_temp_max d) unit in
  {| city := api_name d;
     country := api_country d;
     temperature := inject_Z (Math_round temp);
     feelsLike := inject_Z (Math_round feels);
     tempMin := inject_Z (Math_round tmin);
     tempMax := inject_Z (Math_round tmax);
     description := api_description d;
     main := api_main d;
     icon := api_icon d;
     iconUrl := getWeatherIconUrl (api_icon d);
     humidity := api_humidity d;
     pressure := api_pressure d;
     windSpeed := api_wind_speed d;
     windDeg := api_wind_deg d;
     clouds := api_clouds d;
     visibility := inject_Z (Math_round (api_visibility d / 1000));
     sunrise := api_sunrise d * 1000;
     sunset := api_sunset d * 1000;
     timezone := api_timezone d;
     unitSymbol := unitSymbolOf unit;
     captured := api_dt d * 1000 |}.

(** *** Daily and hourly forecast *)

(** Largest magnitude of a valid [Date] in milliseconds. *)
Definition MAX_DATE_MS : Z := 8640000000000000.

(** [new Date(item.dt * 1000).toISOString().split('T')[0]].  The UTC
    calendar date is identified with its day number since the epoch;
    [toISOString] throws on an invalid date. *)
Definition dateKey (dt : Z) : Completion Z :=
  let ms := dt * 1000 in
  if Z.abs ms <=? MAX_DATE_MS then Returned (ms / 86400000)
  else Thrown "RangeError: Invalid time value".

(** A value of [dailyData].  The five arrays [temps], [conditions], [icons],
    [humidity] and [wind] are only ever pushed together, one element per
    record, so the group keeps the records and the arrays are read off. *)
Record DayGroup := { date : Z; rows : list ForecastItem }.

Definition temps (day : DayGroup) : list Q := map fc_temp (rows day).
Definition conditions (day : DayGroup) : list string := map fc_main (rows day).
Definition icons (day : DayGroup) : list string := map fc_icon (rows day).
Definition day_humidity (day : DayGroup) : list Q := map fc_humidity (rows day).
Definition day_wind (day : DayGroup) : list Q := map fc_wind_speed (rows day).

(** One iteration of [forecastData.list.forEach]. *)
Definition group_step (acc : Completion (list (Z * DayGroup))) (item : ForecastItem)
  : Completion (list (Z * DayGroup)) :=
  match acc with
  | Thrown e => Thrown e
  | Returned dailyData =>
      match dateKey (fc_dt item) with
      | Thrown e => Thrown e
      | Returned k =>
          Returned (dict_upsert k
            (fun old => match old with
                        | None => {| date := k; rows := [item] |}
                        | Some day => {| date := date day; rows := rows day ++ [item] |}
                        end)
            dailyData)
      end
  end.

Definition groupByDate (items : list ForecastItem) : Completion (list (Z * DayGroup)) :=
  fold_left group_step items (Returned []).

(** [conditionCounts] after [day.conditions.forEach]. *)
Definition countConditions (cs : list string) : list (string * nat) :=
  fold_left
    (fun counts c =>
       dict_upsert c (fun old => (match old with Some n => n | None => 0 end + 1)%nat) counts)
    cs [].

(** [conditionCounts[a] > conditionCounts[b]]; a comparison with
    [undefined] is false. *)
Definition count_gt (counts : list (string * nat)) (a b : string) : bool :=
  match dict_get a counts, dict_get b counts with
  | Some x, Some y => (y <? x)%nat
  | _, _ => false
  end.

(** [Object.keys(conditionCounts).reduce((a, b) => ... ? a : b)]; [reduce]
    without initial value throws on an empty array. *)
Definition dominantCondition (counts : list (string * nat)) : Completion string :=
  match Object_keys counts with
  | [] => Thrown "TypeError: Reduce of empty array with no initial value"
  | k :: ks =>
      Returned (fold_left (fun a b => if count_gt counts a b then a else b) ks k)
  end.

(** [Math.min(...xs)] and [Math.max(...xs)] on a non-empty spread. *)
Definition Math_min (x : Q) (xs : list Q) : Q := fold_left Qmin xs x.
Definition Math_max (x : Q) (xs : list Q) : Q := fold_left Qmax xs x.

(** [xs.reduce((a, b) => a + b, 0)] *)
Definition sum (xs : list Q) : Q := fold_left Qplus xs 0%Q.

(** An element of the result of [processDailyForecast].  [day_date] is
    [new Date(day.date)] in milliseconds; the locale rendering [dateString]
    of that date is left out. *)
Record DailyEntry := {
  day_date : Z;
  minTemp : Z;
  maxTemp : Z;
  condition : string;
  day_icon : string;
  day_iconUrl : string;
  avgHumidity : Z;
  avgWind : Q;
  day_unitSymbol : string
}.

(** The callback of [Object.values(dailyData).map].  On a group without
    records [Math.min()] and [Math.max()] give infinities and the [reduce]
    that follows throws; the first branch is that case. *)
Definition summarise (unit : string) (day : DayGroup) : Completion DailyEntry :=
  match temps day with
  | [] => Thrown "TypeError: Reduce of empty array with no initial value"
  | t :: ts =>
      let lo := Math_min t ts in
      let hi := Math_max t ts in
      match dominantCondition (countConditions (conditions day)) with
      | Thrown e => Thrown e
      | Returned dominant =>
          let middayIcon := nth (half (length (icons day))) (icons day) "" in
          let n := inject_Z (Z.of_nat (length (rows day))) in
          Returned
            {| day_date := date day * 86400000;
               minTemp := Math_round (convertTemperature lo unit);
               maxTemp := Math_round (convertTemperature hi unit);
               condition := dominant;
               day_icon := middayIcon;
               day_iconUrl := getWeatherIconUrl middayIcon;
               avgHumidity := Math_round (sum (day_humidity day) / n);
               avgWind := (inject_Z (Math_round (sum (day_wind day) / n * 10)) / 10)%Q;
               day_unitSymbol := unitSymbolOf unit |}
      end
  end.

(** [xs.map(f)] where [f] may throw. *)
Fixpoint map_throwing {A B : Type} (f : A -> Completion B) (xs : list A)
  : Completion (list B) :=
  match xs with
  | [] => Returned []
  | x :: xs' =>
      match f x with
      | Thrown e => Thrown e
      | Returned y =>
          match map_throwing f xs' with
          | Thrown e => Thrown e
          | Returned ys => Returned (y :: ys)
          end
      end
  end.

(** [processDailyForecast(forecastData, unit)] *)
Definition processDailyForecast (forecastData : ForecastData) (unit : string)
  : Completion (list DailyEntry) :=
  match groupByDate (fc_list forecastData) with
  | Thrown e => Thrown e
  | Returned dailyData =>
      match map_throwing (summarise unit) (Object_values dailyData) with
      | Thrown e => Thrown e
      | Returned days => Returned (take 5 days)
      end
  end.



(** *** Alerts *)

(** A template literal: fixed text and interpolated values. *)
Inductive Piece : Type :=
| Lit (s : string)
| Num (q : Q).

Record Alert := {
  type : string;
  severity : string;
  title : string;
  message : list Piece;
  alert_icon : string
}.

(** [generateWeatherAlerts(weatherData)]: each block pushes at most one
    alert, in the order of its blocks. *)
Definition generateWeatherAlerts (weatherData : WeatherData) : list Alert :=
  (if gt_num (temperature weatherData) 35 then
     [{| type := "heat"; severity := "high"; title := "Extreme Heat Warning";
         message := [Lit "Temperature is "; Num (temperature weatherData);
                     Lit (unitSymbol weatherData);
                     Lit ". Stay hydrated and avoid prolonged sun exposure."];
         alert_icon := "üå°Ô∏è" |}]
   else if gt_num (temperature weatherData) 30 then
     [{| type := "heat"; severity := "medium"; title := "Heat Advisory";
         message := [Lit "Temperature is "; Num (temperature weatherData);
                     Lit (unitSymbol weatherData);
                     Lit ". Take precautions in the heat."];
         alert_icon := "‚òÄÔ∏è" |}]
   else [])
  ++ (if lt_num (temperature weatherData) 10 then
     [{| type := "cold"; severity := "medium"; title := "Cold Weather Alert";
         message := [Lit "Temperature is "; Num (temperature weatherData);
                     Lit (unitSymbol weatherData); Lit ". Dress warmly."];
         alert_icon := "‚ùÑÔ∏è" |}]
   else [])
  ++ (if gt_num (windSpeed weatherData) 15 then
     [{| type := "wind"; severity := "high"; title := "Strong Wind Warning";
         message := [Lit "Wind speed is "; Num (windSpeed weatherData);
                     Lit " m/s. Secure loose objects and avoid outdoor activities."];
         alert_icon := "üí®" |}]
   else if gt_num (windSpeed weatherData) 10 then
     [{| type := "wind"; severity := "medium"; title := "Windy Conditions";
         message := [Lit "Wind speed is "; Num (windSpeed weatherData);
                     Lit " m/s. Be cautious outdoors."];
         alert_icon := "üå¨Ô∏è" |}]
   else [])
  ++ (if bool_decide (main weatherData = "Rain") || bool_decide (main weatherData = "Drizzle") then
     [{| type := "rain"; severity := "medium"; title := "Rain Alert";
         message := [Lit "Rain expected. Carry an umbrella and drive carefully."];
         alert_icon := "üåßÔ∏è" |}]
   else [])
  ++ (if bool_decide (main weatherData = "Thunderstorm") then
     [{| type := "storm"; severity := "high"; title := "Thunderstorm Warning";
         message := [Lit "Thunderstorm in the area. Stay indoors and avoid electrical equipment."];
         alert_icon := "‚õàÔ∏è" |}]
   else [])
  ++ (if lt_num (visibility weatherData) 2 then
     [{| type := "visibility"; severity := "medium"; title := "Poor Visibility";
         message := [Lit "Visibility is "; Num (visibility weatherData);
                     Lit " km. Drive with caution."];
         alert_icon := "üå´Ô∏è" |}]
   else [])
  ++ (if gt_num (humidity weatherData) 85 then
     [{| type := "humidity"; severity := "low"; title := "High Humidity";
         message := [Lit "Humidity is "; Num (humidity weatherData);
                     Lit "%. It may feel uncomfortable."];
         alert_icon := "üíß" |}]
   else []).

End Weather.

(** ** Settings module *)
Module Settings.

(** The initial value of [SETTINGS_CONFIG.DEFAULT_SETTINGS]. *)
Definition INITIAL_DEFAULT_SETTINGS : Preferences :=
  {| temperatureUnit := "celsius";
     defaultCity := "Thiruvananthapuram";
     enableAlerts := true;
     darkMode := true |}.

(** A page: [localStorage], the object [SETTINGS_CONFIG.DEFAULT_SETTINGS]
    (one object for the life of the page, handed out by reference), and
    whether [document.body] carries the class [dark-mode]. *)
Record Page := {
  storage : LocalStorage;
  DEFAULT_SETTINGS : Preferences;
  dark_mode_class : bool
}.

(** A settings object passed to [saveSettings]: any subset of the keys. *)
Record SettingsPatch := {
  set_temperatureUnit : option string;
  set_defaultCity : option string;
  set_enableAlerts : option bool;
  set_darkMode : option bool
}.

Definition all_of (prefs : Preferences) : SettingsPatch :=
  {| set_temperatureUnit := Some (temperatureUnit prefs);
     set_defaultCity := Some (defaultCity prefs);
     set_enableAlerts := Some (enableAlerts prefs);
     set_darkMode := Some (darkMode prefs) |}.

(** [{...prefs, ...settings}] *)
Definition spread (prefs : Preferences) (settings : SettingsPatch) : Preferences :=
  {| temperatureUnit := default (temperatureUnit prefs) (set_temperatureUnit settings);
     defaultCity := default (defaultCity prefs) (set_defaultCity settings);
     enableAlerts := default (enableAlerts prefs) (set_enableAlerts settings);
     darkMode := default (darkMode prefs) (set_darkMode settings) |}.

(** Whether [getSettings] hands out the shared default object or an object
    freshly parsed from storage. *)
Inductive Origin : Type := Shared | Parsed.

Definition getSettings_ref (p : Page) : Origin * Preferences :=
  match Auth.getCurrentSession (storage p) with
  | None => (Shared, DEFAULT_SETTINGS p)
  | Some _ =>
      match Auth.getCurrentUser (storage p) with
      | None => (Shared, DEFAULT_SETTINGS p)
      | Some u => (Parsed, preferences u)
      end
  end.

(** [getSettings()] *)
Definition getSettings (p : Page) : Preferences := (getSettings_ref p).2.

Definition with_preferences (u : User) (prefs : Preferences) : User :=
  {| id := id u; name := name u; email := email u; password := password u;
     createdAt := createdAt u; isAdmin := isAdmin u; preferences := prefs |}.

(** [saveSettings(settings)] *)
Definition saveSettings (settings : SettingsPatch) (p : Page) : bool * Page :=
  match Auth.getCurrentSession (storage p) with
  | None => (false, p)
  | Some session =>
      let users := Auth.getAllUsers (storage p) in
      match Auth.findIndex (fun u => bool_decide (id u = userId session)) users with
      | None => (false, p)
      | Some userIndex =>
          let users' :=
            alter (fun u => with_preferences u (spread (preferences u) settings))
                  userIndex users in
          (true, {| storage := Auth.saveUsers users' (storage p);
                    DEFAULT_SETTINGS := DEFAULT_SETTINGS p;
                    dark_mode_class := dark_mode_class p |})
      end
  end.

(** A key of the settings object together with a value for it. *)
Inductive Setting : Type :=
| TemperatureUnit (v : string)
| DefaultCity (v : string)
| EnableAlerts (v : bool)
| DarkMode (v : bool).

(** [settings[key] = value] *)
Definition assign (s : Setting) (prefs : Preferences) : Preferences :=
  match s with
  | TemperatureUnit v =>
      {| temperatureUnit := v; defaultCity := defaultCity prefs;
         enableAlerts := enableAlerts prefs; darkMode := darkMode prefs |}
  | DefaultCity v =>
      {| temperatureUnit := temperatureUnit prefs; defaultCity := v;
         enableAlerts := enableAlerts prefs; darkMode := darkMode prefs |}
  | EnableAlerts v =>
      {| temperatureUnit := temperatureUnit prefs; defaultCity := defaultCity prefs;
         enableAlerts := v; darkMode := darkMode prefs |}
  | DarkMode v =>
      {| temperatureUnit := temperatureUnit prefs; defaultCity := defaultCity prefs;
         enableAlerts := enableAlerts prefs; darkMode := v |}
  end.

(** [updateSetting(key, value)].  The assignment is made on the object
    [getSettings] returned: when that is the shared default object, the
    defaults themselves change. *)
Definition updateSetting (s : Setting) (p : Page) : bool * Page :=
  let '(origin, currentSettings) := getSettings_ref p in
  let updated := assign s currentSettings in
  let p1 :=
    match origin with
    | Shared => {| storage := storage p; DEFAULT_SETTINGS := updated;
                   dark_mode_class := dark_mode_class p |}
    | Parsed => p
    end in
  saveSettings (all_of updated) p1.

Definition getTemperatureUnit (p : Page) : string :=
  let unit := temperatureUnit (getSettings p) in
  if bool_decide (unit = "") then "celsius" else unit.

Definition getDefaultCity (p : Page) : string :=
  let c := defaultCity (getSettings p) in
  if bool_decide (c = "") then "Thiruvananthapuram" else c.

Definition areAlertsEnabled (p : Page) : bool := enableAlerts (getSettings p).

Definition isDarkModeEnabled (p : Page) : bool := darkMode (getSettings p).

Definition toggleTemperatureUnit (p : Page) : string * Page :=
  let currentUnit := getTemperatureUnit p in
  let newUnit := if bool_decide (currentUnit = "celsius") then "fahrenheit" else "celsius" in
  (newUnit, (updateSetting (TemperatureUnit newUnit) p).2).

Definition applyDarkMode (p : Page) : Page :=
  {| storage := storage p; DEFAULT_SETTINGS := DEFAULT_SETTINGS p;
     dark_mode_class := isDarkModeEnabled p |}.

Definition toggleDarkMode (p : Page) : bool * Page :=
  let currentMode := isDarkModeEnabled p in
  let newMode := negb currentMode in
  (newMode, applyDarkMode (updateSetting (DarkMode newMode) p).2).

Definition resetSettings (p : Page) : bool * Page :=
  saveSettings (all_of (DEFAULT_SETTINGS p)) p.

End Settings.

(** ** Search statistics (search-history module) *)
Module HistoryStats.

(** [cityCounts] after [history.forEach], in the order in which the
    properties were created.  (The names [constructor] and [__proto__],
    which the empty object inherits, are not modelled.) *)
Definition countCities `{JsHost} (history : list HistoryEntry) : list (string * nat) :=
  fold_left
    (fun cityCounts item =>
       dict_upsert (toLowerCase (hist_city item))
         (fun old => (match old with Some n => n | None => 0 end + 1)%nat) cityCounts)
    history [].

(** An array index: the canonical decimal text of an integer from 0 to
    2^32 - 2. *)
Definition digit_value (c : Ascii.ascii) : option N :=
  let n := nat_of_ascii c in
  if (48 <=? n)%nat && (n <=? 57)%nat then Some (N.of_nat (n - 48)) else None.

Fixpoint decimal_value (acc : N) (l : list Ascii.ascii) : option N :=
  match l with
  | [] => Some acc
  | c :: rest =>
      match digit_value c with
      | Some d => decimal_value (10 * acc + d)%N rest
      | None => None
      end
  end.

Definition array_index (s : string) : option N :=
  match list_ascii_of_string s with
  | [] => None
  | c :: rest =>
      if Ascii.eqb c "0" && negb (bool_decide (rest = [])) then None
      else
        match decimal_value 0 (c :: rest) with
        | Some n => if (n <=? 4294967294)%N then Some n else None
        | None => None
        end
  end.

Definition is_index (s : string) : bool :=
  match array_index s with Some _ => true | None => false end.

Definition index_of (s : string) : N :=
  match array_index s with Some n => n | None => 0%N end.

(** The order in which the own properties of an object are listed: the
    array indices first, in ascending numeric order, then the other names in
    the order of their creation.  [name] reads the property name off an
    element. *)
Fixpoint insert_by_index {A : Type} (name : A -> string) (x : A) (sorted : list A)
  : list A :=
  match sorted with
  | [] => [x]
  | y :: rest =>
      if (index_of (name x) <=? index_of (name y))%N then x :: y :: rest
      else y :: insert_by_index name x rest
  end.

Definition own_property_order {A : Type} (name : A -> string) (l : list A) : list A :=
  foldr (insert_by_index name) [] (List.filter (fun x => is_index (name x)) l)
  ++ List.filter (fun x => negb (is_index (name x))) l.

(** [Object.entries(obj)] for an object whose properties were created in
    the order of [d]. *)
Definition Object_entries {V : Type} (d : list (string * V)) : list (string * V) :=
  own_property_order fst d.

(** [entries.sort((a, b) => b[1] - a[1])]: the sort is stable, so among the
    orders with decreasing counts the result is the one that keeps equal
    counts in their input order. *)
Fixpoint insert_by_count (x : string * nat) (sorted : list (string * nat))
  : list (string * nat) :=
  match sorted with
  | [] => [x]
  | y :: rest =>
      if (y.2 <=? x.2)%nat then x :: y :: rest
      else y :: insert_by_count x rest
  end.

Definition sort_by_count (entries : list (string * nat)) : list (string * nat) :=
  foldr insert_by_count [] entries.

Record CityCount := { top_city : string; top_count : nat }.

(** [getMostSearchedCities(limit)]; reading [.city] of a failed [find]
    throws. *)
Definition getMostSearchedCities `{JsHost} (limit : nat) (st : LocalStorage)
  : Completion (list CityCount) :=
  let history := History.getSearchHistory st in
  Weather.map_throwing
    (fun entry : string * nat =>
       match find (fun h => bool_decide (toLowerCase (hist_city h) = entry.1)) history with
       | Some h => Returned {| top_city := hist_city h; top_count := entry.2 |}
       | None => Thrown "TypeError"
       end)
    (take limit (sort_by_count (Object_entries (countCities history)))).

End HistoryStats.

(** ** A host for evaluation

    An ASCII implementation of the host functions, used to run the
    definitions on concrete inputs. *)

Definition lower_char (c : Ascii.ascii) : Ascii.ascii :=
  let n := nat_of_ascii c in
  if (65 <=? n)%nat && (n <=? 90)%nat then ascii_of_nat (n + 32) else c.

Definition ascii_toLowerCase (s : string) : string :=
  string_of_list_ascii (map lower_char (list_ascii_of_string s)).

Definition unreserved (c : Ascii.ascii) : bool :=
  let n := nat_of_ascii c in
  ((65 <=? n)%nat && (n <=? 90)%nat) || ((97 <=? n)%nat && (n <=? 122)%nat)
  || ((48 <=? n)%nat && (n <=? 57)%nat)
  || bool_decide (c ∈ list_ascii_of_string "-_.!~*'()").

Definition hex_digit (n : nat) : Ascii.ascii :=
  nth n (list_ascii_of_string "0123456789ABCDEF") "0"%char.

Definition percent_encode (c : Ascii.ascii) : list Ascii.ascii :=
  if unreserved c then [c]
  else let n := nat_of_ascii c in
       ["%"%char; hex_digit (Nat.div n 16); hex_digit (Nat.modulo n 16)].

Definition ascii_encodeURIComponent (s : string) : string :=
  string_of_list_ascii (concat (map percent_encode (list_ascii_of_string s))).

Definition ascii_host : JsHost :=
  {| toLowerCase := ascii_toLowerCase;
     encodeURIComponent := ascii_encodeURIComponent |}.

(** Sample payloads. *)

Definition sample_current (temp : Q) (wind : Q) (hum : Q) (vis : Q) (cond : string)
  : Weather.CurrentData :=
  {| Weather.api_name := "Paris";
     Weather.api_country := "FR";
     Weather.api_temp := temp;
     Weather.api_feels_like := temp;
     Weather.api_temp_min := temp;
     Weather.api_temp_max := temp;
     Weather.api_humidity := hum;
     Weather.api_pressure := 1013;
     Weather.api_description := "sample";
     Weather.api_main := cond;
     Weather.api_icon := "01d";
     Weather.api_wind_speed := wind;
     Weather.api_wind_deg := 0;
     Weather.api_clouds := 0;
     Weather.api_visibility := vis;
     Weather.api_sunrise := 1700000000;
     Weather.api_sunset := 1700040000;
     Weather.api_timezone := 3600;
     Weather.api_dt := 1700020000 |}.

Definition sample_item (dt : Z) (temp : Q) (cond : string) : Weather.ForecastItem :=
  {| Weather.fc_dt := dt;
     Weather.fc_temp := temp;
     Weather.fc_humidity := 50;
     Weather.fc_main := cond;
     Weather.fc_icon := "01d";
     Weather.fc_wind_speed := 3;
     Weather.fc_pop := 0 |}.

(** The order in which [generateWeatherAlerts] examines its conditions. *)
Definition alert_order : list string :=
  ["heat"; "cold"; "wind"; "rain"; "storm"; "visibility"; "humidity"].

Definition kind (a : Weather.Alert) : string * string :=
  (Weather.type a, Weather.severity a).

(** Sample worlds and providers. *)

Definition empty_world (now : Z) : Weather.World :=
  {| Weather.current := ∅; Weather.forecast := ∅;
     Weather.clock := now; Weather.requests := [] |}.

(** Time passing between two calls. *)
Definition advance (dt : Z) (w : Weather.World) : Weather.World :=
  {| Weather.current := Weather.current w; Weather.forecast := Weather.forecast w;
     Weather.clock := Weather.clock w + dt; Weather.requests := Weather.requests w |}.

Definition paris_now : Weather.CurrentData := sample_current 20 5 50 10000 "Clear".

Definition paris_forecast : Weather.ForecastData :=
  {| Weather.fc_list := [sample_item 1700000000 20 "Clear"] |}.

(** A provider that answers every URL at once with the given status. *)
Definition answering {A : Type} (status : Z) (body : A) : string -> Weather.Reply A :=
  fun _ => {| Weather.outcome := Weather.Response status (inl body);
              Weather.elapsed := 0 |}.

(** The entry [addToHistory] builds for a search. *)
Definition history_entry (now : Z) (city : string)
    (weatherData : option History.WeatherSummary) : HistoryEntry :=
  {| hist_city := city;
     hist_timestamp := now;
     hist_temperature := History.sum_temperature <$> weatherData;
     hist_condition := History.sum_main <$> weatherData;
     hist_icon := History.sum_icon <$> weatherData |}.

(** Whether a history entry is for [city], letter case apart. *)
Definition same_city `{JsHost} (city : string) (item : HistoryEntry) : Prop :=
  toLowerCase (hist_city item) = toLowerCase city.

#[global] Instance same_city_dec `{JsHost} (city : string) (item : HistoryEntry)
  : Decision (same_city city item) :=
  decide (toLowerCase (hist_city item) = toLowerCase city).

(** Sample accounts and storage. *)

Definition default_preferences : Preferences :=
  {| temperatureUnit := "celsius"; defaultCity := "Thiruvananthapuram";
     enableAlerts := true; darkMode := true |}.

Definition admin_user : User :=
  {| id := "admin-1700000000000"; name := "Admin"; email := "admin@weather.com";
     password := "admin@123"; createdAt := 1700000000000; isAdmin := true;
     preferences := default_preferences |}.

Definition admin_session : Session :=
  {| userId := "admin-1700000000000"; session_name := "Admin";
     session_email := "admin@weather.com"; loginTime := 1700000001000 |}.

Definition fresh_store : LocalStorage :=
  {| users_item := Some [admin_user]; session_item := None; history_items := ∅ |}.

Definition admin_store : LocalStorage :=
  {| users_item := Some [admin_user]; session_item := Some admin_session;
     history_items := ∅ |}.

(** The result [loginUser] gives for an unknown account and for a wrong
    password. *)
Definition login_rejected : Auth.LoginResult :=
  {| Auth.success := false; Auth.message := "Invalid email or password";
     Auth.user := None |}.

(** The UTC day number of an instant given in seconds. *)
Definition day_of (dt : Z) : Z := dt * 1000 / 86400000.

(** [dt] denotes a valid [Date]. *)
Definition valid_time (dt : Z) : Prop := Z.abs (dt * 1000) <= Weather.MAX_DATE_MS.

(** A forecast of forty records, three hours apart, starting at [t0]. *)
Definition three_hourly (t0 : Z) (items : list Weather.ForecastItem) : Prop :=
  length items = 40%nat /\
  forall (i : nat) (item : Weather.ForecastItem),
    items !! i = Some item -> Weather.fc_dt item = t0 + 10800 * Z.of_nat i.

(** Forty such records with the given temperatures and conditions. *)
Definition steady_forecast (t0 : Z) : Weather.ForecastData :=
  {| Weather.fc_list :=
       map (fun i : nat =>
              sample_item (t0 + 10800 * Z.of_nat i) (inject_Z (Z.of_nat i) / 2)
                (if Nat.even i then "Clouds" else "Rain"))
           (seq 0 40) |}.

(** A group that holds at least one record. *)
Definition nonempty_day (day : Weather.DayGroup) : Prop := Weather.rows day <> [].

(** One iteration of [day.conditions.forEach]. *)
Definition count_step (counts : list (string * nat)) (c : string) : list (string * nat) :=
  dict_upsert c (fun old => (match old with Some n => n | None => 0 end + 1)%nat) counts.

(** The count recorded for [c], zero when there is none. *)
Definition count_in (counts : list (string * nat)) (c : string) : nat :=
  match dict_get c counts with Some n => n | None => 0%nat end.

(** How often [c] occurs in [cs]. *)
Definition occurrences (c : string) (cs : list string) : nat :=
  length (filter (fun x => x = c) cs).

(** The distinct elements of [cs] in the order of their first occurrence. *)
Fixpoint first_seen (cs : list string) : list string :=
  match cs with
  | [] => []
  | c :: cs' => c :: filter (fun x => x <> c) (first_seen cs')
  end.

(** A day whose two records carry different conditions, one each. *)
Definition tied_day : Weather.ForecastData :=
  {| Weather.fc_list := [sample_item 1700006400 18 "Rain";
                         sample_item 1700017200 21 "Clear"] |}.

(** The URLs built by the two fetch functions. *)
Definition currentUrl `{JsHost} (city : string) : string :=
  Weather.BASE_URL +:+ "/weather?q=" +:+ encodeURIComponent city
  +:+ "&appid=" +:+ Weather.API_KEY +:+ "&units=metric".

Definition forecastUrl `{JsHost} (city : string) : string :=
  Weather.BASE_URL +:+ "/forecast?q=" +:+ encodeURIComponent city
  +:+ "&appid=" +:+ Weather.API_KEY +:+ "&units=metric".

(** No usable entry: none at all, one with a zero timestamp, or one that is
    ten minutes old or older. *)
Definition unusable {A : Type} (now : Z) (o : option (Weather.CacheEntry A)) : Prop :=
  forall e, o = Some e ->
    Weather.timestamp e = 0 \/ Weather.CACHE_DURATION <= now - Weather.timestamp e.


(** The records of [items] that fall on UTC day [k], in input order. *)
Definition records_of_day (k : Z) (items : list Weather.ForecastItem)
  : list Weather.ForecastItem :=
  filter (fun item => day_of (Weather.fc_dt item) = k) items.

(** What [dailyData] holds under day [k] once [items] have been grouped. *)
Definition group_of_day (k : Z) (items : list Weather.ForecastItem)
  : option Weather.DayGroup :=
  match records_of_day k items with
  | [] => None
  | rows => Some {| Weather.date := k; Weather.rows := rows |}
  end.

(** A forecast whose second record carries a timestamp outside the range of
    [Date]. *)
Definition broken_forecast : Weather.ForecastData :=
  {| Weather.fc_list := [sample_item 1700006400 18 "Rain";
                         sample_item 8640000000001 21 "Clear"] |}.

(** The lower-cased city names of a history. *)
Definition lowered `{JsHost} (history : list HistoryEntry) : list string :=
  map (fun item => toLowerCase (hist_city item)) history.

(** No two entries of the history are for the same city, letter case apart. *)
Definition distinct_cities `{JsHost} (history : list HistoryEntry) : Prop :=
  NoDup (lowered history).

(** A second account and a storage in which it is registered too. *)
Definition guest_user : User :=
  {| id := "1700000005000"; name := "Guest"; email := "guest@weather.com";
     password := "guest-pass"; createdAt := 1700000005000; isAdmin := false;
     preferences := default_preferences |}.

Definition two_user_store : LocalStorage :=
  {| users_item := Some [admin_user; guest_user]; session_item := Some admin_session;
     history_items := ∅ |}.

(** The account [registerUser] creates. *)
Definition new_account `{JsHost} (now : Z) (nm mail pass : string) : User :=
  {| id := Auth.Number_toString now;
     name := Auth.trim nm;
     email := Auth.trim (toLowerCase mail);
     password := pass;
     createdAt := now;
     isAdmin := false;
     preferences :=
       {| temperatureUnit := "celsius";
          defaultCity := "Thiruvananthapuram";
          enableAlerts := true;
          darkMode := false |} |}.

(** The session [loginUser] opens for an account. *)
Definition session_of (now : Z) (u : User) : Session :=
  {| userId := id u; session_name := name u; session_email := email u;
     loginTime := now |}.

(** Sample pages. *)
Definition admin_page : Settings.Page :=
  {| Settings.storage := two_user_store;
     Settings.DEFAULT_SETTINGS := Settings.INITIAL_DEFAULT_SETTINGS;
     Settings.dark_mode_class := true |}.

Definition anonymous_page : Settings.Page :=
  {| Settings.storage := fresh_store;
     Settings.DEFAULT_SETTINGS := Settings.INITIAL_DEFAULT_SETTINGS;
     Settings.dark_mode_class := true |}.

(** The states the cache can be in: it starts empty, time passes, and the
    two fetch functions are called.  [Date.now()] reads the milliseconds
    since 1970 and is positive at every reading. *)
Inductive reachable `{JsHost} : Weather.World -> Prop :=
| reachable_start (now : Z) :
    0 < now -> reachable (empty_world now)
| reachable_tick (dt : Z) (w : Weather.World) :
    reachable w -> 0 < Weather.clock w + dt -> reachable (advance dt w)
| reachable_current (remote : string -> Weather.Reply Weather.CurrentData)
    (city : string) (w : Weather.World) :
    reachable w ->
    0 < Weather.clock (Weather.fetchCurrentWeather remote city w).2 ->
    reachable (Weather.fetchCurrentWeather remote city w).2
| reachable_forecast (remote : string -> Weather.Reply Weather.ForecastData)
    (city : string) (w : Weather.World) :
    reachable w ->
    0 < Weather.clock (Weather.fetchForecastWeather remote city w).2 ->
    reachable (Weather.fetchForecastWeather remote city w).2.

(** Every entry of the cache carries a positive timestamp. *)
Definition stamped (w : Weather.World) : Prop :=
  (forall city e, Weather.current w !! city = Some e -> 0 < Weather.timestamp e) /\
  (forall city e, Weather.forecast w !! city = Some e -> 0 < Weather.timestamp e).

(** The distinct days of a list in the order of their first occurrence. *)
Fixpoint first_days (ds : list Z) : list Z :=
  match ds with
  | [] => []
  | d :: ds' => d :: filter (fun x => x <> d) (first_days ds')
  end.

(** The UTC day of each record of a forecast. *)
Definition days_of (items : list Weather.ForecastItem) : list Z :=
  map (fun item => day_of (Weather.fc_dt item)) items.

(** The temperature displayed for a record. *)
Definition shown_temp (unit : string) (item : Weather.ForecastItem) : Z :=
  Math_round (Weather.convertTemperature (Weather.fc_temp item) unit).

(** The entry is for a day that has records, and its [minTemp] and
    [maxTemp] are the lowest and the highest temperature displayed for a
    record of that day. *)
Definition spans_its_day (unit : string) (items : list Weather.ForecastItem)
    (entry : Weather.DailyEntry) : Prop :=
  let recs := records_of_day (Weather.day_date entry / 86400000) items in
  (exists item, item ∈ recs /\ Weather.minTemp entry = shown_temp unit item) /\
  (exists item, item ∈ recs /\ Weather.maxTemp entry = shown_temp unit item) /\
  (forall item, item ∈ recs ->
     Weather.minTemp entry <= shown_temp unit item <= Weather.maxTemp entry).

(** The lower-cased city of a history entry, the key under which
    [getMostSearchedCities] counts it. *)
Definition city_key `{JsHost} (item : HistoryEntry) : string :=
  toLowerCase (hist_city item).

(** No city of the history is named like a property every object inherits. *)
Definition own_names `{JsHost} (history : list HistoryEntry) : Prop :=
  ("constructor" ∉ lowered history) /\ ("__proto__" ∉ lowered history).

(** The account [initializeDefaultAdmin] creates at instant [now]. *)
Definition default_admin (now : Z) : User :=
  {| id := "admin-" +:+ Auth.Number_toString now; name := "Admin";
     email := "admin@weather.com"; password := "admin@123"; createdAt := now;
     isAdmin := true; preferences := default_preferences |}.

(** * Properties *)

(** ** Numbers *)

Lemma gt_num_true (x y : Q) : gt_num x y = true <-> (y < x)%Q.
Proof.
  unfold gt_num. rewrite negb_true_iff.
  destruct (Qle_bool x y) eqn:E.
  - apply Qle_bool_iff in E. split; [discriminate | intros L; exfalso; lra].
  - split; [intros _ | reflexivity].
    apply Qnot_le_lt. intros L. apply Qle_bool_iff in L. congruence.
Qed.

Lemma lt_num_true (x y : Q) : lt_num x y = true <-> (x < y)%Q.
Proof. unfold lt_num. apply (gt_num_true y x). Qed.

Lemma gt_num_false (x y : Q) : gt_num x y = false <-> (x <= y)%Q.
Proof.
  split; intros E.
  - destruct (Qlt_le_dec y x) as [L | L]; [| exact L].
    apply gt_num_true in L. congruence.
  - destruct (gt_num x y) eqn:G; [| reflexivity].
    apply gt_num_true in G. exfalso; lra.
Qed.

Lemma lt_num_false (x y : Q) : lt_num x y = false <-> (y <= x)%Q.
Proof. unfold lt_num. apply (gt_num_false y x). Qed.

Lemma Math_round_mono (x y : Q) : (x <= y)%Q -> Math_round x <= Math_round y.
Proof. intros L. unfold Math_round. apply Qfloor_resp_le. lra. Qed.


(** ** Unit conversion *)

(** C7.  [convertTemperature] is the identity when the target unit is
    Celsius and [value * 9 / 5 + 32] when it is Fahrenheit; 0 degrees map to
    32 and 100 degrees to 212. *)
Theorem convertTemperature_units :
  (forall x : Q, Weather.convertTemperature x "celsius" = x) /\
  (forall x : Q, Weather.convertTemperature x "fahrenheit" = (x * 9 / 5 + 32)%Q) /\
  (Weather.convertTemperature 0 "fahrenheit" == 32)%Q /\
  (Weather.convertTemperature 100 "fahrenheit" == 212)%Q.
Proof.
  repeat split.
Qed.

Lemma convertTemperature_mono (x y : Q) (unit : string) :
  (x <= y)%Q ->
  (Weather.convertTemperature x unit <= Weather.convertTemperature y unit)%Q.
Proof.
  intros L. unfold Weather.convertTemperature.
  case_bool_decide; [| exact L].
  apply Qplus_le_compat; [| apply Qle_refl].
  unfold Qdiv. apply Qmult_le_compat_r; [lra | discriminate].
Qed.

(** ** Alerts *)

Ltac split_num :=
  repeat match goal with
  | |- context [gt_num ?a ?b] =>
      let E := fresh "E" in
      destruct (gt_num a b) eqn:E;
      [apply gt_num_true in E | apply gt_num_false in E]; try (exfalso; lra)
  | |- context [lt_num ?a ?b] =>
      let E := fresh "E" in
      destruct (lt_num a b) eqn:E;
      [apply lt_num_true in E | apply lt_num_false in E]; try (exfalso; lra)
  end.

Lemma sublist_block (x : string) (l : list string) :
  l = [] \/ l = [x] -> sublist l [x].
Proof. intros [-> | ->]; [apply sublist_nil_l | reflexivity]. Qed.

Lemma alerts_types_sublist (w : Weather.WeatherData) :
  sublist (map Weather.type (Weather.generateWeatherAlerts w)) alert_order.
Proof.
  unfold Weather.generateWeatherAlerts, alert_order.
  rewrite !map_app.
  change ["heat"; "cold"; "wind"; "rain"; "storm"; "visibility"; "humidity"]
    with (["heat"] ++ ["cold"] ++ ["wind"] ++ ["rain"] ++ ["storm"]
          ++ ["visibility"] ++ ["humidity"]).
  repeat apply sublist_app; apply sublist_block;
    repeat match goal with |- context [if ?b then _ else _] => destruct b end;
    simpl; auto.
Qed.

(** C5.  The alert types come out in the fixed order heat, cold, wind,
    rain, storm, visibility, humidity; on temperature 20, wind speed 20,
    humidity 90, visibility 1 and condition "Thunderstorm" the result is
    exactly wind/high, storm/high, visibility/medium, humidity/low. *)
Theorem generateWeatherAlerts_order (w : Weather.WeatherData) :
  sublist (map Weather.type (Weather.generateWeatherAlerts w)) alert_order /\
  ((Weather.temperature w == 20)%Q ->
   (Weather.windSpeed w == 20)%Q ->
   (Weather.humidity w == 90)%Q ->
   (Weather.visibility w == 1)%Q ->
   Weather.main w = "Thunderstorm" ->
   map kind (Weather.generateWeatherAlerts w) =
     [("wind", "high"); ("storm", "high"); ("visibility", "medium");
      ("humidity", "low")]).
Proof.
  split; [apply alerts_types_sublist |].
  intros Ht Hw Hh Hv Hm.
  unfold Weather.generateWeatherAlerts. rewrite Hm.
  split_num. reflexivity.
Qed.

Lemma generateWeatherAlerts_order_witness :
  map kind (Weather.generateWeatherAlerts
              (Weather.formatWeatherData (sample_current 20 20 90 1000 "Thunderstorm")
                                         "celsius")) =
    [("wind", "high"); ("storm", "high"); ("visibility", "medium");
     ("humidity", "low")].
Proof.
  apply (generateWeatherAlerts_order
           (Weather.formatWeatherData (sample_current 20 20 90 1000 "Thunderstorm")
                                      "celsius"));
    reflexivity.
Defined.

(** The single-alert example of the specification: 36 degrees, calm, dry
    and clear gives exactly heat/high. *)
Example alerts_heat_only :
  map kind (Weather.generateWeatherAlerts
              (Weather.formatWeatherData (sample_current 36 5 50 10000 "Clear") "celsius"))
  = [("heat", "high")].
Proof. reflexivity. Qed.

Lemma heat_alert_iff (w : Weather.WeatherData) :
  In "heat" (map Weather.type (Weather.generateWeatherAlerts w))
  <-> (30 < Weather.temperature w)%Q.
Proof.
  unfold Weather.generateWeatherAlerts.
  rewrite !map_app, !in_app_iff.
  split.
  - intros [H | H].
    + destruct (gt_num (Weather.temperature w) 35) eqn:E1;
        [apply gt_num_true in E1; lra |].
      destruct (gt_num (Weather.temperature w) 30) eqn:E2;
        [apply gt_num_true in E2; lra | simpl in H; tauto].
    + exfalso.
      repeat match goal with
             | H : _ \/ _ |- _ => destruct H as [H | H]
             | H : In _ (map _ (if ?b then _ else _)) |- _ => destruct b; simpl in H
             | H : _ = _ |- _ => discriminate H
             | H : False |- _ => destruct H
             end.
  - intros L. left. split_num; simpl; auto.
Qed.

(** C4.  The alert thresholds are compared with the converted, rounded
    display temperature: a heat alert is raised exactly when that value
    exceeds 30 in the selected unit, so one and the same provider reading
    (20 degrees Celsius) raises no alert when shown in Celsius and a heat
    alert when shown in Fahrenheit. *)
Theorem alerts_shift_with_unit :
  (forall (d : Weather.CurrentData) (unit : string),
     In "heat" (map Weather.type
                  (Weather.generateWeatherAlerts (Weather.formatWeatherData d unit)))
     <-> 30 < Math_round (Weather.convertTemperature (Weather.api_temp d) unit)) /\
  (exists d : Weather.CurrentData,
     map kind (Weather.generateWeatherAlerts (Weather.formatWeatherData d "celsius")) = []
     /\ map kind (Weather.generateWeatherAlerts (Weather.formatWeatherData d "fahrenheit"))
        = [("heat", "high")]).
Proof.
  split.
  - intros d unit. rewrite heat_alert_iff. simpl.
    rewrite Zlt_Qlt. reflexivity.
  - exists (sample_current 20 5 50 10000 "Clear"). split; reflexivity.
Qed.

(** ** Fetch and cache *)

Section Fetch.
Context `{JsHost}.

Lemma isCacheValid_fresh {A : Type} (now : Z) (e : Weather.CacheEntry A) :
  Weather.timestamp e <> 0 ->
  now - Weather.timestamp e < Weather.CACHE_DURATION ->
  Weather.isCacheValid now (Some e) = true.
Proof.
  intros Hts Hage. unfold Weather.isCacheValid.
  destruct (Z.eqb_spec (Weather.timestamp e) 0) as [E | _]; [contradiction |].
  apply Z.ltb_lt. exact Hage.
Qed.

Lemma isCacheValid_inv {A : Type} (now : Z) (o : option (Weather.CacheEntry A)) :
  Weather.isCacheValid now o = true ->
  exists e, o = Some e /\ Weather.timestamp e <> 0
            /\ now - Weather.timestamp e < Weather.CACHE_DURATION.
Proof.
  destruct o as [e |]; simpl; [| discriminate].
  destruct (Z.eqb_spec (Weather.timestamp e) 0) as [E | N]; [discriminate |].
  intros L. apply Z.ltb_lt in L. eauto.
Qed.

Lemma fetchCurrentWeather_hit (remote : string -> Weather.Reply Weather.CurrentData)
    (city : string) (w : Weather.World) (e : Weather.CacheEntry Weather.CurrentData) :
  Weather.current w !! city = Some e ->
  Weather.timestamp e <> 0 ->
  Weather.clock w - Weather.timestamp e < Weather.CACHE_DURATION ->
  Weather.fetchCurrentWeather remote city w = (Returned (Weather.data e), w).
Proof.
  intros Hl Hts Hage. unfold Weather.fetchCurrentWeather.
  rewrite Hl, (isCacheValid_fresh _ _ Hts Hage). reflexivity.
Qed.

Lemma fetchForecastWeather_hit (remote : string -> Weather.Reply Weather.ForecastData)
    (city : string) (w : Weather.World) (e : Weather.CacheEntry Weather.ForecastData) :
  Weather.forecast w !! city = Some e ->
  Weather.timestamp e <> 0 ->
  Weather.clock w - Weather.timestamp e < Weather.CACHE_DURATION ->
  Weather.fetchForecastWeather remote city w = (Returned (Weather.data e), w).
Proof.
  intros Hl Hts Hage. unfold Weather.fetchForecastWeather.
  rewrite Hl, (isCacheValid_fresh _ _ Hts Hage). reflexivity.
Qed.

(** A call that does not hit the cache issues exactly one request. *)
Lemma fetchCurrentWeather_miss (remote : string -> Weather.Reply Weather.CurrentData)
    (city : string) (w : Weather.World) :
  Weather.isCacheValid (Weather.clock w) (Weather.current w !! city) = false ->
  exists url,
    Weather.requests (Weather.fetchCurrentWeather remote city w).2
    = Weather.requests w ++ [url].
Proof.
  intros Hm. unfold Weather.fetchCurrentWeather. rewrite Hm.
  eexists. cbv zeta.
  destruct (Weather.outcome _) as [err | status [d | err]]; simpl;
    repeat match goal with |- context [if ?b then _ else _] => destruct b end;
    reflexivity.
Qed.

End Fetch.

Lemma stamped_current `{JsHost} (remote : string -> Weather.Reply Weather.CurrentData)
    (city : string) (w : Weather.World) :
  stamped w ->
  0 < Weather.clock (Weather.fetchCurrentWeather remote city w).2 ->
  stamped (Weather.fetchCurrentWeather remote city w).2.
Proof.
  intros [Hc Hf]. unfold Weather.fetchCurrentWeather.
  destruct (Weather.isCacheValid _ _).
  { destruct (Weather.current w !! city); intros _; split; assumption. }
  cbv zeta.
  destruct (Weather.outcome _) as [err | status [d | err]]; simpl;
    repeat match goal with |- context [if ?b then _ else _] => destruct b end;
    simpl; intros Hclock; split; try assumption.
  intros c e. simpl. destruct (decide (city = c)) as [-> | Hne].
  - rewrite lookup_insert_eq. intros [= <-]. exact Hclock.
  - rewrite lookup_insert_ne by exact Hne. apply Hc.
Qed.

Lemma stamped_forecast `{JsHost} (remote : string -> Weather.Reply Weather.ForecastData)
    (city : string) (w : Weather.World) :
  stamped w ->
  0 < Weather.clock (Weather.fetchForecastWeather remote city w).2 ->
  stamped (Weather.fetchForecastWeather remote city w).2.
Proof.
  intros [Hc Hf]. unfold Weather.fetchForecastWeather.
  destruct (Weather.isCacheValid _ _).
  { destruct (Weather.forecast w !! city); intros _; split; assumption. }
  cbv zeta.
  destruct (Weather.outcome _) as [err | status [d | err]]; simpl;
    repeat match goal with |- context [if ?b then _ else _] => destruct b end;
    simpl; intros Hclock; split; try assumption.
  intros c e. simpl. destruct (decide (city = c)) as [-> | Hne].
  - rewrite lookup_insert_eq. intros [= <-]. exact Hclock.
  - rewrite lookup_insert_ne by exact Hne. apply Hf.
Qed.

(** Every timestamp in the cache is a reading of [Date.now()], hence
    positive. *)
Lemma reachable_stamped `{JsHost} (w : Weather.World) :
  reachable w -> 0 < Weather.clock w /\ stamped w.
Proof.
  induction 1 as [now Hnow | dt w _ [_ IH] Hclock
                  | remote city w _ [_ IH] Hclock
                  | remote city w _ [_ IH] Hclock].
  - split; [exact Hnow |]. split; intros city e Hl; simpl in Hl;
      rewrite lookup_empty in Hl; discriminate Hl.
  - split; [exact Hclock | exact IH].
  - split; [exact Hclock | apply stamped_current; assumption].
  - split; [exact Hclock | apply stamped_forecast; assumption].
Qed.

(** C1.  In every state the cache can reach (it starts empty and is
    written by the two fetch functions only, on a clock that reads a
    positive number of milliseconds), when the cache holds an entry for the
    city whose age is below ten minutes, fetching the current weather
    returns the cached payload and leaves the world, hence the list of
    issued requests, as it was; the forecast fetch does the same with its
    own map. *)
Theorem fresh_entry_served_from_cache `{JsHost}
    (remoteC : string -> Weather.Reply Weather.CurrentData)
    (remoteF : string -> Weather.Reply Weather.ForecastData)
    (city : string) (w : Weather.World) :
  reachable w ->
  (forall e : Weather.CacheEntry Weather.CurrentData,
     Weather.current w !! city = Some e ->
     Weather.clock w - Weather.timestamp e < Weather.CACHE_DURATION ->
     Weather.fetchCurrentWeather remoteC city w = (Returned (Weather.data e), w) /\
     Weather.requests (Weather.fetchCurrentWeather remoteC city w).2
     = Weather.requests w) /\
  (forall e : Weather.CacheEntry Weather.ForecastData,
     Weather.forecast w !! city = Some e ->
     Weather.clock w - Weather.timestamp e < Weather.CACHE_DURATION ->
     Weather.fetchForecastWeather remoteF city w = (Returned (Weather.data e), w) /\
     Weather.requests (Weather.fetchForecastWeather remoteF city w).2
     = Weather.requests w).
Proof.
  intros Hreach. destruct (reachable_stamped w Hreach) as (_ & Hc & Hf).
  split; intros e Hl Hage.
  - assert (Hts : Weather.timestamp e <> 0) by (specialize (Hc city e Hl); lia).
    rewrite (fetchCurrentWeather_hit remoteC city w e Hl Hts Hage).
    split; reflexivity.
  - assert (Hts : Weather.timestamp e <> 0) by (specialize (Hf city e Hl); lia).
    rewrite (fetchForecastWeather_hit remoteF city w e Hl Hts Hage).
    split; reflexivity.
Qed.

Lemma fresh_entry_served_from_cache_witness :
  let w := advance 1000
             (@Weather.fetchCurrentWeather ascii_host (answering 200 paris_now) "Paris"
                (empty_world 1700000000000)).2 in
  @reachable ascii_host w /\
  @Weather.fetchCurrentWeather ascii_host (answering 404 paris_now) "Paris" w
  = (Returned paris_now, w) /\
  Weather.requests
    (@Weather.fetchCurrentWeather ascii_host (answering 404 paris_now) "Paris" w).2
  = Weather.requests w.
Proof.
  intros w.
  assert (Hreach : @reachable ascii_host w).
  { apply (@reachable_tick ascii_host); [| reflexivity].
    apply (@reachable_current ascii_host); [| reflexivity].
    apply (@reachable_start ascii_host). reflexivity. }
  split; [exact Hreach |].
  apply (proj1 (@fresh_entry_served_from_cache ascii_host (answering 404 paris_now)
                  (answering 404 paris_forecast) "Paris" w Hreach)
           {| Weather.data := paris_now; Weather.timestamp := 1700000000000 |}).
  - reflexivity.
  - reflexivity.
Defined.

(** ** HTTP failures *)

Section Failures.
Context `{JsHost}.

Lemma fetchCurrentWeather_failure (remote : string -> Weather.Reply Weather.CurrentData)
    (city : string) (w : Weather.World) (status : Z) (body : Weather.CurrentData + string) :
  Weather.isCacheValid (Weather.clock w) (Weather.current w !! city) = false ->
  (forall url, Weather.outcome (remote url) = Weather.Response status body) ->
  Weather.response_ok status = false ->
  (Weather.fetchCurrentWeather remote city w).1 =
    Thrown (if status =? 404
            then "City not found. Please check the spelling and try again."
            else if status =? 401 then "API key error. Please contact support."
            else "Failed to fetch weather data. Please try again.").
Proof.
  intros Hm Hr Hok. unfold Weather.fetchCurrentWeather.
  rewrite Hm. cbv zeta. rewrite Hr, Hok. simpl.
  destruct (status =? 404); [reflexivity |].
  destruct (status =? 401); reflexivity.
Qed.

Lemma fetchForecastWeather_failure (remote : string -> Weather.Reply Weather.ForecastData)
    (city : string) (w : Weather.World) (status : Z) (body : Weather.ForecastData + string) :
  Weather.isCacheValid (Weather.clock w) (Weather.forecast w !! city) = false ->
  (forall url, Weather.outcome (remote url) = Weather.Response status body) ->
  Weather.response_ok status = false ->
  (Weather.fetchForecastWeather remote city w).1 =
    Thrown (if status =? 404 then "City not found for forecast data."
            else "Failed to fetch forecast data.").
Proof.
  intros Hm Hr Hok. unfold Weather.fetchForecastWeather.
  rewrite Hm. cbv zeta. rewrite Hr, Hok. simpl.
  destruct (status =? 404); reflexivity.
Qed.

End Failures.

(** C2 at status 401.  The current-weather fetch reports the credential
    error; the forecast fetch has no branch for 401 and reports its generic
    failure. *)
Theorem forecast_401_is_generic :
  (@Weather.fetchCurrentWeather ascii_host (answering 401 paris_now) "Paris"
     (empty_world 1700000000000)).1
  = Thrown "API key error. Please contact support." /\
  (@Weather.fetchForecastWeather ascii_host (answering 401 paris_forecast) "Paris"
     (empty_world 1700000000000)).1
  = Thrown "Failed to fetch forecast data.".
Proof. split; reflexivity. Qed.

(** ** Search history *)

(** The history key never collides with the two fixed keys. *)
Lemma history_key_distinct (uid : string) :
  History.HISTORY_KEY_PREFIX +:+ uid <> Auth.USERS_KEY /\
  History.HISTORY_KEY_PREFIX +:+ uid <> Auth.SESSION_KEY.
Proof. split; discriminate. Qed.

Section HistoryFacts.
Context `{JsHost}.

Lemma getSearchHistory_save (history : list HistoryEntry) (st : LocalStorage)
    (session : Session) :
  session_item st = Some session ->
  History.getSearchHistory (History.saveSearchHistory history st)
  = take History.MAX_HISTORY_ITEMS history.
Proof.
  intros Hs.
  unfold History.getSearchHistory, History.saveSearchHistory,
    History.getUserHistoryKey, Auth.getCurrentSession.
  rewrite Hs. simpl. rewrite ?Hs. simpl.
  rewrite lookup_insert_eq. reflexivity.
Qed.

Lemma getSearchHistory_logged_out (st : LocalStorage) :
  session_item st = None -> History.getSearchHistory st = [].
Proof.
  intros Hs.
  unfold History.getSearchHistory, History.getUserHistoryKey, Auth.getCurrentSession.
  rewrite Hs. reflexivity.
Qed.

Lemma saveSearchHistory_session (history : list HistoryEntry) (st : LocalStorage) :
  session_item (History.saveSearchHistory history st) = session_item st.
Proof.
  unfold History.saveSearchHistory. destruct (History.getUserHistoryKey st); reflexivity.
Qed.

Lemma addToHistory_session (now : Z) (city : string)
    (wd : option History.WeatherSummary) (st : LocalStorage) :
  session_item (History.addToHistory now city wd st) = session_item st.
Proof. unfold History.addToHistory. apply saveSearchHistory_session. Qed.

Lemma getSearchHistory_add (now : Z) (city : string)
    (wd : option History.WeatherSummary) (st : LocalStorage) (session : Session) :
  session_item st = Some session ->
  History.getSearchHistory (History.addToHistory now city wd st)
  = history_entry now city wd
    :: take 19 (filter (fun item => ~ same_city city item) (History.getSearchHistory st)).
Proof.
  intros Hs. unfold History.addToHistory.
  rewrite (getSearchHistory_save _ _ _ Hs). reflexivity.
Qed.

Lemma filter_none {A : Type} (P : A -> Prop) `{forall x, Decision (P x)} (l : list A) :
  Forall (fun x => ~ P x) l -> filter P l = [].
Proof.
  induction 1 as [| x l Hx _ IH]; [reflexivity |].
  rewrite filter_cons_False by exact Hx. exact IH.
Qed.

Lemma others_kept (city : string) (n : nat) (l : list HistoryEntry) :
  Forall (fun item => ~ same_city city item)
         (take n (filter (fun item => ~ same_city city item) l)).
Proof.
  apply Forall_take. apply Forall_forall. intros item Hin.
  apply list_elem_of_filter in Hin. tauto.
Qed.

End HistoryFacts.

(** For a logged-in user, the history after an add starts with the entry
    just built, the only one for that city. *)
Lemma addToHistory_front `{JsHost} (now : Z) (city : string)
    (wd : option History.WeatherSummary) (st : LocalStorage) (session : Session) :
  session_item st = Some session ->
  let history := History.getSearchHistory (History.addToHistory now city wd st) in
  head history = Some (history_entry now city wd) /\
  filter (same_city city) history = [history_entry now city wd].
Proof.
  intros Hs history. subst history.
  rewrite (getSearchHistory_add now city wd st session Hs).
  split; [reflexivity |].
  rewrite filter_cons_True by reflexivity.
  f_equal. apply filter_none. apply others_kept.
Qed.

(** C8.  When the history already holds an entry for the city (letter case
    apart), adding the city again leaves exactly one entry for it: the new
    one, at the front, stamped with the instant of this call. *)
Theorem addToHistory_single_front `{JsHost} (now : Z) (city : string)
    (wd : option History.WeatherSummary) (st : LocalStorage) :
  Exists (same_city city) (History.getSearchHistory st) ->
  let history := History.getSearchHistory (History.addToHistory now city wd st) in
  head history = Some (history_entry now city wd) /\
  hist_timestamp (history_entry now city wd) = now /\
  filter (same_city city) history = [history_entry now city wd].
Proof.
  intros Hpresent.
  destruct (session_item st) as [session |] eqn:Hs.
  - destruct (addToHistory_front now city wd st session Hs) as [Hhead Hone].
    repeat split; assumption.
  - rewrite (getSearchHistory_logged_out st Hs) in Hpresent. inversion Hpresent.
Qed.

Lemma addToHistory_single_front_witness :
  let st1 := @History.addToHistory ascii_host 1700000100000 "Paris" None admin_store in
  let st2 := @History.addToHistory ascii_host 1700000200000 "Paris" None st1 in
  History.getSearchHistory st1 = [history_entry 1700000100000 "Paris" None] /\
  head (History.getSearchHistory st2) = Some (history_entry 1700000200000 "Paris" None) /\
  hist_timestamp (history_entry 1700000200000 "Paris" None) = 1700000200000 /\
  filter (@same_city ascii_host "Paris") (History.getSearchHistory st2)
  = [history_entry 1700000200000 "Paris" None].
Proof.
  intros st1 st2. split; [reflexivity |].
  apply (@addToHistory_single_front ascii_host 1700000200000 "Paris" None st1).
  apply Exists_cons_hd. reflexivity.
Defined.

(** Adding "Paris" twice: one entry, the second one. *)
Example paris_twice :
  History.getSearchHistory
    (@History.addToHistory ascii_host 1700000200000 "Paris" None
       (@History.addToHistory ascii_host 1700000100000 "Paris" None admin_store))
  = [history_entry 1700000200000 "Paris" None].
Proof. reflexivity. Qed.

(** C9.  What [saveSearchHistory] stores under the user's key is the first
    twenty entries of its argument; the history read back after a save, and
    therefore after an add, has at most twenty entries. *)
Theorem history_capped `{JsHost} (st : LocalStorage) :
  History.MAX_HISTORY_ITEMS = 20%nat /\
  (forall (history : list HistoryEntry) (key : string),
     History.getUserHistoryKey st = Some key ->
     history_items (History.saveSearchHistory history st) !! key
     = Some (take 20 history)) /\
  (forall history : list HistoryEntry,
     (length (History.getSearchHistory (History.saveSearchHistory history st)) <= 20)%nat) /\
  (forall (now : Z) (city : string) (wd : option History.WeatherSummary),
     (length (History.getSearchHistory (History.addToHistory now city wd st)) <= 20)%nat).
Proof.
  assert (Hsave : forall history : list HistoryEntry,
    (length (History.getSearchHistory (History.saveSearchHistory history st)) <= 20)%nat).
  { intros history. destruct (session_item st) as [session |] eqn:Hs.
    - rewrite (getSearchHistory_save _ _ _ Hs). rewrite length_take.
      unfold History.MAX_HISTORY_ITEMS. lia.
    - rewrite getSearchHistory_logged_out; [simpl; lia |].
      rewrite saveSearchHistory_session. exact Hs. }
  split; [reflexivity |]. split; [| split].
  - intros history key Hk. unfold History.saveSearchHistory. rewrite Hk. simpl.
    apply lookup_insert_eq.
  - exact Hsave.
  - intros now city wd. unfold History.addToHistory. apply Hsave.
Qed.

Lemma history_capped_witness :
  history_items
    (History.saveSearchHistory (replicate 25 (history_entry 0 "Paris" None)) admin_store)
  !! "weather_history_admin-1700000000000"
  = Some (replicate 20 (history_entry 0 "Paris" None)).
Proof.
  apply (proj1 (proj2 (@history_capped ascii_host admin_store))
           (replicate 25 (history_entry 0 "Paris" None))).
  reflexivity.
Defined.

(** ** Login *)

Example isValidEmail_samples :
  Auth.isValidEmail "admin@weather.com" = true /\
  Auth.isValidEmail "a@b.c" = true /\
  Auth.isValidEmail "a@b" = false /\
  Auth.isValidEmail "a@.c" = false /\
  Auth.isValidEmail "a@b." = false /\
  Auth.isValidEmail "@b.c" = false /\
  Auth.isValidEmail "a b@c.d" = false /\
  Auth.isValidEmail "a@b@c.d" = false.
Proof. repeat split. Qed.

Example login_admin :
  (@Auth.loginUser ascii_host 1700000001000 "Admin@Weather.com" "admin@123" fresh_store)
  = ({| Auth.success := true; Auth.message := "Login successful!";
        Auth.user := Some admin_session |}, admin_store).
Proof. reflexivity. Qed.

(** C10.  With a non-empty password and a well-formed e-mail address,
    [loginUser] answers an unknown address and a wrong password for a known
    one with the same result, message "Invalid email or password", and
    leaves the storage untouched. *)
Theorem loginUser_same_rejection `{JsHost} (now : Z) (mail pass : string)
    (st : LocalStorage) :
  pass <> "" ->
  Auth.isValidEmail mail = true ->
  (Auth.findUserByEmail st mail = None ->
   Auth.loginUser now mail pass st = (login_rejected, st)) /\
  (forall u : User,
     Auth.findUserByEmail st mail = Some u ->
     password u <> pass ->
     Auth.loginUser now mail pass st = (login_rejected, st)).
Proof.
  intros Hp Hv.
  assert (Hm : mail <> "") by (intros ->; discriminate Hv).
  split.
  - intros Hf. unfold Auth.loginUser.
    rewrite (bool_decide_eq_false_2 _ Hm), (bool_decide_eq_false_2 _ Hp), Hv, Hf.
    reflexivity.
  - intros u Hf Hne. unfold Auth.loginUser.
    rewrite (bool_decide_eq_false_2 _ Hm), (bool_decide_eq_false_2 _ Hp), Hv, Hf.
    simpl. rewrite (bool_decide_eq_false_2 _ Hne). reflexivity.
Qed.

Lemma loginUser_same_rejection_witness :
  @Auth.loginUser ascii_host 1700000001000 "nobody@weather.com" "admin@123" fresh_store
  = (login_rejected, fresh_store) /\
  @Auth.loginUser ascii_host 1700000001000 "admin@weather.com" "letmein" fresh_store
  = (login_rejected, fresh_store).
Proof.
  split.
  - apply (@loginUser_same_rejection ascii_host 1700000001000 "nobody@weather.com"
             "admin@123" fresh_store); [discriminate | reflexivity | reflexivity].
  - apply (proj2 (@loginUser_same_rejection ascii_host 1700000001000
                    "admin@weather.com" "letmein" fresh_store
                    ltac:(discriminate) eq_refl) admin_user);
      [reflexivity | discriminate].
Defined.

(** ** Insertion-ordered dictionaries *)

Section DictFacts.
Context {K V : Type} `{EqDecision K}.
Implicit Types (k : K) (d : list (K * V)) (f : option V -> V).

Lemma dict_get_upsert k k' f d :
  dict_get k' (dict_upsert k f d)
  = if decide (k = k') then Some (f (dict_get k d)) else dict_get k' d.
Proof.
  induction d as [| [k0 v] d IH]; simpl.
  - destruct (decide (k = k')); reflexivity.
  - destruct (decide (k0 = k)) as [-> | Hne]; simpl.
    + destruct (decide (k = k')); reflexivity.
    + rewrite IH.
      destruct (decide (k0 = k')) as [-> | Hne'];
        destruct (decide (k = k')); congruence.
Qed.

Lemma dict_get_keys k d : is_Some (dict_get k d) <-> k ∈ Object_keys d.
Proof.
  unfold Object_keys. induction d as [| [k0 v] d IH]; simpl.
  - split; [intros [? ?]; discriminate | intros Hin; inversion Hin].
  - rewrite elem_of_cons. destruct (decide (k0 = k)) as [-> | Hne].
    + split; eauto.
    + rewrite IH. split; [tauto | intros [-> | Hin]; [contradiction | exact Hin]].
Qed.

Lemma keys_upsert k f d :
  Object_keys (dict_upsert k f d)
  = if decide (k ∈ Object_keys d) then Object_keys d else Object_keys d ++ [k].
Proof.
  unfold Object_keys. induction d as [| [k0 v] d IH]; simpl.
  - destruct (decide (k ∈ [])) as [Hin | _]; [inversion Hin | reflexivity].
  - destruct (decide (k0 = k)) as [-> | Hne]; simpl.
    + rewrite decide_True by apply list_elem_of_here. reflexivity.
    + rewrite IH. destruct (decide (k ∈ map fst d)) as [Hin | Hout].
      * rewrite decide_True by (apply list_elem_of_further; exact Hin). reflexivity.
      * rewrite decide_False; [reflexivity |].
        rewrite elem_of_cons. intros [-> | Hin]; congruence.
Qed.

Lemma keys_upsert_NoDup k f d :
  NoDup (Object_keys d) -> NoDup (Object_keys (dict_upsert k f d)).
Proof.
  intros Hnd. rewrite keys_upsert.
  destruct (decide (k ∈ Object_keys d)) as [Hin | Hout]; [exact Hnd |].
  apply NoDup_app. split; [exact Hnd |]. split; [| apply NoDup_singleton].
  intros x Hx Hk. apply list_elem_of_singleton in Hk. congruence.
Qed.

Lemma keys_upsert_mono k k' f d :
  k' ∈ Object_keys d -> k' ∈ Object_keys (dict_upsert k f d).
Proof.
  intros Hin. rewrite keys_upsert.
  destruct (decide (k ∈ Object_keys d)); [exact Hin |].
  apply elem_of_app. left. exact Hin.
Qed.

Lemma keys_upsert_here k f d : k ∈ Object_keys (dict_upsert k f d).
Proof.
  rewrite keys_upsert.
  destruct (decide (k ∈ Object_keys d)) as [Hin | _]; [exact Hin |].
  apply elem_of_app. right. apply list_elem_of_here.
Qed.

Lemma values_upsert (P : V -> Prop) k f d :
  Forall P (Object_values d) ->
  P (f (dict_get k d)) ->
  Forall P (Object_values (dict_upsert k f d)).
Proof.
  unfold Object_values. induction d as [| [k0 v] d IH]; simpl; intros Hall Hf.
  - constructor; [exact Hf | constructor].
  - inversion Hall as [| ? ? Hv Hd]; subst.
    destruct (decide (k0 = k)) as [-> | Hne]; simpl.
    + constructor; assumption.
    + constructor; [exact Hv | apply IH; assumption].
Qed.

End DictFacts.

(** ** Daily forecast: grouping *)

Lemma dateKey_valid (dt : Z) :
  valid_time dt -> Weather.dateKey dt = Returned (day_of dt).
Proof.
  unfold valid_time, Weather.dateKey, day_of. intros Hv.
  destruct (Z.leb_spec (Z.abs (dt * 1000)) Weather.MAX_DATE_MS); [reflexivity | lia].
Qed.

Lemma groupByDate_fold (items : list Weather.ForecastItem) :
  Forall (fun item => valid_time (Weather.fc_dt item)) items ->
  forall acc : list (Z * Weather.DayGroup),
    NoDup (Object_keys acc) ->
    Forall nonempty_day (Object_values acc) ->
    exists dailyData,
      fold_left Weather.group_step items (Returned acc) = Returned dailyData /\
      NoDup (Object_keys dailyData) /\
      Forall nonempty_day (Object_values dailyData) /\
      (forall k, k ∈ Object_keys acc -> k ∈ Object_keys dailyData) /\
      (forall item, item ∈ items ->
                    day_of (Weather.fc_dt item) ∈ Object_keys dailyData).
Proof.
  induction 1 as [| item items Hv _ IH]; intros acc Hnd Hne.
  - exists acc. repeat split; auto. intros item Hin. inversion Hin.
  - simpl. rewrite (dateKey_valid _ Hv).
    set (acc' := dict_upsert _ _ acc).
    destruct (IH acc') as (d & Hd & Hnd' & Hne' & Hkeys & Hitems).
    + apply keys_upsert_NoDup. exact Hnd.
    + apply values_upsert; [exact Hne |].
      destruct (dict_get _ acc); unfold nonempty_day; simpl; [| discriminate].
      intros E. apply app_eq_nil in E. destruct E as [_ E]. discriminate E.
    + exists d. split; [exact Hd |]. split; [exact Hnd' |]. split; [exact Hne' |].
      split.
      * intros k Hk. apply Hkeys. apply keys_upsert_mono. exact Hk.
      * intros it Hin. apply elem_of_cons in Hin. destruct Hin as [-> | Hin].
        -- apply Hkeys. apply keys_upsert_here.
        -- apply Hitems. exact Hin.
Qed.

(** ** Daily forecast: one day *)

Lemma Math_min_le (t : Q) (ts : list Q) : (Weather.Math_min t ts <= t)%Q.
Proof.
  unfold Weather.Math_min. revert t.
  induction ts as [| x ts IH]; intros t; simpl; [apply Qle_refl |].
  eapply Qle_trans; [apply IH | apply Q.le_min_l].
Qed.

Lemma Math_max_ge (t : Q) (ts : list Q) : (t <= Weather.Math_max t ts)%Q.
Proof.
  unfold Weather.Math_max. revert t.
  induction ts as [| x ts IH]; intros t; simpl; [apply Qle_refl |].
  eapply Qle_trans; [apply Q.le_max_l | apply IH].
Qed.

Lemma countConditions_fold_keys (cs : list string) (acc : list (string * nat)) (c : string) :
  c ∈ Object_keys acc \/ c ∈ cs ->
  c ∈ Object_keys
        (fold_left
           (fun counts c =>
              dict_upsert c
                (fun old => (match old with Some n => n | None => 0 end + 1)%nat) counts)
           cs acc).
Proof.
  revert acc. induction cs as [| c0 cs IH]; intros acc [Hin | Hin]; simpl.
  - exact Hin.
  - inversion Hin.
  - apply IH. left. apply keys_upsert_mono. exact Hin.
  - apply IH. apply elem_of_cons in Hin. destruct Hin as [-> | Hin].
    + left. apply keys_upsert_here.
    + right. exact Hin.
Qed.

Lemma dominantCondition_returns (c : string) (cs : list string) :
  exists dominant,
    Weather.dominantCondition (Weather.countConditions (c :: cs)) = Returned dominant.
Proof.
  unfold Weather.dominantCondition.
  destruct (Object_keys (Weather.countConditions (c :: cs))) as [| k ks] eqn:E.
  - assert (Hin : c ∈ Object_keys (Weather.countConditions (c :: cs))).
    { apply countConditions_fold_keys. right. apply list_elem_of_here. }
    rewrite E in Hin. inversion Hin.
  - eexists. reflexivity.
Qed.

Lemma summarise_returns (unit : string) (day : Weather.DayGroup) :
  nonempty_day day ->
  exists entry,
    Weather.summarise unit day = Returned entry /\
    Weather.minTemp entry <= Weather.maxTemp entry.
Proof.
  unfold nonempty_day, Weather.summarise, Weather.temps, Weather.conditions.
  destruct (Weather.rows day) as [| r rs] eqn:Hrows; [contradiction |]. intros _.
  simpl map.
  destruct (dominantCondition_returns (Weather.fc_main r) (map Weather.fc_main rs))
    as [dominant ->].
  eexists. split; [reflexivity |]. simpl.
  apply Math_round_mono, convertTemperature_mono.
  eapply Qle_trans; [apply Math_min_le | apply Math_max_ge].
Qed.

Lemma map_throwing_all {A B : Type} (f : A -> Completion B) (P : B -> Prop) (xs : list A) :
  Forall (fun x => exists y, f x = Returned y /\ P y) xs ->
  exists ys, Weather.map_throwing f xs = Returned ys
             /\ length ys = length xs /\ Forall P ys.
Proof.
  induction 1 as [| x xs (y & Hy & Py) _ (ys & Hys & Hlen & Pys)]; simpl.
  - exists []. repeat split; constructor.
  - rewrite Hy, Hys. exists (y :: ys). repeat split; simpl; [lia |].
    constructor; assumption.
Qed.

(** ** Daily forecast: five days *)

Lemma day_of_shift (t0 j : Z) : day_of (t0 + 86400 * j) = day_of t0 + j.
Proof.
  unfold day_of.
  replace ((t0 + 86400 * j) * 1000) with (t0 * 1000 + j * 86400000) by lia.
  apply Z.div_add. lia.
Qed.

Lemma three_hourly_valid (t0 : Z) (items : list Weather.ForecastItem) :
  three_hourly t0 items ->
  valid_time t0 -> valid_time (t0 + 421200) ->
  Forall (fun item => valid_time (Weather.fc_dt item)) items.
Proof.
  intros [Hlen Hdt] Hlo Hhi. apply Forall_forall. intros item Hin.
  apply list_elem_of_lookup in Hin. destruct Hin as [i Hi].
  pose proof (lookup_lt_Some _ _ _ Hi) as Hlt.
  rewrite (Hdt i item Hi).
  unfold valid_time, Weather.MAX_DATE_MS in *. lia.
Qed.

Lemma three_hourly_days (t0 : Z) (items : list Weather.ForecastItem) (j : nat) :
  three_hourly t0 items -> (j < 5)%nat ->
  exists item, item ∈ items /\ day_of (Weather.fc_dt item) = day_of t0 + Z.of_nat j.
Proof.
  intros [Hlen Hdt] Hj.
  destruct (lookup_lt_is_Some_2 items (8 * j)) as [item Hi]; [lia |].
  exists item. split; [eapply list_elem_of_lookup_2; exact Hi |].
  rewrite (Hdt _ _ Hi), <- day_of_shift. f_equal. lia.
Qed.

Lemma processDailyForecast_at_most_five (forecastData : Weather.ForecastData)
    (unit : string) (days : list Weather.DailyEntry) :
  Weather.processDailyForecast forecastData unit = Returned days ->
  (length days <= 5)%nat.
Proof.
  unfold Weather.processDailyForecast.
  destruct (Weather.groupByDate _) as [dailyData | e]; [| discriminate].
  destruct (Weather.map_throwing _ _) as [all | e]; [| discriminate].
  intros [= <-]. rewrite length_take. lia.
Qed.

Lemma steady_forecast_three_hourly (t0 : Z) :
  three_hourly t0 (Weather.fc_list (steady_forecast t0)).
Proof.
  split; [reflexivity |].
  intros i item Hi. simpl in Hi.
  do 40 (destruct i as [| i]; [injection Hi as <-; reflexivity |]).
  discriminate Hi.
Qed.

(** The same forty records start in the afternoon and touch six calendar
    days; the sixth is cut off. *)
Example six_days_grouped :
  exists dailyData,
    Weather.groupByDate (Weather.fc_list (steady_forecast 1700020000)) = Returned dailyData /\
    Object_keys dailyData = [19676; 19677; 19678; 19679; 19680; 19681].
Proof. eexists. split; reflexivity. Qed.

(** ** Daily forecast: the dominant condition *)

Lemma countConditions_fold (cs : list string) :
  Weather.countConditions cs = fold_left count_step cs [].
Proof. reflexivity. Qed.

Lemma count_in_step (counts : list (string * nat)) (c0 c : string) :
  count_in (count_step counts c0) c
  = if decide (c0 = c) then S (count_in counts c) else count_in counts c.
Proof.
  unfold count_in, count_step. rewrite dict_get_upsert.
  destruct (decide (c0 = c)) as [-> | _]; [| reflexivity].
  destruct (dict_get c counts); lia.
Qed.

Lemma count_in_fold (cs : list string) (acc : list (string * nat)) (c : string) :
  count_in (fold_left count_step cs acc) c = (count_in acc c + occurrences c cs)%nat.
Proof.
  revert acc. induction cs as [| c0 cs IH]; intros acc; simpl.
  - unfold occurrences. simpl. lia.
  - rewrite IH, count_in_step. unfold occurrences.
    destruct (decide (c0 = c)) as [-> | Hne].
    + rewrite filter_cons_True by reflexivity. simpl. lia.
    + rewrite filter_cons_False by exact Hne. reflexivity.
Qed.

Lemma keys_fold (cs : list string) (acc : list (string * nat)) :
  Object_keys (fold_left count_step cs acc)
  = Object_keys acc ++ filter (fun x => x ∉ Object_keys acc) (first_seen cs).
Proof.
  revert acc. induction cs as [| c cs IH]; intros acc; simpl.
  - rewrite filter_nil, app_nil_r. reflexivity.
  - rewrite IH. unfold count_step. rewrite !(keys_upsert c _ acc).
    destruct (decide (c ∈ Object_keys acc)) as [Hin | Hout].
    + rewrite filter_cons_False by (intros Hc; exact (Hc Hin)).
      rewrite list_filter_filter_l; [reflexivity |].
      intros x Hx ->. exact (Hx Hin).
    + rewrite filter_cons_True by exact Hout.
      rewrite <- app_assoc. simpl. do 2 f_equal.
      rewrite list_filter_filter. apply list_filter_iff.
      intros x. rewrite elem_of_app, list_elem_of_singleton. tauto.
Qed.

Lemma countConditions_keys (cs : list string) :
  Object_keys (Weather.countConditions cs) = first_seen cs.
Proof.
  rewrite countConditions_fold, keys_fold. simpl.
  induction (first_seen cs) as [| x l IH]; [reflexivity |].
  rewrite filter_cons_True by apply not_elem_of_nil. f_equal. exact IH.
Qed.

Lemma countConditions_count (cs : list string) (c : string) :
  count_in (Weather.countConditions cs) c = occurrences c cs.
Proof. rewrite countConditions_fold, count_in_fold. reflexivity. Qed.

Lemma first_seen_elem (cs : list string) (c : string) : c ∈ first_seen cs <-> c ∈ cs.
Proof.
  induction cs as [| c0 cs IH]; simpl; [reflexivity |].
  rewrite !elem_of_cons, list_elem_of_filter, IH.
  destruct (decide (c = c0)); tauto.
Qed.

Lemma first_seen_NoDup (cs : list string) : NoDup (first_seen cs).
Proof.
  induction cs as [| c cs IH]; simpl; [constructor |].
  constructor.
  - rewrite list_elem_of_filter. tauto.
  - apply NoDup_filter. exact IH.
Qed.

Lemma count_gt_keys (counts : list (string * nat)) (a b : string) :
  a ∈ Object_keys counts -> b ∈ Object_keys counts ->
  Weather.count_gt counts a b
  = if (count_in counts b <? count_in counts a)%nat then true else false.
Proof.
  intros Ha Hb. apply dict_get_keys in Ha, Hb.
  destruct Ha as [x Hx], Hb as [y Hy].
  unfold Weather.count_gt, count_in. rewrite Hx, Hy.
  destruct (y <? x)%nat; reflexivity.
Qed.

(** [reduce] keeps the later of two keys unless the earlier has strictly
    more: it ends on the last key of maximal weight. *)
Lemma reduce_last_maximal {A : Type} (weight : A -> nat) (pick : A -> A -> A)
    (k : A) (ks : list A) :
  (forall a b, a ∈ k :: ks -> b ∈ k :: ks ->
               pick a b = if (weight b <? weight a)%nat then a else b) ->
  exists before after,
    k :: ks = before ++ fold_left pick ks k :: after /\
    (forall c, c ∈ before -> (weight c <= weight (fold_left pick ks k))%nat) /\
    (forall c, c ∈ after -> (weight c < weight (fold_left pick ks k))%nat).
Proof.
  induction ks as [| b ks IH] using rev_ind; intros Hpick.
  - exists [], []. simpl. repeat split; intros c Hc; inversion Hc.
  - destruct IH as (before & after & Hsplit & Hbefore & Hafter).
    { intros a c Ha Hc. apply Hpick.
      - rewrite app_comm_cons, elem_of_app. left. exact Ha.
      - rewrite app_comm_cons, elem_of_app. left. exact Hc. }
    rewrite fold_left_app. simpl.
    set (d := fold_left pick ks k) in *.
    rewrite Hpick.
    + destruct (Nat.ltb_spec (weight b) (weight d)) as [Hlt | Hge].
      * exists before, (after ++ [b]). split; [| split].
        -- rewrite app_comm_cons, Hsplit, <- app_assoc. reflexivity.
        -- exact Hbefore.
        -- intros c Hc. apply elem_of_app in Hc. destruct Hc as [Hc | Hc].
           ++ apply Hafter. exact Hc.
           ++ apply list_elem_of_singleton in Hc. subst c. exact Hlt.
      * exists (k :: ks), []. split; [| split].
        -- rewrite app_comm_cons. reflexivity.
        -- intros c Hc. rewrite Hsplit in Hc.
           rewrite elem_of_app, elem_of_cons in Hc.
           destruct Hc as [Hc | [-> | Hc]].
           ++ specialize (Hbefore c Hc). lia.
           ++ exact Hge.
           ++ specialize (Hafter c Hc). lia.
        -- intros c Hc. inversion Hc.
    + rewrite app_comm_cons, elem_of_app. left. rewrite Hsplit.
      rewrite elem_of_app, elem_of_cons. tauto.
    + rewrite app_comm_cons, elem_of_app. right. apply list_elem_of_here.
Qed.

Lemma dominantCondition_last_maximal (c0 : string) (cs0 : list string) :
  let cs := c0 :: cs0 in
  exists dominant before after,
    Weather.dominantCondition (Weather.countConditions cs) = Returned dominant /\
    first_seen cs = before ++ dominant :: after /\
    (forall c, c ∈ before -> (occurrences c cs <= occurrences dominant cs)%nat) /\
    (forall c, c ∈ after -> (occurrences c cs < occurrences dominant cs)%nat).
Proof.
  intros cs. unfold Weather.dominantCondition.
  pose proof (countConditions_keys cs) as Hkeys.
  destruct (Object_keys (Weather.countConditions cs)) as [| k ks] eqn:E.
  - simpl in Hkeys. discriminate Hkeys.
  - destruct (reduce_last_maximal (count_in (Weather.countConditions cs))
                (fun a b => if Weather.count_gt (Weather.countConditions cs) a b
                            then a else b) k ks)
      as (before & after & Hsplit & Hbefore & Hafter).
    { intros a b Ha Hb. rewrite <- E in Ha, Hb.
      rewrite (count_gt_keys _ a b Ha Hb).
      destruct (_ <? _)%nat; reflexivity. }
    eexists _, before, after. split; [reflexivity |].
    split; [rewrite <- Hkeys; exact Hsplit |].
    split; intros c Hc; rewrite <- !countConditions_count.
    + apply Hbefore. exact Hc.
    + apply Hafter. exact Hc.
Qed.

(** C3 (as amended).  The condition of a daily entry has the highest
    occurrence count among the day's conditions, and among conditions of
    equal highest count it is the one encountered last: every condition
    first seen before it occurs at most as often, every condition first seen
    after it occurs strictly less often. *)
Theorem dominant_condition_last_of_ties (unit : string) (day : Weather.DayGroup) :
  nonempty_day day ->
  exists entry before after,
    Weather.summarise unit day = Returned entry /\
    first_seen (Weather.conditions day) = before ++ Weather.condition entry :: after /\
    (forall c, c ∈ before ->
       (occurrences c (Weather.conditions day)
        <= occurrences (Weather.condition entry) (Weather.conditions day))%nat) /\
    (forall c, c ∈ after ->
       (occurrences c (Weather.conditions day)
        < occurrences (Weather.condition entry) (Weather.conditions day))%nat).
Proof.
  unfold nonempty_day, Weather.summarise, Weather.temps, Weather.conditions.
  destruct (Weather.rows day) as [| r rs] eqn:Hrows; [contradiction |]. intros _.
  simpl map.
  destruct (dominantCondition_last_maximal (Weather.fc_main r) (map Weather.fc_main rs))
    as (dominant & before & after & Hdom & Hsplit & Hbefore & Hafter).
  rewrite Hdom. eexists _, before, after. split; [reflexivity |]. simpl.
  split; [exact Hsplit |]. split; assumption.
Qed.

Lemma dominant_condition_last_of_ties_witness :
  exists entry before after,
    Weather.summarise "celsius"
      {| Weather.date := 19676; Weather.rows := Weather.fc_list tied_day |}
    = Returned entry /\
    first_seen ["Rain"; "Clear"] = before ++ Weather.condition entry :: after /\
    (forall c, c ∈ before ->
       (occurrences c ["Rain"; "Clear"]
        <= occurrences (Weather.condition entry) ["Rain"; "Clear"])%nat) /\
    (forall c, c ∈ after ->
       (occurrences c ["Rain"; "Clear"]
        < occurrences (Weather.condition entry) ["Rain"; "Clear"])%nat).
Proof.
  apply (dominant_condition_last_of_ties "celsius"
           {| Weather.date := 19676; Weather.rows := Weather.fc_list tied_day |}).
  discriminate.
Defined.

(** "Rain" is met first, "Clear" second, once each: the day is reported as
    "Clear". *)
Lemma tie_goes_to_later_condition :
  map Weather.fc_main (Weather.fc_list tied_day) = ["Rain"; "Clear"] /\
  exists entry,
    Weather.processDailyForecast tied_day "celsius" = Returned [entry] /\
    Weather.condition entry = "Clear".
Proof. split; [reflexivity |]. eexists. split; reflexivity. Qed.

(** A strict majority wins wherever it stands. *)
Example majority_wins :
  Weather.dominantCondition
    (Weather.countConditions ["Rain"; "Clear"; "Rain"; "Clouds"; "Clear"; "Rain"])
  = Returned "Rain".
Proof. reflexivity. Qed.

(** * Further properties *)

(** ** Cache refresh *)

Lemma unusable_invalid {A : Type} (now : Z) (o : option (Weather.CacheEntry A)) :
  unusable now o <-> Weather.isCacheValid now o = false.
Proof.
  unfold unusable, Weather.isCacheValid. destruct o as [e |].
  - destruct (Z.eqb_spec (Weather.timestamp e) 0) as [E | N].
    + split; [reflexivity | intros _ e' [= <-]; left; exact E].
    + rewrite Z.ltb_ge. split.
      * intros Hu. destruct (Hu e eq_refl) as [E | L]; [contradiction | exact L].
      * intros L e' [= <-]. right. exact L.
  - split; [reflexivity | intros _ e' Habs; discriminate Habs].
Qed.





(** ** What a fetch leaves alone *)

Ltac fetch_cases :=
  repeat match goal with
         | |- context [match ?x with _ => _ end] => destruct x eqn:?; simpl
         end.

(** X3.  A fetch that throws, whatever the reason (network failure, non-2xx
    status, unparsable body), leaves both cache maps as they were. *)
Theorem failed_fetch_keeps_cache `{JsHost}
    (remoteC : string -> Weather.Reply Weather.CurrentData)
    (remoteF : string -> Weather.Reply Weather.ForecastData)
    (city : string) (w : Weather.World) :
  (forall msg w',
     Weather.fetchCurrentWeather remoteC city w = (Thrown msg, w') ->
     Weather.current w' = Weather.current w /\ Weather.forecast w' = Weather.forecast w) /\
  (forall msg w',
     Weather.fetchForecastWeather remoteF city w = (Thrown msg, w') ->
     Weather.current w' = Weather.current w /\ Weather.forecast w' = Weather.forecast w).
Proof.
  split; intros msg w'.
  - unfold Weather.fetchCurrentWeather. cbv zeta. fetch_cases;
      intros [= <- <-]; split; reflexivity.
  - unfold Weather.fetchForecastWeather. cbv zeta. fetch_cases;
      intros [= <- <-]; split; reflexivity.
Qed.

Lemma failed_fetch_keeps_cache_witness :
  let w := (@Weather.fetchCurrentWeather ascii_host (answering 200 paris_now) "Paris"
              (empty_world 1700000000000)).2 in
  let w' := (@Weather.fetchCurrentWeather ascii_host (answering 503 paris_now) "Paris"
               (advance 900000 w)).2 in
  Weather.current w' = Weather.current (advance 900000 w) /\
  Weather.forecast w' = Weather.forecast (advance 900000 w).
Proof.
  intros w w'.
  apply (proj1 (@failed_fetch_keeps_cache ascii_host (answering 503 paris_now)
                  (answering 503 paris_forecast) "Paris" (advance 900000 w))
           "Failed to fetch weather data. Please try again." w').
  reflexivity.
Defined.

(** X4.  A fetch for one city never touches the other cache map, nor the
    entries of any other city name (names differing only in case are other
    names), and the request log only grows at its end, by at most one URL. *)
Theorem fetch_touches_one_entry `{JsHost}
    (remoteC : string -> Weather.Reply Weather.CurrentData)
    (remoteF : string -> Weather.Reply Weather.ForecastData)
    (city : string) (w : Weather.World) :
  let wc := (Weather.fetchCurrentWeather remoteC city w).2 in
  let wf := (Weather.fetchForecastWeather remoteF city w).2 in
  Weather.forecast wc = Weather.forecast w /\
  Weather.current wf = Weather.current w /\
  (forall other, other <> city ->
     Weather.current wc !! other = Weather.current w !! other /\
     Weather.forecast wf !! other = Weather.forecast w !! other) /\
  (Weather.requests wc = Weather.requests w
   \/ Weather.requests wc = Weather.requests w ++ [currentUrl city]) /\
  (Weather.requests wf = Weather.requests w
   \/ Weather.requests wf = Weather.requests w ++ [forecastUrl city]).
Proof.
  cbv zeta.
  split; [| split; [| split; [| split]]].
  - unfold Weather.fetchCurrentWeather. cbv zeta. fetch_cases; reflexivity.
  - unfold Weather.fetchForecastWeather. cbv zeta. fetch_cases; reflexivity.
  - intros other Hne. split.
    + unfold Weather.fetchCurrentWeather. cbv zeta. fetch_cases;
        try reflexivity. apply lookup_insert_ne. congruence.
    + unfold Weather.fetchForecastWeather. cbv zeta. fetch_cases;
        try reflexivity. apply lookup_insert_ne. congruence.
  - unfold Weather.fetchCurrentWeather. cbv zeta. fold (currentUrl city).
    fetch_cases; auto.
  - unfold Weather.fetchForecastWeather. cbv zeta. fold (forecastUrl city).
    fetch_cases; auto.
Qed.

(** X5.  After a fetch that went to the network and succeeded at a non-zero
    clock reading, asking again for the same city less than ten minutes
    later returns the same payload without any request, whatever the
    provider would answer. *)
Theorem refetch_within_window `{JsHost}
    (remote remote' : string -> Weather.Reply Weather.CurrentData)
    (city : string) (w w1 : Weather.World) (d : Weather.CurrentData) (dt : Z) :
  unusable (Weather.clock w) (Weather.current w !! city) ->
  Weather.fetchCurrentWeather remote city w = (Returned d, w1) ->
  Weather.clock w1 <> 0 ->
  dt < Weather.CACHE_DURATION ->
  Weather.fetchCurrentWeather remote' city (advance dt w1)
  = (Returned d, advance dt w1).
Proof.
  intros Hu Hf Hclock Hdt. apply unusable_invalid in Hu.
  unfold Weather.fetchCurrentWeather in Hf. rewrite Hu in Hf. cbv zeta in Hf.
  destruct (Weather.outcome _) as [err | status [body | err]]; simpl in Hf;
    repeat match type of Hf with
           | context [if ?b then _ else _] => destruct b
           end; try discriminate Hf.
  injection Hf as <- <-.
  match goal with
  | |- context [advance dt ?x] => set (w1 := x) in *
  end.
  apply (fetchCurrentWeather_hit remote' city (advance dt w1)
           {| Weather.data := body; Weather.timestamp := Weather.clock w1 |}).
  - simpl. apply lookup_insert_eq.
  - exact Hclock.
  - simpl. lia.
Qed.

Lemma refetch_within_window_witness :
  let w1 := (@Weather.fetchCurrentWeather ascii_host (answering 200 paris_now) "Paris"
               (empty_world 1700000000000)).2 in
  @Weather.fetchCurrentWeather ascii_host (answering 500 paris_now) "Paris"
    (advance 599999 w1)
  = (Returned paris_now, advance 599999 w1).
Proof.
  intros w1.
  apply (@refetch_within_window ascii_host (answering 200 paris_now)
           (answering 500 paris_now) "Paris" (empty_world 1700000000000) w1
           paris_now 599999).
  - intros e He. discriminate He.
  - reflexivity.
  - discriminate.
  - reflexivity.
Defined.

(** ** Formatting *)



(** ** More on alerts *)

(** The alert types, block by block. *)
Lemma alert_types_blocks (w : Weather.WeatherData) :
  map Weather.type (Weather.generateWeatherAlerts w) =
    (if gt_num (Weather.temperature w) 30 then ["heat"] else [])
    ++ (if lt_num (Weather.temperature w) 10 then ["cold"] else [])
    ++ (if gt_num (Weather.windSpeed w) 10 then ["wind"] else [])
    ++ (if bool_decide (Weather.main w = "Rain") || bool_decide (Weather.main w = "Drizzle")
        then ["rain"] else [])
    ++ (if bool_decide (Weather.main w = "Thunderstorm") then ["storm"] else [])
    ++ (if lt_num (Weather.visibility w) 2 then ["visibility"] else [])
    ++ (if gt_num (Weather.humidity w) 85 then ["humidity"] else []).
Proof.
  unfold Weather.generateWeatherAlerts. rewrite !map_app.
  f_equal; [| f_equal; [| f_equal; [| f_equal; [| f_equal; [| f_equal]]]]].
  - split_num; reflexivity.
  - destruct (lt_num _ _); reflexivity.
  - split_num; reflexivity.
  - destruct (_ || _); reflexivity.
  - destruct (bool_decide _); reflexivity.
  - destruct (lt_num _ _); reflexivity.
  - destruct (gt_num _ _); reflexivity.
Qed.

Lemma elem_of_block (b : bool) (x n : string) :
  x ∈ (if b then [n] else []) <-> b = true /\ x = n.
Proof.
  destruct b.
  - rewrite list_elem_of_singleton. tauto.
  - split; [intros Hin; inversion Hin | intros [Hb _]; discriminate Hb].
Qed.

Lemma length_block (b : bool) (n : string) :
  length (if b then [n] else []) = if b then 1%nat else 0%nat.
Proof. destruct b; reflexivity. Qed.

Lemma block_nil (b : bool) (n : string) :
  (if b then [n] else []) = [] <-> b = false.
Proof. destruct b; split; intros E; try reflexivity; discriminate E. Qed.

(** X7.  Heat and cold alerts never come together, nor do rain and storm
    alerts; hence no snapshot raises more than five alerts. *)
Theorem alerts_at_most_five (w : Weather.WeatherData) :
  let types := map Weather.type (Weather.generateWeatherAlerts w) in
  ~ ("heat" ∈ types /\ "cold" ∈ types) /\
  ~ ("rain" ∈ types /\ "storm" ∈ types) /\
  (length (Weather.generateWeatherAlerts w) <= 5)%nat.
Proof.
  cbv zeta.
  rewrite <- (length_map Weather.type (Weather.generateWeatherAlerts w)).
  rewrite alert_types_blocks.
  split; [| split].
  - rewrite !elem_of_app, !elem_of_block.
    intros [[[Hheat _] | Hrest1] [Hrest2 | [[Hcold _] | Hrest2]]];
      try (apply gt_num_true in Hheat; apply lt_num_true in Hcold; lra);
      repeat match goal with
             | H : _ \/ _ |- _ => destruct H as [H | H]
             | H : _ /\ _ = _ |- _ => destruct H as [_ H]; discriminate H
             end.
  - rewrite !elem_of_app, !elem_of_block.
    intros [Hrain Hstorm].
    assert (Hr : (bool_decide (Weather.main w = "Rain")
                  || bool_decide (Weather.main w = "Drizzle")) = true).
    { repeat match goal with
             | H : _ \/ _ |- _ => destruct H as [H | H]
             | H : _ /\ "rain" = _ |- _ =>
                 destruct H as [Hb H]; first [discriminate H | exact Hb]
             end. }
    assert (Hs : bool_decide (Weather.main w = "Thunderstorm") = true).
    { clear Hrain.
      repeat match goal with
             | H : _ \/ _ |- _ => destruct H as [H | H]
             | H : _ /\ "storm" = _ |- _ =>
                 destruct H as [Hb H]; first [discriminate H | exact Hb]
             end. }
    apply bool_decide_eq_true in Hs.
    apply orb_true_iff in Hr.
    destruct Hr as [Hr | Hr]; apply bool_decide_eq_true in Hr; congruence.
  - rewrite !length_app, !length_block.
    assert (Hhc : ((if gt_num (Weather.temperature w) 30 then 1 else 0)
                   + (if lt_num (Weather.temperature w) 10 then 1 else 0) <= 1)%nat).
    { split_num; lia. }
    assert (Hrs : ((if bool_decide (Weather.main w = "Rain")
                       || bool_decide (Weather.main w = "Drizzle") then 1 else 0)
                   + (if bool_decide (Weather.main w = "Thunderstorm") then 1 else 0)
                   <= 1)%nat).
    { repeat match goal with
             | |- context [bool_decide ?P] => destruct (bool_decide_reflect P)
             end; simpl; try lia; congruence. }
    destruct (gt_num (Weather.windSpeed w) 10), (lt_num (Weather.visibility w) 2),
      (gt_num (Weather.humidity w) 85); lia.
Qed.

(** X8.  No alert at all is raised exactly in mild conditions: temperature
    within 10..30, wind at most 10, no rain, drizzle or thunderstorm,
    visibility at least 2 and humidity at most 85. *)
Theorem no_alert_iff_mild (w : Weather.WeatherData) :
  Weather.generateWeatherAlerts w = [] <->
  (10 <= Weather.temperature w <= 30)%Q /\
  (Weather.windSpeed w <= 10)%Q /\
  Weather.main w <> "Rain" /\ Weather.main w <> "Drizzle" /\
  Weather.main w <> "Thunderstorm" /\
  (2 <= Weather.visibility w)%Q /\
  (Weather.humidity w <= 85)%Q.
Proof.
  assert (Hmap : Weather.generateWeatherAlerts w = []
                 <-> map Weather.type (Weather.generateWeatherAlerts w) = []).
  { destruct (Weather.generateWeatherAlerts w); simpl; split; intros E;
      first [reflexivity | discriminate E]. }
  rewrite Hmap, alert_types_blocks.
  rewrite !app_nil, !block_nil.
  rewrite !gt_num_false, !lt_num_false, orb_false_iff, !bool_decide_eq_false.
  tauto.
Qed.

(** ** Hourly forecast *)



(** ** Daily forecast: what the groups hold *)

Lemma dict_get_elem {K V : Type} `{EqDecision K} (k : K) (v : V) (d : list (K * V)) :
  NoDup (Object_keys d) -> (k, v) ∈ d -> dict_get k d = Some v.
Proof.
  unfold Object_keys. induction d as [| [k0 v0] d IH]; simpl; intros Hnd Hin.
  - inversion Hin.
  - apply NoDup_cons in Hnd. destruct Hnd as [Hk0 Hnd].
    apply elem_of_cons in Hin. destruct Hin as [[= -> ->] | Hin].
    + rewrite decide_True by reflexivity. reflexivity.
    + destruct (decide (k0 = k)) as [-> | _]; [| apply IH; assumption].
      exfalso. apply Hk0. apply list_elem_of_In, in_map_iff.
      exists (k, v). split; [reflexivity | apply list_elem_of_In; exact Hin].
Qed.

Lemma group_step_thrown (items : list Weather.ForecastItem) (e : string) :
  fold_left Weather.group_step items (Thrown e) = Thrown e.
Proof. induction items as [| item items IH]; simpl; [reflexivity | exact IH]. Qed.

Lemma dateKey_invalid (dt : Z) :
  ~ valid_time dt -> Weather.dateKey dt = Thrown "RangeError: Invalid time value".
Proof.
  unfold valid_time, Weather.dateKey. intros Hv.
  destruct (Z.leb_spec (Z.abs (dt * 1000)) Weather.MAX_DATE_MS); [contradiction | reflexivity].
Qed.

Lemma valid_time_dec (dt : Z) : {valid_time dt} + {~ valid_time dt}.
Proof. unfold valid_time. apply Z_le_dec. Qed.

Lemma records_of_day_snoc (k : Z) (pre : list Weather.ForecastItem)
    (item : Weather.ForecastItem) :
  records_of_day k (pre ++ [item])
  = records_of_day k pre
    ++ (if decide (day_of (Weather.fc_dt item) = k) then [item] else []).
Proof.
  unfold records_of_day. rewrite filter_app. reflexivity.
Qed.

(** The invariant of the grouping loop: after the records [pre], the
    dictionary holds under each day exactly the records of that day. *)
Lemma group_fold_spec (items pre : list Weather.ForecastItem)
    (acc dailyData : list (Z * Weather.DayGroup)) :
  NoDup (Object_keys acc) ->
  (forall k, dict_get k acc = group_of_day k pre) ->
  fold_left Weather.group_step items (Returned acc) = Returned dailyData ->
  NoDup (Object_keys dailyData) /\
  (forall k, dict_get k dailyData = group_of_day k (pre ++ items)) /\
  Forall (fun item => valid_time (Weather.fc_dt item)) items.
Proof.
  revert pre acc. induction items as [| item items IH]; intros pre acc Hnd Hacc Hfold.
  - simpl in Hfold. injection Hfold as <-. rewrite app_nil_r. auto.
  - simpl in Hfold.
    destruct (valid_time_dec (Weather.fc_dt item)) as [Hv | Hv].
    + rewrite (dateKey_valid _ Hv) in Hfold.
      match type of Hfold with
      | fold_left _ _ (Returned ?acc') = _ =>
          destruct (IH (pre ++ [item]) acc') as (Hnd' & Hget & Hvalid);
            [apply keys_upsert_NoDup; exact Hnd | | exact Hfold |]
      end.
      * intros k. rewrite dict_get_upsert, !Hacc. unfold group_of_day.
        rewrite !records_of_day_snoc.
        destruct (decide (day_of (Weather.fc_dt item) = k)) as [<- | Hne].
        -- destruct (records_of_day _ pre) as [| r rs]; reflexivity.
        -- rewrite app_nil_r. reflexivity.
      * rewrite <- app_assoc in Hget. simpl in Hget.
        split; [exact Hnd' |]. split; [exact Hget |].
        constructor; assumption.
    + rewrite (dateKey_invalid _ Hv), group_step_thrown in Hfold. discriminate Hfold.
Qed.

Lemma group_fold_throws (items : list Weather.ForecastItem)
    (acc : list (Z * Weather.DayGroup)) :
  ~ Forall (fun item => valid_time (Weather.fc_dt item)) items ->
  fold_left Weather.group_step items (Returned acc)
  = Thrown "RangeError: Invalid time value".
Proof.
  revert acc. induction items as [| item items IH]; intros acc Hbad.
  - exfalso. apply Hbad. constructor.
  - simpl. destruct (valid_time_dec (Weather.fc_dt item)) as [Hv | Hv].
    + rewrite (dateKey_valid _ Hv). apply IH. intros Hall. apply Hbad.
      constructor; assumption.
    + rewrite (dateKey_invalid _ Hv). apply group_step_thrown.
Qed.

Lemma groupByDate_groups (items : list Weather.ForecastItem)
    (dailyData : list (Z * Weather.DayGroup)) :
  Weather.groupByDate items = Returned dailyData ->
  NoDup (Object_keys dailyData) /\
  (forall k day, (k, day) ∈ dailyData ->
     Weather.date day = k /\ Weather.rows day = records_of_day k items
     /\ Weather.rows day <> []).
Proof.
  intros Hg. unfold Weather.groupByDate in Hg.
  destruct (group_fold_spec items [] [] dailyData) as (Hnd & Hget & _);
    [constructor | reflexivity | exact Hg |].
  simpl in Hget. split; [exact Hnd |].
  intros k day Hin. pose proof (dict_get_elem k day dailyData Hnd Hin) as Hk.
  rewrite Hget in Hk. unfold group_of_day in Hk.
  destruct (records_of_day k items) as [| r rs] eqn:Hrows; [discriminate Hk |].
  injection Hk as <-. simpl. repeat split. discriminate.
Qed.

(** X10.  Grouping by date, when it returns, has one group per UTC day that
    occurs in the input and none for any other day; the group of a day holds
    exactly the records of that day, in input order. *)
Theorem groupByDate_partitions (items : list Weather.ForecastItem)
    (dailyData : list (Z * Weather.DayGroup)) :
  Weather.groupByDate items = Returned dailyData ->
  NoDup (Object_keys dailyData) /\
  (forall k, dict_get k dailyData = group_of_day k items) /\
  (forall k day, (k, day) ∈ dailyData ->
     Weather.date day = k /\ Weather.rows day = records_of_day k items
     /\ Weather.rows day <> []).
Proof.
  intros Hg.
  destruct (groupByDate_groups items dailyData Hg) as (Hnd & Hmembers).
  split; [exact Hnd |]. split; [| exact Hmembers].
  unfold Weather.groupByDate in Hg.
  destruct (group_fold_spec items [] [] dailyData) as (_ & Hget & _);
    [constructor | reflexivity | exact Hg |].
  exact Hget.
Qed.

Lemma groupByDate_partitions_witness :
  exists dailyData,
    Weather.groupByDate (Weather.fc_list tied_day) = Returned dailyData /\
    dict_get 19676 dailyData = group_of_day 19676 (Weather.fc_list tied_day) /\
    dict_get 19677 dailyData = None.
Proof.
  eexists. split; [reflexivity |].
  match goal with
  | |- dict_get _ ?d = _ /\ _ =>
      destruct (groupByDate_partitions (Weather.fc_list tied_day) d eq_refl)
        as (_ & Hget & _)
  end.
  split; [apply Hget | reflexivity].
Defined.

(** ** Daily forecast: when it returns, and what the entries say *)

Lemma map_throwing_Forall2 {A B : Type} (f : A -> Completion B) (xs : list A)
    (ys : list B) :
  Weather.map_throwing f xs = Returned ys ->
  Forall2 (fun x y => f x = Returned y) xs ys.
Proof.
  revert ys. induction xs as [| x xs IH]; simpl; intros ys Hm.
  - injection Hm as <-. constructor.
  - destruct (f x) as [y | e] eqn:Hy; [| discriminate Hm].
    destruct (Weather.map_throwing f xs) as [ys' | e]; [| discriminate Hm].
    injection Hm as <-. constructor; [exact Hy | apply IH; reflexivity].
Qed.

(** X11.  The daily aggregation returns whenever every record carries a
    valid date, whatever the number and order of the records (an empty
    forecast gives an empty list); otherwise it throws the range error of
    [toISOString]. *)
Theorem processDailyForecast_returns_iff_valid (forecastData : Weather.ForecastData)
    (unit : string) :
  let valid := Forall (fun item => valid_time (Weather.fc_dt item))
                 (Weather.fc_list forecastData) in
  (valid -> exists days, Weather.processDailyForecast forecastData unit = Returned days) /\
  (~ valid -> Weather.processDailyForecast forecastData unit
              = Thrown "RangeError: Invalid time value") /\
  (Weather.fc_list forecastData = [] ->
   Weather.processDailyForecast forecastData unit = Returned []).
Proof.
  cbv zeta. unfold Weather.processDailyForecast, Weather.groupByDate.
  split; [| split].
  - intros Hvalid.
    destruct (groupByDate_fold _ Hvalid []) as (dailyData & Hg & _ & Hne & _);
      [constructor | constructor |].
    rewrite Hg.
    destruct (map_throwing_all (Weather.summarise unit) (fun _ => True)
                (Object_values dailyData)) as (all & Hall & _).
    { eapply Forall_impl; [exact Hne |]. intros day Hday.
      destruct (summarise_returns unit day Hday) as (entry & He & _). eauto. }
    rewrite Hall. eauto.
  - intros Hbad. rewrite (group_fold_throws _ [] Hbad). reflexivity.
  - intros ->. reflexivity.
Qed.

Lemma processDailyForecast_returns_iff_valid_witness :
  (exists days, Weather.processDailyForecast tied_day "celsius" = Returned days) /\
  Weather.processDailyForecast broken_forecast "celsius"
  = Thrown "RangeError: Invalid time value".
Proof.
  split.
  - apply (proj1 (processDailyForecast_returns_iff_valid tied_day "celsius")).
    repeat constructor; unfold valid_time, Weather.MAX_DATE_MS; simpl; lia.
  - apply (proj1 (proj2 (processDailyForecast_returns_iff_valid broken_forecast
                           "celsius"))).
    intros Hall. inversion Hall as [| ? ? _ Hrest]; subst.
    inversion Hrest as [| ? ? Hbad _]; subst.
    unfold valid_time, Weather.MAX_DATE_MS in Hbad. simpl in Hbad. lia.
Defined.

Lemma Math_min_le_elem (t x : Q) (ts : list Q) :
  x ∈ t :: ts -> (Weather.Math_min t ts <= x)%Q.
Proof.
  intros Hin. apply elem_of_cons in Hin. destruct Hin as [-> | Hin].
  - apply Math_min_le.
  - unfold Weather.Math_min. revert t. induction ts as [| y ts IH]; intros t.
    + inversion Hin.
    + simpl. apply elem_of_cons in Hin. destruct Hin as [-> | Hin].
      * eapply Qle_trans; [apply (Math_min_le (Qmin t y) ts) | apply Q.le_min_r].
      * apply IH. exact Hin.
Qed.

Lemma Math_max_ge_elem (t x : Q) (ts : list Q) :
  x ∈ t :: ts -> (x <= Weather.Math_max t ts)%Q.
Proof.
  intros Hin. apply elem_of_cons in Hin. destruct Hin as [-> | Hin].
  - apply Math_max_ge.
  - unfold Weather.Math_max. revert t. induction ts as [| y ts IH]; intros t.
    + inversion Hin.
    + simpl. apply elem_of_cons in Hin. destruct Hin as [-> | Hin].
      * eapply Qle_trans; [apply Q.le_max_r | apply (Math_max_ge (Qmax t y) ts)].
      * apply IH. exact Hin.
Qed.

Lemma summarise_date (unit : string) (day : Weather.DayGroup)
    (entry : Weather.DailyEntry) :
  Weather.summarise unit day = Returned entry ->
  Weather.day_date entry = Weather.date day * 86400000.
Proof.
  unfold Weather.summarise. intros Hs.
  destruct (Weather.temps day); [discriminate Hs |].
  destruct (Weather.dominantCondition _); [| discriminate Hs].
  injection Hs as <-. reflexivity.
Qed.

Lemma summarise_band (unit : string) (day : Weather.DayGroup)
    (entry : Weather.DailyEntry) (item : Weather.ForecastItem) :
  Weather.summarise unit day = Returned entry ->
  item ∈ Weather.rows day ->
  Weather.minTemp entry
  <= Math_round (Weather.convertTemperature (Weather.fc_temp item) unit)
  <= Weather.maxTemp entry.
Proof.
  unfold Weather.summarise. intros Hs Hin.
  assert (Ht : Weather.fc_temp item ∈ Weather.temps day).
  { unfold Weather.temps. apply list_elem_of_In, in_map, list_elem_of_In. exact Hin. }
  destruct (Weather.temps day) as [| t ts]; [discriminate Hs |].
  destruct (Weather.dominantCondition _) as [dominant | e]; [| discriminate Hs].
  injection Hs as <-. simpl.
  split; apply Math_round_mono, convertTemperature_mono.
  - apply Math_min_le_elem. exact Ht.
  - apply Math_max_ge_elem. exact Ht.
Qed.

Lemma Forall2_elem_r {A B : Type} (R : A -> B -> Prop) (xs : list A) (ys : list B)
    (y : B) :
  Forall2 R xs ys -> y ∈ ys -> exists x, x ∈ xs /\ R x y.
Proof.
  induction 1 as [| x y' xs ys Hxy _ IH]; intros Hin.
  - inversion Hin.
  - apply elem_of_cons in Hin. destruct Hin as [-> | Hin].
    + exists x. split; [apply list_elem_of_here | exact Hxy].
    + destruct (IH Hin) as (x' & Hx' & HR).
      exists x'. split; [apply list_elem_of_further; exact Hx' | exact HR].
Qed.

(** X12.  In the result of the daily aggregation, every record of the input
    that falls on the date of an entry has its displayed temperature between
    that entry's [minTemp] and [maxTemp], and no two entries share a date. *)
Theorem daily_entries_bracket_records (forecastData : Weather.ForecastData)
    (unit : string) (days : list Weather.DailyEntry) :
  Weather.processDailyForecast forecastData unit = Returned days ->
  NoDup (map Weather.day_date days) /\
  forall entry item,
    entry ∈ days ->
    item ∈ Weather.fc_list forecastData ->
    day_of (Weather.fc_dt item) * 86400000 = Weather.day_date entry ->
    Weather.minTemp entry
    <= Math_round (Weather.convertTemperature (Weather.fc_temp item) unit)
    <= Weather.maxTemp entry.
Proof.
  unfold Weather.processDailyForecast.
  destruct (Weather.groupByDate _) as [dailyData | e] eqn:Hg; [| discriminate].
  destruct (Weather.map_throwing _ _) as [all | e] eqn:Hall; [| discriminate].
  intros [= <-].
  destruct (groupByDate_groups _ _ Hg) as (Hnd & Hgroups).
  apply map_throwing_Forall2 in Hall.
  split.
  - assert (Hdates : map Weather.day_date all
                     = map (fun k => k * 86400000) (Object_keys dailyData)).
    { unfold Object_keys, Object_values in *. clear Hnd Hg.
      revert all Hall Hgroups.
      induction dailyData as [| [k day] rest IH]; intros all Hall Hgroups.
      - inversion Hall. reflexivity.
      - simpl in Hall. inversion Hall as [| ? entry ? all' Hs Hrest]; subst. simpl.
        destruct (Hgroups k day (list_elem_of_here _ _)) as (Hdate & _).
        rewrite (summarise_date _ _ _ Hs), Hdate. f_equal.
        apply IH; [exact Hrest |].
        intros k' day' Hin. apply Hgroups. apply list_elem_of_further. exact Hin. }
    assert (Hinj : Inj (=) (=) (fun k : Z => k * 86400000)) by (intros a b Hab; lia).
    assert (Hall_nd : NoDup (map Weather.day_date all)).
    { rewrite Hdates. apply (NoDup_fmap_2 (fun k : Z => k * 86400000)). exact Hnd. }
    rewrite <- (take_drop 5 all), map_app in Hall_nd.
    apply NoDup_app in Hall_nd. tauto.
  - intros entry item Hentry Hitem Hday.
    assert (Hin : entry ∈ all).
    { apply elem_of_take in Hentry. destruct Hentry as (i & Hi & _).
      eapply list_elem_of_lookup_2. exact Hi. }
    destruct (Forall2_elem_r _ _ _ _ Hall Hin) as (day & Hdayin & Hs).
    unfold Object_values in Hdayin. apply list_elem_of_In, in_map_iff in Hdayin.
    destruct Hdayin as ([k day'] & Heq & Hin'). simpl in Heq. subst day'.
    apply list_elem_of_In in Hin'.
    destruct (Hgroups k day Hin') as (Hdate & Hrows & _).
    apply (summarise_band unit day entry item Hs).
    rewrite Hrows. unfold records_of_day. apply list_elem_of_filter.
    split; [| exact Hitem].
    rewrite (summarise_date _ _ _ Hs), Hdate in Hday. lia.
Qed.

Lemma daily_entries_bracket_records_witness :
  exists days,
    Weather.processDailyForecast tied_day "fahrenheit" = Returned days /\
    NoDup (map Weather.day_date days) /\
    forall entry item,
      entry ∈ days ->
      item ∈ Weather.fc_list tied_day ->
      day_of (Weather.fc_dt item) * 86400000 = Weather.day_date entry ->
      Weather.minTemp entry
      <= Math_round (Weather.convertTemperature (Weather.fc_temp item) "fahrenheit")
      <= Weather.maxTemp entry.
Proof.
  eexists. split; [reflexivity |].
  apply (daily_entries_bracket_records tied_day "fahrenheit").
  reflexivity.
Defined.

(** ** More on the search history *)

Lemma sublist_map {A B : Type} (f : A -> B) (l1 l2 : list A) :
  sublist l1 l2 -> sublist (map f l1) (map f l2).
Proof. induction 1; simpl; constructor; assumption. Qed.

Section HistoryMore.
Context `{JsHost}.

Lemma getSearchHistory_clear (st : LocalStorage) :
  History.getSearchHistory (History.clearSearchHistory st) = [].
Proof.
  unfold History.clearSearchHistory, History.getSearchHistory,
    History.getUserHistoryKey, Auth.getCurrentSession.
  destruct (session_item st) as [session |] eqn:Hs; simpl; rewrite ?Hs; simpl.
  - rewrite lookup_delete_eq. reflexivity.
  - reflexivity.
Qed.

Lemma getSearchHistory_remove (index : nat) (st : LocalStorage) (session : Session) :
  session_item st = Some session ->
  (index < length (History.getSearchHistory st))%nat ->
  History.getSearchHistory (History.removeHistoryEntry index st)
  = take History.MAX_HISTORY_ITEMS (delete index (History.getSearchHistory st)).
Proof.
  intros Hs Hlt. unfold History.removeHistoryEntry.
  apply Nat.ltb_lt in Hlt. rewrite Hlt.
  apply (getSearchHistory_save _ _ _ Hs).
Qed.

Lemma removeHistoryEntry_out_of_range (index : nat) (st : LocalStorage) :
  (length (History.getSearchHistory st) <= index)%nat ->
  History.removeHistoryEntry index st = st.
Proof.
  intros Hge. unfold History.removeHistoryEntry.
  apply Nat.ltb_ge in Hge. rewrite Hge. reflexivity.
Qed.

End HistoryMore.

(** X13.  A history without two entries for the same city (letter case
    apart) stays so under every operation of the module: adding a city,
    removing an entry, clearing. *)
Theorem history_stays_distinct `{JsHost} (st : LocalStorage) :
  distinct_cities (History.getSearchHistory st) ->
  (forall now city wd,
     distinct_cities (History.getSearchHistory (History.addToHistory now city wd st))) /\
  (forall index,
     distinct_cities (History.getSearchHistory (History.removeHistoryEntry index st))) /\
  distinct_cities (History.getSearchHistory (History.clearSearchHistory st)).
Proof.
  unfold distinct_cities, lowered. intros Hnd. split; [| split].
  - intros now city wd. destruct (session_item st) as [session |] eqn:Hs.
    + rewrite (getSearchHistory_add now city wd st session Hs). simpl.
      apply NoDup_cons. split.
      * intros Hin. apply list_elem_of_In, in_map_iff in Hin.
        destruct Hin as (item & Hlow & Hitem). apply list_elem_of_In in Hitem.
        pose proof (others_kept city 19 (History.getSearchHistory st)) as Hall.
        rewrite Forall_forall in Hall. exact (Hall item Hitem Hlow).
      * eapply sublist_NoDup; [exact Hnd |]. apply sublist_map.
        etransitivity; [apply sublist_take | apply sublist_filter].
    + rewrite getSearchHistory_logged_out; [constructor |].
      rewrite addToHistory_session. exact Hs.
  - intros index.
    destruct (Nat.lt_ge_cases index (length (History.getSearchHistory st))) as [Hlt | Hge].
    + destruct (session_item st) as [session |] eqn:Hs.
      * rewrite (getSearchHistory_remove index st session Hs Hlt).
        eapply sublist_NoDup; [exact Hnd |]. apply sublist_map.
        etransitivity; [apply sublist_take | apply sublist_delete].
      * rewrite (getSearchHistory_logged_out st Hs) in Hlt. simpl in Hlt. lia.
    + rewrite (removeHistoryEntry_out_of_range index st Hge). exact Hnd.
  - rewrite getSearchHistory_clear. constructor.
Qed.

Lemma history_stays_distinct_witness :
  @distinct_cities ascii_host
    (History.getSearchHistory
       (@History.addToHistory ascii_host 1700000300000 "PARIS" None
          (@History.addToHistory ascii_host 1700000200000 "Rome" None
             (@History.addToHistory ascii_host 1700000100000 "Paris" None admin_store)))).
Proof.
  apply (@history_stays_distinct ascii_host).
  apply (@history_stays_distinct ascii_host).
  apply (@history_stays_distinct ascii_host).
  constructor.
Defined.

(** X14.  Removing an entry by a position inside the history deletes exactly
    that entry and keeps the others in order; a position outside the history
    changes nothing in storage. *)
Theorem removeHistoryEntry_bounds `{JsHost} (index : nat) (st : LocalStorage) :
  let history := History.getSearchHistory st in
  ((index < length history)%nat -> (length history <= 20)%nat ->
   History.getSearchHistory (History.removeHistoryEntry index st) = delete index history) /\
  ((length history <= index)%nat -> History.removeHistoryEntry index st = st).
Proof.
  cbv zeta. split.
  - intros Hlt Hcap. destruct (session_item st) as [session |] eqn:Hs.
    + rewrite (getSearchHistory_remove index st session Hs Hlt).
      apply take_ge. rewrite length_delete by (apply lookup_lt_is_Some_2; exact Hlt).
      unfold History.MAX_HISTORY_ITEMS. lia.
    + rewrite (getSearchHistory_logged_out st Hs) in Hlt. simpl in Hlt. lia.
  - apply removeHistoryEntry_out_of_range.
Qed.

Lemma removeHistoryEntry_bounds_witness :
  let st := @History.addToHistory ascii_host 1700000200000 "Rome" None
              (@History.addToHistory ascii_host 1700000100000 "Paris" None admin_store) in
  History.getSearchHistory (History.removeHistoryEntry 0 st)
  = [history_entry 1700000100000 "Paris" None] /\
  History.removeHistoryEntry 2 st = st.
Proof.
  intros st. split.
  - rewrite (proj1 (@removeHistoryEntry_bounds ascii_host 0 st)).
    + reflexivity.
    + vm_compute. lia.
    + vm_compute. lia.
  - apply (proj2 (@removeHistoryEntry_bounds ascii_host 2 st)). vm_compute. lia.
Defined.

(** X15.  Without a session the history module is inert: the history reads
    as empty, nothing is in it, and adding, removing and clearing leave the
    storage exactly as it was. *)
Theorem history_needs_session `{JsHost} (st : LocalStorage) :
  session_item st = None ->
  History.getSearchHistory st = [] /\
  (forall city, History.isInHistory city st = false) /\
  (forall now city wd, History.addToHistory now city wd st = st) /\
  (forall index, History.removeHistoryEntry index st = st) /\
  History.clearSearchHistory st = st.
Proof.
  intros Hs.
  assert (Hk : History.getUserHistoryKey st = None).
  { unfold History.getUserHistoryKey, Auth.getCurrentSession. rewrite Hs. reflexivity. }
  assert (Hh : History.getSearchHistory st = []) by (apply getSearchHistory_logged_out, Hs).
  split; [exact Hh |]. split; [| split; [| split]].
  - intros city. unfold History.isInHistory. rewrite Hh. reflexivity.
  - intros now city wd. unfold History.addToHistory, History.saveSearchHistory.
    rewrite Hk. reflexivity.
  - intros index. apply removeHistoryEntry_out_of_range. rewrite Hh. simpl. lia.
  - unfold History.clearSearchHistory. rewrite Hk. reflexivity.
Qed.

Lemma history_needs_session_witness :
  @History.addToHistory ascii_host 1700000100000 "Paris" None fresh_store = fresh_store.
Proof.
  apply (@history_needs_session ascii_host fresh_store). reflexivity.
Defined.

(** X16.  For a logged-in user a city is in the history right after it was
    added, under any spelling that differs only in case, and no city is in
    the history after it was cleared. *)
Theorem isInHistory_after_add_and_clear `{JsHost} (st : LocalStorage) (session : Session) :
  session_item st = Some session ->
  (forall now city city' wd,
     toLowerCase city' = toLowerCase city ->
     History.isInHistory city' (History.addToHistory now city wd st) = true) /\
  (forall city, History.isInHistory city (History.clearSearchHistory st) = false).
Proof.
  intros Hs. split.
  - intros now city city' wd Hlow. unfold History.isInHistory.
    rewrite (getSearchHistory_add now city wd st session Hs). simpl.
    rewrite Hlow. rewrite bool_decide_eq_true_2 by reflexivity. reflexivity.
  - intros city. unfold History.isInHistory. rewrite getSearchHistory_clear. reflexivity.
Qed.

Lemma isInHistory_after_add_and_clear_witness :
  @History.isInHistory ascii_host "PARIS"
    (@History.addToHistory ascii_host 1700000100000 "Paris" None admin_store) = true.
Proof.
  apply (proj1 (@isInHistory_after_add_and_clear ascii_host admin_store admin_session
                  eq_refl)).
  reflexivity.
Defined.

(** X17.  Histories are kept per user id: an operation of one user leaves
    the list stored for any other user id untouched, and after logging out
    and logging in again under the same id the user reads the history that
    was there before. *)
Theorem history_is_per_user `{JsHost} (st : LocalStorage) (session : Session) :
  session_item st = Some session ->
  (forall other now city wd index,
     other <> userId session ->
     let key := History.HISTORY_KEY_PREFIX +:+ other in
     history_items (History.addToHistory now city wd st) !! key = history_items st !! key /\
     history_items (History.removeHistoryEntry index st) !! key = history_items st !! key /\
     history_items (History.clearSearchHistory st) !! key = history_items st !! key) /\
  (forall now mail pass result st',
     Auth.loginUser now mail pass (Auth.logoutUser st) = (result, st') ->
     userId <$> Auth.user result = Some (userId session) ->
     History.getSearchHistory st' = History.getSearchHistory st).
Proof.
  intros Hs.
  assert (Hk : History.getUserHistoryKey st
               = Some (History.HISTORY_KEY_PREFIX +:+ userId session)).
  { unfold History.getUserHistoryKey, Auth.getCurrentSession. rewrite Hs. reflexivity. }
  split.
  - intros other now city wd index Hne key.
    assert (Hkey : History.HISTORY_KEY_PREFIX +:+ userId session <> key).
    { intros E. apply String.app_inj in E. congruence. }
    assert (Hsave : forall h, history_items (History.saveSearchHistory h st) !! key
                              = history_items st !! key).
    { intros h. unfold History.saveSearchHistory. rewrite Hk. simpl.
      apply lookup_insert_ne. exact Hkey. }
    split; [| split].
    + unfold History.addToHistory. apply Hsave.
    + unfold History.removeHistoryEntry.
      destruct (_ <? _)%nat; [apply Hsave | reflexivity].
    + unfold History.clearSearchHistory. rewrite Hk. simpl.
      apply lookup_delete_ne. exact Hkey.
  - intros now mail pass result st' Hlogin Huser.
    unfold Auth.loginUser in Hlogin.
    repeat match type of Hlogin with
           | context [if ?b then _ else _] => destruct b
           | context [match ?o with Some _ => _ | None => _ end] => destruct o
           end;
      injection Hlogin as <- <-; simpl in Huser; try discriminate Huser.
    injection Huser as Huid.
    unfold History.getSearchHistory, History.getUserHistoryKey, Auth.getCurrentSession.
    simpl. rewrite Hs, Huid. reflexivity.
Qed.

Lemma history_is_per_user_witness :
  let st := @History.addToHistory ascii_host 1700000100000 "Paris" None admin_store in
  let again := @Auth.loginUser ascii_host 1700000900000 "admin@weather.com" "admin@123"
                 (Auth.logoutUser st) in
  History.getSearchHistory (Auth.logoutUser st) = [] /\
  History.getSearchHistory again.2 = [history_entry 1700000100000 "Paris" None].
Proof.
  intros st again. split; [reflexivity |].
  rewrite (proj2 (@history_is_per_user ascii_host st admin_session eq_refl)
             1700000900000 "admin@weather.com" "admin@123" again.1 again.2).
  - reflexivity.
  - reflexivity.
  - reflexivity.
Defined.

(** ** Most searched cities *)

Lemma dict_upsert_fresh {K V : Type} `{EqDecision K} (k : K) (f : option V -> V)
    (d : list (K * V)) :
  k ∉ Object_keys d -> dict_upsert k f d = d ++ [(k, f None)].
Proof.
  unfold Object_keys. induction d as [| [k0 v] d IH]; simpl; intros Hout.
  - reflexivity.
  - apply not_elem_of_cons in Hout. destruct Hout as [Hne Hout].
    rewrite decide_False by congruence. rewrite (IH Hout). reflexivity.
Qed.

Section MostSearched.
Context `{JsHost}.

Lemma countCities_fold (history : list HistoryEntry) (acc : list (string * nat)) :
  fold_left
    (fun cityCounts item =>
       dict_upsert (toLowerCase (hist_city item))
         (fun old => (match old with Some n => n | None => 0 end + 1)%nat) cityCounts)
    history acc
  = fold_left count_step (lowered history) acc.
Proof.
  revert acc. induction history as [| item history IH]; intros acc; simpl;
    [reflexivity | apply IH].
Qed.

Lemma count_step_fresh (cs : list string) (acc : list (string * nat)) :
  NoDup (Object_keys acc ++ cs) ->
  fold_left count_step cs acc = acc ++ map (fun c => (c, 1%nat)) cs.
Proof.
  revert acc. induction cs as [| c cs IH]; intros acc Hnd; simpl.
  - rewrite app_nil_r. reflexivity.
  - assert (Hout : c ∉ Object_keys acc).
    { apply NoDup_app in Hnd. destruct Hnd as (_ & Hdisj & _).
      intros Hin. exact (Hdisj c Hin (list_elem_of_here _ _)). }
    unfold count_step at 2. rewrite (dict_upsert_fresh c _ acc Hout).
    rewrite IH.
    + rewrite <- app_assoc. reflexivity.
    + unfold Object_keys. rewrite map_app. simpl. rewrite <- app_assoc. exact Hnd.
Qed.

Lemma countCities_distinct (history : list HistoryEntry) :
  distinct_cities history ->
  HistoryStats.countCities history = map (fun c => (c, 1%nat)) (lowered history).
Proof.
  intros Hnd. unfold HistoryStats.countCities.
  rewrite countCities_fold. apply (count_step_fresh _ []). exact Hnd.
Qed.

Lemma sort_by_count_ones (entries : list (string * nat)) :
  Forall (fun e => e.2 = 1%nat) entries ->
  HistoryStats.sort_by_count entries = entries.
Proof.
  unfold HistoryStats.sort_by_count.
  induction 1 as [| x rest Hx Hrest IH]; simpl; [reflexivity |].
  rewrite IH. destruct rest as [| y rest']; [reflexivity |]. simpl.
  inversion Hrest as [| ? ? Hy _]; subst. rewrite Hx, Hy. reflexivity.
Qed.

Lemma find_distinct (history : list HistoryEntry) (item : HistoryEntry) :
  distinct_cities history -> item ∈ history ->
  find (fun h => @bool_decide _ (decide_rel (=) (toLowerCase (hist_city h))
                                   (toLowerCase (hist_city item))))
       history
  = Some item.
Proof.
  unfold distinct_cities, lowered.
  induction history as [| h rest IH]; simpl; intros Hnd Hin; [inversion Hin |].
  apply NoDup_cons in Hnd. destruct Hnd as [Hh Hnd].
  apply elem_of_cons in Hin. destruct Hin as [-> | Hin].
  - rewrite bool_decide_eq_true_2 by reflexivity. reflexivity.
  - rewrite bool_decide_eq_false_2; [apply IH; assumption |].
    intros E. apply Hh. rewrite E.
    apply list_elem_of_In, (in_map (fun x => toLowerCase (hist_city x))), list_elem_of_In.
    exact Hin.
Qed.

Lemma map_throwing_map {A B C : Type} (g : A -> B) (f : B -> Completion C) (r : A -> C)
    (xs : list A) :
  Forall (fun x => f (g x) = Returned (r x)) xs ->
  Weather.map_throwing f (map g xs) = Returned (map r xs).
Proof.
  induction 1 as [| x xs Hx _ IH]; simpl; [reflexivity |].
  rewrite Hx, IH. reflexivity.
Qed.

Lemma filter_map_comm {A B : Type} (g : A -> B) (p : B -> bool) (l : list A) :
  List.filter p (map g l) = map g (List.filter (fun x => p (g x)) l).
Proof.
  induction l as [| x l IH]; simpl; [reflexivity |].
  destruct (p (g x)); simpl; rewrite IH; reflexivity.
Qed.

Lemma insert_by_index_map {A B : Type} (g : A -> B) (name : B -> string) (x : A)
    (l : list A) :
  HistoryStats.insert_by_index name (g x) (map g l)
  = map g (HistoryStats.insert_by_index (fun y => name (g y)) x l).
Proof.
  induction l as [| y l IH]; simpl; [reflexivity |].
  destruct (_ <=? _)%N; simpl; [reflexivity | rewrite IH; reflexivity].
Qed.

Lemma own_property_order_map {A B : Type} (g : A -> B) (name : B -> string)
    (l : list A) :
  HistoryStats.own_property_order name (map g l)
  = map g (HistoryStats.own_property_order (fun y => name (g y)) l).
Proof.
  unfold HistoryStats.own_property_order.
  rewrite !filter_map_comm, map_app. f_equal.
  induction (List.filter _ l) as [| x l' IH]; simpl; [reflexivity |].
  rewrite IH. apply insert_by_index_map.
Qed.

Lemma insert_by_index_perm {A : Type} (name : A -> string) (x : A) (l : list A) :
  HistoryStats.insert_by_index name x l ≡ₚ x :: l.
Proof.
  induction l as [| y l IH]; simpl; [reflexivity |].
  destruct (_ <=? _)%N; [reflexivity |].
  rewrite IH. apply Permutation_swap.
Qed.

Lemma sort_by_index_perm {A : Type} (name : A -> string) (l : list A) :
  foldr (HistoryStats.insert_by_index name) [] l ≡ₚ l.
Proof.
  induction l as [| x l IH]; simpl; [reflexivity |].
  rewrite insert_by_index_perm, IH. reflexivity.
Qed.

Lemma insert_by_index_sorted {A : Type} (name : A -> string) (x : A) (l : list A) :
  StronglySorted
    (fun a b => (HistoryStats.index_of (name a) <= HistoryStats.index_of (name b))%N) l ->
  StronglySorted
    (fun a b => (HistoryStats.index_of (name a) <= HistoryStats.index_of (name b))%N)
    (HistoryStats.insert_by_index name x l).
Proof.
  induction 1 as [| y l Hl IH Hy]; simpl.
  - constructor; constructor.
  - destruct (N.leb_spec (HistoryStats.index_of (name x))
                         (HistoryStats.index_of (name y))) as [Hle | Hgt].
    + constructor; [constructor; assumption |].
      constructor; [exact Hle |].
      eapply Forall_impl; [exact Hy |]. intros z Hz. simpl in Hz. lia.
    + constructor; [exact IH |].
      eapply Permutation_Forall; [symmetry; apply insert_by_index_perm |].
      constructor; [lia | exact Hy].
Qed.

Lemma sort_by_index_sorted {A : Type} (name : A -> string) (l : list A) :
  StronglySorted
    (fun a b => (HistoryStats.index_of (name a) <= HistoryStats.index_of (name b))%N)
    (foldr (HistoryStats.insert_by_index name) [] l).
Proof.
  induction l as [| x l IH]; simpl; [constructor |].
  apply insert_by_index_sorted. exact IH.
Qed.

Lemma own_property_order_elem {A : Type} (name : A -> string) (x : A) (l : list A) :
  x ∈ HistoryStats.own_property_order name l -> x ∈ l.
Proof.
  unfold HistoryStats.own_property_order. rewrite elem_of_app.
  intros [Hin | Hin].
  - rewrite sort_by_index_perm in Hin.
    apply list_elem_of_In, filter_In in Hin. apply list_elem_of_In. tauto.
  - apply list_elem_of_In, filter_In in Hin. apply list_elem_of_In. tauto.
Qed.

Lemma filter_none_all {A : Type} (p : A -> bool) (l : list A) :
  List.filter p l = [] -> List.filter (fun x => negb (p x)) l = l.
Proof.
  induction l as [| x l IH]; simpl; [reflexivity |].
  destruct (p x); simpl; [discriminate |].
  intros E. rewrite (IH E). reflexivity.
Qed.

(** What [getMostSearchedCities] returns on a history without two entries
    for the same city. *)
Lemma getMostSearchedCities_ones (limit : nat) (st : LocalStorage) :
  distinct_cities (History.getSearchHistory st) ->
  HistoryStats.getMostSearchedCities limit st
  = Returned (map (fun item => {| HistoryStats.top_city := hist_city item;
                                  HistoryStats.top_count := 1 |})
                  (take limit
                     (HistoryStats.own_property_order city_key
                        (History.getSearchHistory st)))).
Proof.
  intros Hnd. unfold HistoryStats.getMostSearchedCities.
  set (history := History.getSearchHistory st) in *.
  rewrite (countCities_distinct history Hnd).
  unfold lowered, HistoryStats.Object_entries. rewrite map_map.
  rewrite (own_property_order_map
             (fun item : HistoryEntry => (toLowerCase (hist_city item), 1%nat)) fst).
  change (fun y : HistoryEntry => (toLowerCase (hist_city y), 1%nat).1) with city_key.
  rewrite sort_by_count_ones
    by (apply Forall_forall; intros e He;
        apply list_elem_of_In, in_map_iff in He; destruct He as (c & <- & _); reflexivity).
  rewrite firstn_map.
  apply (map_throwing_map
           (fun item : HistoryEntry => (toLowerCase (hist_city item), 1%nat))).
  apply Forall_forall. intros item Hin. cbv beta. cbn [fst snd].
  rewrite (find_distinct history item Hnd); [reflexivity |].
  apply elem_of_take in Hin. destruct Hin as (i & Hi & _).
  apply (own_property_order_elem city_key).
  eapply list_elem_of_lookup_2. exact Hi.
Qed.

End MostSearched.

(** X18.  On a history without two entries for the same city, which is what
    the module itself maintains, and without a city named [constructor] or
    [__proto__], [getMostSearchedCities] ranks nothing by count: every
    count is one, and the result follows the property order of the counting
    object.  The cities whose lower-cased name is an array index (digits
    only, such as a ZIP code) come first, in ascending numeric order; the
    others follow, most recent first; the first [limit] of these are
    returned.  Without such a name the result is the first [limit] entries
    of the history. *)
Theorem getMostSearchedCities_distinct `{JsHost} (limit : nat) (st : LocalStorage) :
  let history := History.getSearchHistory st in
  let numbered_part :=
    List.filter (fun item => HistoryStats.is_index (city_key item)) history in
  let named_part :=
    List.filter (fun item => negb (HistoryStats.is_index (city_key item))) history in
  let entry_of := fun item => {| HistoryStats.top_city := hist_city item;
                                 HistoryStats.top_count := 1 |} in
  distinct_cities history ->
  own_names history ->
  (exists numbered,
     numbered ≡ₚ numbered_part /\
     StronglySorted
       (fun a b => (HistoryStats.index_of (city_key a)
                    <= HistoryStats.index_of (city_key b))%N) numbered /\
     HistoryStats.getMostSearchedCities limit st
     = Returned (map entry_of (take limit (numbered ++ named_part)))) /\
  (numbered_part = [] ->
   HistoryStats.getMostSearchedCities limit st
   = Returned (map entry_of (take limit history))).
Proof.
  intros history numbered_part named_part entry_of Hnd _.
  pose proof (getMostSearchedCities_ones limit st Hnd) as Hres.
  fold history in Hres. unfold HistoryStats.own_property_order in Hres.
  fold numbered_part named_part in Hres.
  split.
  - exists (foldr (HistoryStats.insert_by_index city_key) [] numbered_part).
    split; [apply sort_by_index_perm |].
    split; [apply sort_by_index_sorted | exact Hres].
  - intros Hnone. rewrite Hres, Hnone. simpl. unfold named_part.
    rewrite (filter_none_all _ history Hnone). reflexivity.
Qed.

Lemma getMostSearchedCities_distinct_witness :
  let st := @History.addToHistory ascii_host 1700000300000 "90210" None
              (@History.addToHistory ascii_host 1700000200000 "Paris" None
                 (@History.addToHistory ascii_host 1700000100000 "10001" None
                    admin_store)) in
  exists numbered,
    History.getSearchHistory st
    = [history_entry 1700000300000 "90210" None;
       history_entry 1700000200000 "Paris" None;
       history_entry 1700000100000 "10001" None] /\
    numbered ≡ₚ [history_entry 1700000300000 "90210" None;
                 history_entry 1700000100000 "10001" None] /\
    StronglySorted
      (fun a b => (HistoryStats.index_of (@city_key ascii_host a)
                   <= HistoryStats.index_of (@city_key ascii_host b))%N) numbered /\
    @HistoryStats.getMostSearchedCities ascii_host 5 st
    = Returned (map (fun item => {| HistoryStats.top_city := hist_city item;
                                    HistoryStats.top_count := 1 |})
                    (take 5 (numbered ++ [history_entry 1700000200000 "Paris" None]))) /\
    @HistoryStats.getMostSearchedCities ascii_host 5 st
    = Returned [ {| HistoryStats.top_city := "10001"; HistoryStats.top_count := 1 |};
                 {| HistoryStats.top_city := "90210"; HistoryStats.top_count := 1 |};
                 {| HistoryStats.top_city := "Paris"; HistoryStats.top_count := 1 |} ].
Proof.
  intros st.
  destruct (proj1 (@getMostSearchedCities_distinct ascii_host 5 st
                     ltac:(unfold distinct_cities; apply (bool_decide_unpack _);
                           vm_compute; exact I)
                     ltac:(split; apply (bool_decide_unpack _); vm_compute; exact I)))
    as (numbered & Hperm & Hsorted & Hres).
  exists numbered.
  split; [reflexivity |]. split; [exact Hperm |]. split; [exact Hsorted |].
  split; [exact Hres | reflexivity].
Defined.

(** ** Registration *)

Lemma find_app_None {A : Type} (p : A -> bool) (l l' : list A) :
  find p l = None -> find p (l ++ l') = find p l'.
Proof.
  induction l as [| x l IH]; simpl; [reflexivity |].
  destruct (p x); [discriminate | exact IH].
Qed.

Lemma isValidEmail_nonempty (mail : string) : Auth.isValidEmail mail = true -> mail <> "".
Proof. intros Hv ->. discriminate Hv. Qed.

Lemma validatePassword_length (pass : string) :
  Auth.isValid (Auth.validatePassword pass) = true <-> (6 <= Auth.JS_length pass)%nat.
Proof.
  unfold Auth.validatePassword, Auth.MIN_PASSWORD_LENGTH.
  destruct (Nat.ltb_spec (Auth.JS_length pass) 6); simpl; split; intros; try lia;
    try reflexivity; discriminate.
Qed.

Lemma validateName_length (nm : string) :
  Auth.isValid (Auth.validateName nm) = true <->
  nm <> "" /\ (2 <= Auth.JS_length (Auth.trim nm) <= 50)%nat.
Proof.
  unfold Auth.validateName.
  destruct (decide (nm = "")) as [-> | Hne].
  - simpl. split; [discriminate | intros [Habs _]; congruence].
  - rewrite (bool_decide_eq_false_2 _ Hne). simpl.
    destruct (Nat.ltb_spec (Auth.JS_length (Auth.trim nm)) 2); simpl.
    + split; [discriminate | intros [_ Hb]; lia].
    + destruct (Nat.ltb_spec 50 (Auth.JS_length (Auth.trim nm))); simpl.
      * split; [discriminate | intros [_ Hb]; lia].
      * split; [intros _; split; [exact Hne | lia] | reflexivity].
Qed.

(** White space outside ASCII is stripped and lengths are counted in UTF-16
    code units: a no-break space before a name goes, five letters of which
    one is accented are too few for a password, and a name of twenty-six
    Cyrillic letters is not too long. *)
Example trim_no_break_space :
  Auth.trim (String (ascii_of_nat 194) (String (ascii_of_nat 160) "Bob ")) = "Bob".
Proof. reflexivity. Qed.

Example validatePassword_counts_code_units :
  Auth.JS_length "pässe" = 5%nat /\
  Auth.isValid (Auth.validatePassword "pässe") = false /\
  Auth.isValid (Auth.validatePassword "pässen") = true.
Proof. repeat split. Qed.

Example validateName_counts_code_units :
  Auth.JS_length "Александрасоколовскаяивано" = 26%nat /\
  Auth.isValid (Auth.validateName "Александрасоколовскаяивано") = true.
Proof. repeat split. Qed.

Lemma registerUser_success `{JsHost} (now : Z) (nm mail pass : string)
    (st : LocalStorage) :
  Auth.reg_success (Auth.registerUser now nm mail pass st).1 = true ->
  Auth.isValid (Auth.validateName nm) = true /\
  Auth.isValidEmail mail = true /\
  Auth.isValid (Auth.validatePassword pass) = true /\
  Auth.findUserByEmail st mail = None /\
  (Auth.registerUser now nm mail pass st).2
  = Auth.saveUsers (Auth.getAllUsers st ++ [new_account now nm mail pass]) st.
Proof.
  unfold Auth.registerUser.
  destruct (Auth.isValid (Auth.validateName nm)); simpl; [| discriminate].
  destruct (Auth.isValidEmail mail); simpl; [| discriminate].
  destruct (Auth.isValid (Auth.validatePassword pass)); simpl; [| discriminate].
  destruct (Auth.findUserByEmail st mail); simpl; [discriminate |].
  intros _. repeat split.
Qed.

Lemma registerUser_failure `{JsHost} (now : Z) (nm mail pass : string)
    (st : LocalStorage) :
  Auth.reg_success (Auth.registerUser now nm mail pass st).1 = false ->
  (Auth.registerUser now nm mail pass st).2 = st.
Proof.
  unfold Auth.registerUser.
  destruct (Auth.isValid (Auth.validateName nm)); simpl; [| reflexivity].
  destruct (Auth.isValidEmail mail); simpl; [| reflexivity].
  destruct (Auth.isValid (Auth.validatePassword pass)); simpl; [| reflexivity].
  destruct (Auth.findUserByEmail st mail); simpl; [reflexivity | discriminate].
Qed.

(** X19.  [registerUser] never logs anyone in and never touches the search
    histories; when it fails the storage is unchanged; when it succeeds it
    appends one account after the existing ones, which are left as they
    were: the new account is not an administrator, carries the password as
    given (six UTF-16 code units at least), the trimmed name (two to fifty
    code units) and the trimmed lower-cased address, which is valid and
    matched no account before. *)
Theorem registerUser_effects `{JsHost} (now : Z) (nm mail pass : string)
    (st : LocalStorage) :
  let result := (Auth.registerUser now nm mail pass st).1 in
  let st' := (Auth.registerUser now nm mail pass st).2 in
  session_item st' = session_item st /\
  history_items st' = history_items st /\
  (Auth.reg_success result = false -> st' = st) /\
  (Auth.reg_success result = true ->
   exists u,
     Auth.getAllUsers st' = Auth.getAllUsers st ++ [u] /\
     isAdmin u = false /\
     password u = pass /\ (6 <= Auth.JS_length pass)%nat /\
     email u = Auth.trim (toLowerCase mail) /\ Auth.isValidEmail mail = true /\
     name u = Auth.trim nm /\ (2 <= Auth.JS_length (Auth.trim nm) <= 50)%nat /\
     Auth.findUserByEmail st mail = None).
Proof.
  cbv zeta.
  destruct (Auth.reg_success (Auth.registerUser now nm mail pass st).1) eqn:Hr.
  - destruct (registerUser_success now nm mail pass st Hr)
      as (Hname & Hmail & Hpass & Hnone & ->).
    split; [reflexivity |]. split; [reflexivity |]. split; [discriminate |].
    intros _. exists (new_account now nm mail pass).
    apply validatePassword_length in Hpass.
    apply validateName_length in Hname. destruct Hname as [_ [Hlo Hhi]].
    repeat split; assumption.
  - rewrite (registerUser_failure now nm mail pass st Hr).
    repeat split; intros; congruence.
Qed.

Lemma registerUser_effects_witness :
  exists u,
    Auth.getAllUsers
      (@Auth.registerUser ascii_host 1700000005000 " Guest " "Guest@Weather.com"
         "guest-pass" fresh_store).2
    = [admin_user; u] /\
    isAdmin u = false /\ email u = "guest@weather.com" /\ name u = "Guest".
Proof.
  destruct (proj2 (proj2 (proj2 (@registerUser_effects ascii_host 1700000005000
                                   " Guest " "Guest@Weather.com" "guest-pass"
                                   fresh_store))) eq_refl)
    as (u & Husers & Hadmin & _ & _ & Hemail & _ & Hname & _ & _).
  exists u. repeat split; assumption.
Defined.

(** X20.  Provided lower-casing the stored address gives the lower-cased
    address that was typed, a successful registration can be followed by a
    login with the same address and password, which opens a session for the
    new account; and a second registration with that address, under a name
    and a password that pass [validateName] and [validatePassword], is
    refused because the account exists, leaving the storage as it is. *)
Theorem register_then_login `{JsHost} (now : Z) (nm mail pass : string)
    (st : LocalStorage) :
  Auth.reg_success (Auth.registerUser now nm mail pass st).1 = true ->
  toLowerCase (Auth.trim (toLowerCase mail)) = toLowerCase mail ->
  let st' := (Auth.registerUser now nm mail pass st).2 in
  (forall now',
     let out := Auth.loginUser now' mail pass st' in
     Auth.success out.1 = true /\
     userId <$> session_item out.2 = Some (Auth.Number_toString now)) /\
  (forall now' nm' pass',
     Auth.isValid (Auth.validateName nm') = true ->
     Auth.isValid (Auth.validatePassword pass') = true ->
     Auth.registerUser now' nm' mail pass' st'
     = (Auth.register_failure "An account with this email already exists", st')).
Proof.
  intros Hok Hlow.
  destruct (registerUser_success now nm mail pass st Hok)
    as (_ & Hvalid & Hpass & Hnone & ->).
  cbv zeta.
  assert (Hfind : Auth.findUserByEmail
                    (Auth.saveUsers (Auth.getAllUsers st ++ [new_account now nm mail pass]) st)
                    mail
                  = Some (new_account now nm mail pass)).
  { unfold Auth.findUserByEmail in *.
    change (Auth.getAllUsers (Auth.saveUsers ?l st)) with l.
    rewrite (find_app_None _ _ _ Hnone). simpl.
    rewrite bool_decide_eq_true_2 by exact Hlow. reflexivity. }
  split.
  - intros now'. unfold Auth.loginUser.
    rewrite (bool_decide_eq_false_2 _ (isValidEmail_nonempty mail Hvalid)).
    apply validatePassword_length in Hpass.
    assert (Hp : pass <> "") by (intros ->; vm_compute in Hpass; lia).
    rewrite (bool_decide_eq_false_2 _ Hp), Hvalid, Hfind. simpl.
    rewrite bool_decide_eq_true_2 by reflexivity. split; reflexivity.
  - intros now' nm' pass' Hname Hpass'. unfold Auth.registerUser.
    rewrite Hname, Hvalid, Hpass', Hfind. reflexivity.
Qed.

Lemma register_then_login_witness :
  let st' := (@Auth.registerUser ascii_host 1700000005000 "Guest" "Guest@Weather.com"
                "guest-pass" fresh_store).2 in
  Auth.success (@Auth.loginUser ascii_host 1700000009000 "Guest@Weather.com"
                  "guest-pass" st').1 = true.
Proof.
  intros st'.
  apply (proj1 (@register_then_login ascii_host 1700000005000 "Guest" "Guest@Weather.com"
                  "guest-pass" fresh_store eq_refl eq_refl) 1700000009000).
Defined.

(** ** Administration *)

Lemma findIndex_Some {A : Type} (pred : A -> bool) (l : list A) (i : nat) :
  Auth.findIndex pred l = Some i ->
  exists x, l !! i = Some x /\ pred x = true /\ find pred l = Some x /\
            Forall (fun y => pred y = false) (take i l).
Proof.
  revert i. induction l as [| y l IH]; simpl; intros i Hi; [discriminate Hi |].
  destruct (pred y) eqn:Hy.
  - injection Hi as <-. exists y. repeat split; [exact Hy | constructor].
  - destruct (Auth.findIndex pred l) as [j |]; [| discriminate Hi].
    injection Hi as <-. destruct (IH j eq_refl) as (x & Hx & Hp & Hf & Hall).
    exists x. simpl. repeat split; try assumption. constructor; assumption.
Qed.

Lemma findIndex_None {A : Type} (pred : A -> bool) (l : list A) :
  Auth.findIndex pred l = None -> find pred l = None.
Proof.
  induction l as [| y l IH]; simpl; [reflexivity |].
  destruct (pred y); [discriminate |].
  destruct (Auth.findIndex pred l); [discriminate | intros _; apply IH; reflexivity].
Qed.

Lemma find_delete_other {A : Type} (p : A -> bool) (l : list A) (i : nat) (x : A) :
  l !! i = Some x -> p x = false -> find p (delete i l) = find p l.
Proof.
  revert i. induction l as [| y l IH]; intros i Hi Hx; [discriminate Hi |].
  destruct i as [| i]; simpl in *.
  - injection Hi as ->. rewrite Hx. reflexivity.
  - destruct (p y); [reflexivity | apply IH; assumption].
Qed.

Lemma flip_admin_involutive (u : User) : Auth.flip_admin (Auth.flip_admin u) = u.
Proof. destruct u. unfold Auth.flip_admin. simpl. rewrite negb_involutive. reflexivity. Qed.

Lemma flip_first_involutive (uid : string) (users : list User) :
  Auth.flip_first uid (Auth.flip_first uid users) = users.
Proof.
  induction users as [| u users IH]; simpl; [reflexivity |].
  case_bool_decide as Hu; simpl.
  - rewrite bool_decide_eq_true_2 by exact Hu. rewrite flip_admin_involutive. reflexivity.
  - rewrite bool_decide_eq_false_2 by exact Hu. rewrite IH. reflexivity.
Qed.

Lemma find_flip_first_other (uid sid : string) (users : list User) :
  sid <> uid ->
  find (fun u => bool_decide (id u = sid)) (Auth.flip_first uid users)
  = find (fun u => bool_decide (id u = sid)) users.
Proof.
  intros Hne. induction users as [| u users IH]; simpl; [reflexivity |].
  case_bool_decide as Hu; simpl.
  - rewrite !bool_decide_eq_false_2 by congruence. reflexivity.
  - destruct (bool_decide (id u = sid)); [reflexivity | exact IH].
Qed.

Lemma find_flip_first_same (uid : string) (users : list User) :
  find (fun u => bool_decide (id u = uid)) (Auth.flip_first uid users)
  = Auth.flip_admin <$> find (fun u => bool_decide (id u = uid)) users.
Proof.
  induction users as [| u users IH]; simpl; [reflexivity |].
  case_bool_decide as Hu; simpl.
  - rewrite bool_decide_eq_true_2 by exact Hu. reflexivity.
  - rewrite bool_decide_eq_false_2 by exact Hu. exact IH.
Qed.

Lemma deleteUser_cases (uid : string) (st : LocalStorage) :
  (Auth.deleteUser uid st).2 = st \/
  exists session i gone,
    session_item st = Some session /\ userId session <> uid /\
    Auth.currentIsAdmin st = true /\
    Auth.findIndex (fun u => bool_decide (id u = uid)) (Auth.getAllUsers st) = Some i /\
    Auth.getAllUsers st !! i = Some gone /\
    Auth.deleteUser uid st
    = ({| Auth.del_success := true;
          Auth.del_message := "User " +:+ name gone +:+ " deleted successfully";
          Auth.deletedUser := Some (id gone, name gone, email gone) |},
       Auth.saveUsers (delete i (Auth.getAllUsers st)) st).
Proof.
  unfold Auth.deleteUser, Auth.getCurrentSession.
  destruct (Auth.currentIsAdmin st) eqn:Hadmin; simpl; [| left; reflexivity].
  destruct (session_item st) as [session |] eqn:Hs; [| left; reflexivity].
  case_bool_decide as Hself; [left; reflexivity |].
  destruct (Auth.findIndex _ _) as [i |] eqn:Hi; [| left; reflexivity].
  destruct (Auth.getAllUsers st !! i) as [gone |] eqn:Hgone; [| left; reflexivity].
  right. exists session, i, gone. repeat split; assumption.
Qed.

Lemma toggleAdminStatus_cases (uid : string) (st : LocalStorage) :
  (Auth.toggleAdminStatus uid st).2 = st \/
  exists session u,
    session_item st = Some session /\ userId session <> uid /\
    Auth.currentIsAdmin st = true /\
    find (fun u => bool_decide (id u = uid)) (Auth.getAllUsers st) = Some u /\
    (Auth.toggleAdminStatus uid st).2
    = Auth.saveUsers (Auth.flip_first uid (Auth.getAllUsers st)) st /\
    Auth.tog_isAdmin (Auth.toggleAdminStatus uid st).1 = Some (negb (isAdmin u)).
Proof.
  unfold Auth.toggleAdminStatus, Auth.getCurrentSession.
  destruct (Auth.currentIsAdmin st) eqn:Hadmin; simpl; [| left; reflexivity].
  destruct (session_item st) as [session |] eqn:Hs; [| left; reflexivity].
  case_bool_decide as Hself; [left; reflexivity |].
  destruct (find _ _) as [u |] eqn:Hu; [| left; reflexivity].
  right. exists session, u. repeat split; assumption.
Qed.

(** X21.  [deleteUser] and [toggleAdminStatus] change nothing at all unless
    the caller is an administrator; in every case they leave the session and
    the histories alone, and the caller's own account record is the same
    afterwards: an administrator can neither delete nor demote themself. *)
Theorem admin_operations_spare_caller (uid : string) (st : LocalStorage) :
  let sd := (Auth.deleteUser uid st).2 in
  let stg := (Auth.toggleAdminStatus uid st).2 in
  (Auth.currentIsAdmin st = false ->
   sd = st /\ stg = st /\ Auth.getAllUsersAdmin st = None) /\
  session_item sd = session_item st /\ history_items sd = history_items st /\
  session_item stg = session_item st /\ history_items stg = history_items st /\
  Auth.getCurrentUser sd = Auth.getCurrentUser st /\
  Auth.getCurrentUser stg = Auth.getCurrentUser st.
Proof.
  cbv zeta. split.
  { intros Hna. unfold Auth.deleteUser, Auth.toggleAdminStatus, Auth.getAllUsersAdmin.
    rewrite Hna. repeat split. }
  destruct (deleteUser_cases uid st) as [-> | (s & i & gone & Hs & Hne & _ & Hi & Hgone & ->)];
    destruct (toggleAdminStatus_cases uid st)
      as [-> | (s' & u & Hs' & Hne' & _ & Hu & -> & _)];
    repeat split;
    unfold Auth.getCurrentUser, Auth.getCurrentSession; simpl;
    try (rewrite Hs); try (rewrite Hs'); simpl.
  all: try reflexivity.
  all: try (apply find_flip_first_other; congruence).
  all: try (destruct (findIndex_Some _ _ _ Hi) as (x & Hx & Hp & _);
            apply (find_delete_other _ _ i x Hx);
            apply bool_decide_eq_true in Hp;
            apply bool_decide_eq_false_2; congruence).
Qed.

Lemma admin_operations_spare_caller_witness :
  let guest_session := {| userId := "1700000005000"; session_name := "Guest";
                          session_email := "guest@weather.com";
                          loginTime := 1700000006000 |} in
  let st := {| users_item := Some [admin_user; guest_user];
               session_item := Some guest_session; history_items := ∅ |} in
  (Auth.deleteUser "admin-1700000000000" st).2 = st /\
  (Auth.toggleAdminStatus "1700000005000" st).2 = st.
Proof.
  intros guest_session st.
  destruct (proj1 (admin_operations_spare_caller "admin-1700000000000" st) eq_refl)
    as (Hd & _ & _).
  destruct (proj1 (admin_operations_spare_caller "1700000005000" st) eq_refl)
    as (_ & Ht & _).
  split; assumption.
Defined.

(** X22.  A successful [deleteUser] removes exactly one account, the first
    one carrying the given id, which is not the caller's; the accounts
    before and after it stay, in their order, and the result describes the
    account that was removed. *)
Theorem deleteUser_removes_first_match (uid : string) (st : LocalStorage) :
  Auth.del_success (Auth.deleteUser uid st).1 = true ->
  exists before gone after,
    Auth.getAllUsers st = before ++ gone :: after /\
    id gone = uid /\
    Forall (fun u => id u <> uid) before /\
    Auth.getAllUsers (Auth.deleteUser uid st).2 = before ++ after /\
    Auth.deletedUser (Auth.deleteUser uid st).1 = Some (id gone, name gone, email gone) /\
    (userId <$> session_item st) <> Some uid.
Proof.
  unfold Auth.deleteUser, Auth.getCurrentSession.
  destruct (Auth.currentIsAdmin st); simpl; [| discriminate].
  destruct (session_item st) as [s |] eqn:Hs; simpl; [| discriminate].
  case_bool_decide as Hself; simpl; [discriminate |].
  destruct (Auth.findIndex _ _) as [i |] eqn:Hi; simpl; [| discriminate].
  destruct (Auth.getAllUsers st !! i) as [gone |] eqn:Hgone; simpl; [| discriminate].
  intros _.
  destruct (findIndex_Some _ _ _ Hi) as (x & Hx & Hp & _ & Hall).
  rewrite Hgone in Hx. injection Hx as <-.
  exists (take i (Auth.getAllUsers st)), gone, (drop (S i) (Auth.getAllUsers st)).
  split; [symmetry; apply take_drop_middle; exact Hgone |].
  split; [apply bool_decide_eq_true in Hp; exact Hp |].
  split; [eapply Forall_impl; [exact Hall |]; intros u Hu;
          apply bool_decide_eq_false in Hu; exact Hu |].
  split; [apply delete_take_drop |].
  split; [reflexivity |].
  congruence.
Qed.

Lemma deleteUser_removes_first_match_witness :
  Auth.getAllUsers (Auth.deleteUser "1700000005000" two_user_store).2 = [admin_user].
Proof.
  destruct (deleteUser_removes_first_match "1700000005000" two_user_store eq_refl)
    as (before & gone & after & _).
  reflexivity.
Defined.

(** X23.  Toggling the administrator flag of the same id twice in a row
    gives back the storage one started from, whether the toggles succeed or
    are refused. *)
Theorem toggleAdminStatus_twice (uid : string) (st : LocalStorage) :
  (Auth.toggleAdminStatus uid (Auth.toggleAdminStatus uid st).2).2 = st.
Proof.
  destruct (toggleAdminStatus_cases uid st)
    as [Hsame | (s & u & Hs & Hne & Hadmin & Hu & Hst & _)].
  - rewrite Hsame. exact Hsame.
  - rewrite Hst.
    set (st1 := Auth.saveUsers (Auth.flip_first uid (Auth.getAllUsers st)) st).
    assert (Hcur : Auth.getCurrentUser st1 = Auth.getCurrentUser st).
    { unfold Auth.getCurrentUser, Auth.getCurrentSession. simpl. rewrite Hs.
      apply find_flip_first_other. congruence. }
    assert (Hadmin1 : Auth.currentIsAdmin st1 = true).
    { unfold Auth.currentIsAdmin. rewrite Hcur. exact Hadmin. }
    assert (Hfind1 : find (fun x => bool_decide (id x = uid)) (Auth.getAllUsers st1)
                     = Some (Auth.flip_admin u)).
    { unfold st1. change (Auth.getAllUsers (Auth.saveUsers ?l st)) with l.
      rewrite find_flip_first_same, Hu. reflexivity. }
    assert (Hs1 : Auth.getCurrentSession st1 = Some s) by exact Hs.
    unfold Auth.toggleAdminStatus. rewrite Hadmin1, Hs1. simpl.
    rewrite bool_decide_eq_false_2 by exact Hne. rewrite Hfind1. simpl.
    unfold st1. change (Auth.getAllUsers (Auth.saveUsers ?l st)) with l.
    rewrite flip_first_involutive.
    destruct st as [users sess hist]. unfold Auth.saveUsers, Auth.getAllUsers in *.
    simpl in *. destruct users as [users |]; [reflexivity | discriminate Hu].
Qed.

(** X24.  [initializeDefaultAdmin] acts only on an empty user list: there
    the user list becomes the single account [default_admin] (id [admin-]
    followed by the instant, name Admin, the configured address and
    password, administrator, default preferences), session and histories
    are left alone, and that account can log in with the configured address
    and password and is then recognised as administrator; on any other list
    nothing changes, so running it again has no further effect. *)
Theorem initializeDefaultAdmin_once `{JsHost} (now : Z) (st : LocalStorage) :
  (Auth.getAllUsers st = [] ->
   Auth.initializeDefaultAdmin now st
   = {| users_item := Some [default_admin now];
        session_item := session_item st;
        history_items := history_items st |}) /\
  (Auth.getAllUsers st <> [] -> Auth.initializeDefaultAdmin now st = st) /\
  (forall now', Auth.initializeDefaultAdmin now' (Auth.initializeDefaultAdmin now st)
                = Auth.initializeDefaultAdmin now st) /\
  (Auth.getAllUsers st = [] ->
   forall now',
     let out := Auth.loginUser now' Auth.DEFAULT_ADMIN_EMAIL Auth.DEFAULT_ADMIN_PASSWORD
                  (Auth.initializeDefaultAdmin now st) in
     Auth.success out.1 = true /\ Auth.currentIsAdmin out.2 = true).
Proof.
  assert (Hkeep : forall s n, Auth.getAllUsers s <> [] -> Auth.initializeDefaultAdmin n s = s).
  { intros s n Hne. unfold Auth.initializeDefaultAdmin.
    rewrite (bool_decide_eq_false_2 _ Hne), andb_false_r. reflexivity. }
  split.
  { intros Hempty. unfold Auth.initializeDefaultAdmin. rewrite Hempty. reflexivity. }
  split; [apply Hkeep |]. split.
  - intros now'. destruct (Auth.getAllUsers st) as [| u users] eqn:Hu.
    + apply Hkeep. unfold Auth.initializeDefaultAdmin. rewrite Hu. simpl. discriminate.
    + rewrite (Hkeep st now) by (rewrite Hu; discriminate).
      apply Hkeep. rewrite Hu. discriminate.
  - intros Hempty now'. cbv zeta.
    unfold Auth.initializeDefaultAdmin. rewrite Hempty. simpl.
    unfold Auth.loginUser, Auth.findUserByEmail. simpl.
    rewrite bool_decide_eq_true_2 by reflexivity. simpl.
    split; [reflexivity |].
    unfold Auth.currentIsAdmin, Auth.getCurrentUser. simpl.
    rewrite bool_decide_eq_true_2 by reflexivity. reflexivity.
Qed.

Lemma initializeDefaultAdmin_once_witness :
  let empty := {| users_item := None; session_item := None; history_items := ∅ |} in
  Auth.initializeDefaultAdmin 1700000000000 empty = fresh_store /\
  Auth.initializeDefaultAdmin 1700000000000 fresh_store = fresh_store /\
  Auth.success (@Auth.loginUser ascii_host 1700000001000 "admin@weather.com" "admin@123"
                  (Auth.initializeDefaultAdmin 1700000000000 empty)).1 = true.
Proof.
  intros empty. split; [| split].
  - apply (proj1 (@initializeDefaultAdmin_once ascii_host 1700000000000 empty) eq_refl).
  - apply (proj1 (proj2 (@initializeDefaultAdmin_once ascii_host 1700000000000
                           fresh_store))).
    discriminate.
  - apply (proj2 (proj2 (proj2 (@initializeDefaultAdmin_once ascii_host 1700000000000
                                  empty)))
             eq_refl 1700000001000).
Defined.

(** ** Sessions *)

Lemma find_unique_id (users : list User) (u : User) :
  NoDup (map id users) -> u ∈ users ->
  find (fun x => bool_decide (id x = id u)) users = Some u.
Proof.
  induction users as [| x users IH]; simpl; intros Hnd Hin; [inversion Hin |].
  apply NoDup_cons in Hnd. destruct Hnd as [Hx Hnd].
  apply elem_of_cons in Hin. destruct Hin as [-> | Hin].
  - rewrite bool_decide_eq_true_2 by reflexivity. reflexivity.
  - rewrite bool_decide_eq_false_2; [apply IH; assumption |].
    intros E. apply Hx. rewrite E.
    apply list_elem_of_In, (in_map id), list_elem_of_In. exact Hin.
Qed.

(** X25.  Logging in with the address and password of an account opens a
    session for it and leaves accounts and histories alone; protected pages
    then let the user through and the login page sends them home.  When ids
    are unique the current user is that very account.  Logging out closes
    the session and leaves the storage that logging out without that login
    would have left; when no session was open before the login, that is the
    storage one had before. *)
Theorem login_opens_session `{JsHost} (now : Z) (mail pass : string)
    (st : LocalStorage) (u : User) :
  Auth.findUserByEmail st mail = Some u ->
  password u = pass -> pass <> "" -> Auth.isValidEmail mail = true ->
  let out := Auth.loginUser now mail pass st in
  Auth.success out.1 = true /\
  session_item out.2 = Some (session_of now u) /\
  users_item out.2 = users_item st /\ history_items out.2 = history_items st /\
  Auth.requireAuth out.2 = None /\
  Auth.redirectIfLoggedIn out.2 = Some "index.html" /\
  (NoDup (map id (Auth.getAllUsers st)) -> Auth.getCurrentUser out.2 = Some u) /\
  Auth.requireAuth (Auth.logoutUser out.2) = Some "login.html" /\
  Auth.getCurrentUser (Auth.logoutUser out.2) = None /\
  Auth.logoutUser out.2 = Auth.logoutUser st /\
  (session_item st = None -> Auth.logoutUser out.2 = st).
Proof.
  intros Hfind Hpw Hp Hvalid. cbv zeta. unfold Auth.loginUser.
  rewrite (bool_decide_eq_false_2 _ (isValidEmail_nonempty mail Hvalid)).
  rewrite (bool_decide_eq_false_2 _ Hp), Hvalid, Hfind. simpl.
  rewrite (bool_decide_eq_true_2 _ Hpw). simpl.
  repeat split.
  - intros Hnd. unfold Auth.getCurrentUser, Auth.getCurrentSession. simpl.
    apply (find_unique_id _ u Hnd).
    unfold Auth.findUserByEmail in Hfind. apply find_some in Hfind.
    apply list_elem_of_In. tauto.
  - intros Hs. destruct st as [users sess hist]. simpl in *. subst sess. reflexivity.
Qed.

Lemma login_opens_session_witness :
  let out := @Auth.loginUser ascii_host 1700000001000 "Admin@Weather.com" "admin@123"
               fresh_store in
  Auth.getCurrentUser out.2 = Some admin_user /\ Auth.logoutUser out.2 = fresh_store.
Proof.
  intros out.
  destruct (@login_opens_session ascii_host 1700000001000 "Admin@Weather.com" "admin@123"
              fresh_store admin_user eq_refl eq_refl ltac:(discriminate) eq_refl)
    as (_ & _ & _ & _ & _ & _ & Hcur & _ & _ & _ & Hout).
  split.
  - apply Hcur. apply (bool_decide_unpack _). vm_compute. exact I.
  - apply Hout. reflexivity.
Defined.

(** ** Settings *)

Lemma spread_all_of (prefs updated : Preferences) :
  Settings.spread prefs (Settings.all_of updated) = updated.
Proof. destruct updated. reflexivity. Qed.

Lemma find_alter_first {A : Type} (p : A -> bool) (f : A -> A) (l : list A)
    (i : nat) (x : A) :
  Auth.findIndex p l = Some i -> l !! i = Some x -> p (f x) = true ->
  find p (alter f i l) = Some (f x).
Proof.
  revert i. induction l as [| y l IH]; intros i Hi Hx Hp; [discriminate Hx |].
  simpl in Hi. destruct (p y) eqn:Hy.
  - injection Hi as <-. simpl in *. injection Hx as ->. rewrite Hp. reflexivity.
  - destruct (Auth.findIndex p l) as [j |] eqn:Hj; [| discriminate Hi].
    injection Hi as <-. simpl in *. rewrite Hy. apply (IH j); auto.
Qed.

Lemma findIndex_of_find {A : Type} (p : A -> bool) (l : list A) (x : A) :
  find p l = Some x -> exists i, Auth.findIndex p l = Some i /\ l !! i = Some x.
Proof.
  induction l as [| y l IH]; simpl; [discriminate |].
  destruct (p y).
  - intros [= ->]. exists 0%nat. split; reflexivity.
  - intros Hf. destruct (IH Hf) as (i & -> & Hi). exists (S i). split; [reflexivity | exact Hi].
Qed.

(** What [saveSettings] does for a logged-in user whose account exists. *)
Lemma saveSettings_found (settings : Settings.SettingsPatch) (p : Settings.Page)
    (u : User) :
  Auth.getCurrentUser (Settings.storage p) = Some u ->
  exists session i,
    session_item (Settings.storage p) = Some session /\
    Auth.findIndex (fun x => bool_decide (id x = userId session))
                   (Auth.getAllUsers (Settings.storage p)) = Some i /\
    Auth.getAllUsers (Settings.storage p) !! i = Some u /\
    Settings.saveSettings settings p
    = (true,
       {| Settings.storage :=
            Auth.saveUsers
              (alter (fun x => Settings.with_preferences x
                                 (Settings.spread (preferences x) settings))
                     i (Auth.getAllUsers (Settings.storage p)))
              (Settings.storage p);
          Settings.DEFAULT_SETTINGS := Settings.DEFAULT_SETTINGS p;
          Settings.dark_mode_class := Settings.dark_mode_class p |}) /\
    Auth.getCurrentUser (Settings.saveSettings settings p).2.(Settings.storage)
    = Some (Settings.with_preferences u (Settings.spread (preferences u) settings)).
Proof.
  unfold Auth.getCurrentUser, Auth.getCurrentSession, Settings.saveSettings.
  destruct (session_item (Settings.storage p)) as [session |] eqn:Hs; [| discriminate].
  intros Hu. destruct (findIndex_of_find _ _ _ Hu) as (i & Hi & Hx).
  unfold Auth.getCurrentSession. rewrite Hs, Hi.
  exists session, i. repeat split; try assumption.
  simpl. rewrite Hs.
  change (Auth.getAllUsers (Auth.saveUsers ?l (Settings.storage p))) with l.
  apply (find_alter_first _
           (fun x => Settings.with_preferences x (Settings.spread (preferences x) settings))
           _ i u Hi Hx).
  simpl. apply find_some in Hu. tauto.
Qed.

Lemma saveSettings_missing (settings : Settings.SettingsPatch) (p : Settings.Page) :
  Auth.getCurrentUser (Settings.storage p) = None ->
  Settings.saveSettings settings p = (false, p).
Proof.
  unfold Auth.getCurrentUser, Auth.getCurrentSession, Settings.saveSettings,
    Auth.getCurrentSession.
  destruct (session_item (Settings.storage p)) as [session |]; [| reflexivity].
  intros Hu. destruct (Auth.findIndex _ _) as [i |] eqn:Hi; [| reflexivity].
  destruct (findIndex_Some _ _ _ Hi) as (x & _ & _ & Hf & _). congruence.
Qed.

Lemma getSettings_ref_found (p : Settings.Page) (u : User) :
  Auth.getCurrentUser (Settings.storage p) = Some u ->
  Settings.getSettings_ref p = (Settings.Parsed, preferences u).
Proof.
  unfold Settings.getSettings_ref. intros Hu. rewrite Hu.
  unfold Auth.getCurrentUser in Hu.
  destruct (Auth.getCurrentSession (Settings.storage p)); [reflexivity | discriminate Hu].
Qed.

Lemma getSettings_ref_missing (p : Settings.Page) :
  Auth.getCurrentUser (Settings.storage p) = None ->
  Settings.getSettings_ref p = (Settings.Shared, Settings.DEFAULT_SETTINGS p).
Proof.
  unfold Settings.getSettings_ref. intros Hu. rewrite Hu.
  destruct (Auth.getCurrentSession (Settings.storage p)); reflexivity.
Qed.

Lemma updateSetting_read (s : Settings.Setting) (p : Settings.Page) :
  Settings.getSettings (Settings.updateSetting s p).2
  = Settings.assign s (Settings.getSettings p).
Proof.
  unfold Settings.getSettings, Settings.updateSetting.
  destruct (Auth.getCurrentUser (Settings.storage p)) as [u |] eqn:Hu.
  - rewrite (getSettings_ref_found p u Hu). cbv beta iota. simpl snd.
    destruct (saveSettings_found (Settings.all_of (Settings.assign s (preferences u))) p u Hu)
      as (_ & _ & _ & _ & _ & _ & Hcur).
    rewrite (getSettings_ref_found _ _ Hcur). simpl. apply spread_all_of.
  - rewrite (getSettings_ref_missing p Hu). cbv beta iota. simpl snd.
    rewrite saveSettings_missing by exact Hu. simpl snd.
    rewrite getSettings_ref_missing by exact Hu. reflexivity.
Qed.

Lemma saveSettings_storage_parts (settings : Settings.SettingsPatch) (p : Settings.Page) :
  let p' := (Settings.saveSettings settings p).2 in
  session_item (Settings.storage p') = session_item (Settings.storage p) /\
  history_items (Settings.storage p') = history_items (Settings.storage p) /\
  Settings.DEFAULT_SETTINGS p' = Settings.DEFAULT_SETTINGS p /\
  Settings.dark_mode_class p' = Settings.dark_mode_class p.
Proof.
  cbv zeta. unfold Settings.saveSettings.
  destruct (Auth.getCurrentSession _); [| repeat split].
  destruct (Auth.findIndex _ _); repeat split.
Qed.

(** X26.  [updateSetting] takes effect at once in every state of the page:
    the settings read afterwards are the previous ones with the one key
    replaced.  It reports success exactly when the current user's account
    exists, and never touches the session or the histories. *)
Theorem updateSetting_takes_effect (s : Settings.Setting) (p : Settings.Page) :
  let out := Settings.updateSetting s p in
  Settings.getSettings out.2 = Settings.assign s (Settings.getSettings p) /\
  (out.1 = true <-> is_Some (Auth.getCurrentUser (Settings.storage p))) /\
  session_item (Settings.storage out.2) = session_item (Settings.storage p) /\
  history_items (Settings.storage out.2) = history_items (Settings.storage p).
Proof.
  cbv zeta. split; [apply updateSetting_read |].
  unfold Settings.updateSetting.
  destruct (Auth.getCurrentUser (Settings.storage p)) as [u |] eqn:Hu.
  - rewrite (getSettings_ref_found p u Hu). cbv beta iota.
    destruct (saveSettings_found (Settings.all_of (Settings.assign s (preferences u))) p u Hu)
      as (session & i & _ & _ & _ & Heq & _).
    rewrite Heq. simpl. repeat split; eauto.
  - rewrite (getSettings_ref_missing p Hu). cbv beta iota.
    rewrite saveSettings_missing by exact Hu. simpl.
    repeat split; try discriminate. intros [x Hx]. discriminate Hx.
Qed.

(** X27.  When nobody is logged in, or the current user's account is gone,
    [updateSetting] saves nothing but writes into the shared default
    settings object: the defaults themselves change, and a later
    [resetSettings] on that page stores the changed values for whoever is
    logged in then.  For a user whose account exists the defaults are left
    alone. *)
Theorem updateSetting_alters_shared_defaults (s : Settings.Setting) (p : Settings.Page) :
  let out := Settings.updateSetting s p in
  (Auth.getCurrentUser (Settings.storage p) = None ->
   out.1 = false /\
   Settings.storage out.2 = Settings.storage p /\
   Settings.DEFAULT_SETTINGS out.2 = Settings.assign s (Settings.DEFAULT_SETTINGS p) /\
   forall (st' : LocalStorage) (u : User),
     Auth.getCurrentUser st' = Some u ->
     let later := {| Settings.storage := st';
                     Settings.DEFAULT_SETTINGS := Settings.DEFAULT_SETTINGS out.2;
                     Settings.dark_mode_class := Settings.dark_mode_class out.2 |} in
     Settings.getSettings (Settings.resetSettings later).2
     = Settings.assign s (Settings.DEFAULT_SETTINGS p)) /\
  (is_Some (Auth.getCurrentUser (Settings.storage p)) ->
   Settings.DEFAULT_SETTINGS out.2 = Settings.DEFAULT_SETTINGS p).
Proof.
  cbv zeta. unfold Settings.updateSetting. split.
  - intros Hu. rewrite (getSettings_ref_missing p Hu). cbv beta iota.
    rewrite saveSettings_missing by exact Hu. simpl.
    repeat split. intros st' u Hcur.
    unfold Settings.resetSettings, Settings.getSettings. simpl.
    match goal with
    | |- context [Settings.saveSettings ?patch ?page] =>
        destruct (saveSettings_found patch page u Hcur) as (_ & _ & _ & _ & _ & _ & Hafter)
    end.
    rewrite (getSettings_ref_found _ _ Hafter). simpl. apply spread_all_of.
  - intros [u Hu]. rewrite (getSettings_ref_found p u Hu). cbv beta iota.
    apply saveSettings_storage_parts.
Qed.

Lemma updateSetting_alters_shared_defaults_witness :
  let out := Settings.updateSetting (Settings.DarkMode false) anonymous_page in
  out.1 = false /\
  Settings.storage out.2 = fresh_store /\
  darkMode (Settings.DEFAULT_SETTINGS out.2) = false.
Proof.
  intros out.
  destruct (proj1 (updateSetting_alters_shared_defaults (Settings.DarkMode false)
                     anonymous_page) eq_refl)
    as (Hfalse & Hstore & Hdefaults & _).
  split; [exact Hfalse |]. split; [exact Hstore |].
  unfold out. rewrite Hdefaults. reflexivity.
Defined.

(** X28.  For a logged-in user whose account exists, [saveSettings] merges
    the given keys into that account's preferences and into nothing else:
    the settings read back are the old ones overridden by the given keys,
    every other account is untouched, and so are the account's identity,
    password and administrator flag.  Without such a user it stores
    nothing. *)
Theorem saveSettings_round_trip (settings : Settings.SettingsPatch) (p : Settings.Page) :
  let out := Settings.saveSettings settings p in
  (forall u,
     Auth.getCurrentUser (Settings.storage p) = Some u ->
     out.1 = true /\
     Settings.getSettings out.2 = Settings.spread (preferences u) settings /\
     exists i,
       Auth.getAllUsers (Settings.storage p) !! i = Some u /\
       Auth.getAllUsers (Settings.storage out.2) !! i
       = Some (Settings.with_preferences u (Settings.spread (preferences u) settings)) /\
       forall j, j <> i ->
         Auth.getAllUsers (Settings.storage out.2) !! j
         = Auth.getAllUsers (Settings.storage p) !! j) /\
  (Auth.getCurrentUser (Settings.storage p) = None -> out = (false, p)).
Proof.
  cbv zeta. split; [| apply saveSettings_missing].
  intros u Hu.
  destruct (saveSettings_found settings p u Hu) as (session & i & Hs & Hi & Hx & Heq & Hcur).
  split; [rewrite Heq; reflexivity |].
  split.
  - unfold Settings.getSettings. rewrite (getSettings_ref_found _ _ Hcur). reflexivity.
  - exists i. rewrite Heq. simpl.
    change (Auth.getAllUsers (Auth.saveUsers ?l (Settings.storage p))) with l.
    split; [exact Hx |]. split.
    + rewrite list_lookup_alter_eq, Hx. reflexivity.
    + intros j Hj. apply list_lookup_alter_ne. congruence.
Qed.

Lemma saveSettings_round_trip_witness :
  let patch := {| Settings.set_temperatureUnit := Some "fahrenheit";
                  Settings.set_defaultCity := None;
                  Settings.set_enableAlerts := None;
                  Settings.set_darkMode := None |} in
  Settings.getSettings (Settings.saveSettings patch admin_page).2
  = {| temperatureUnit := "fahrenheit"; defaultCity := "Thiruvananthapuram";
       enableAlerts := true; darkMode := true |}.
Proof.
  intros patch.
  destruct (proj1 (saveSettings_round_trip patch admin_page) admin_user eq_refl)
    as (_ & Hread & _).
  rewrite Hread. reflexivity.
Defined.

(** X29.  The two toggles take effect at once and undo themselves, logged
    in or not: after [toggleTemperatureUnit] the unit read back is the one
    returned, always "celsius" or "fahrenheit", and a second toggle returns
    the unit one started from when that was one of the two; after
    [toggleDarkMode] the setting and the page class both equal the returned
    flag, and a second toggle returns the flag one started from. *)
Theorem toggles_take_effect_and_undo (p : Settings.Page) :
  let unit := Settings.toggleTemperatureUnit p in
  let dark := Settings.toggleDarkMode p in
  (unit.1 = "celsius" \/ unit.1 = "fahrenheit") /\
  Settings.getTemperatureUnit unit.2 = unit.1 /\
  (Settings.getTemperatureUnit p = "celsius" \/ Settings.getTemperatureUnit p = "fahrenheit" ->
   (Settings.toggleTemperatureUnit unit.2).1 = Settings.getTemperatureUnit p) /\
  dark.1 = negb (Settings.isDarkModeEnabled p) /\
  Settings.isDarkModeEnabled dark.2 = dark.1 /\
  Settings.dark_mode_class dark.2 = dark.1 /\
  (Settings.toggleDarkMode dark.2).1 = Settings.isDarkModeEnabled p.
Proof.
  cbv zeta.
  assert (Hunit : forall q,
            Settings.getTemperatureUnit (Settings.toggleTemperatureUnit q).2
            = (Settings.toggleTemperatureUnit q).1).
  { intros q. unfold Settings.toggleTemperatureUnit, Settings.getTemperatureUnit at 1.
    simpl. rewrite updateSetting_read. simpl.
    destruct (bool_decide (Settings.getTemperatureUnit q = "celsius")); reflexivity. }
  assert (Hdark : forall q,
            Settings.isDarkModeEnabled (Settings.toggleDarkMode q).2
            = negb (Settings.isDarkModeEnabled q)).
  { intros q. unfold Settings.toggleDarkMode, Settings.isDarkModeEnabled at 1.
    simpl.
    change (Settings.getSettings (Settings.applyDarkMode ?x))
      with (Settings.getSettings x).
    rewrite updateSetting_read. reflexivity. }
  split; [| split; [| split; [| split; [| split; [| split]]]]].
  - unfold Settings.toggleTemperatureUnit. simpl.
    destruct (bool_decide _); auto.
  - apply Hunit.
  - intros Hstart.
    assert (Hfst : forall q,
              (Settings.toggleTemperatureUnit q).1
              = if bool_decide (Settings.getTemperatureUnit q = "celsius")
                then "fahrenheit" else "celsius") by reflexivity.
    rewrite (Hfst (Settings.toggleTemperatureUnit p).2), Hunit, Hfst.
    destruct Hstart as [-> | ->]; reflexivity.
  - reflexivity.
  - apply Hdark.
  - unfold Settings.toggleDarkMode. simpl.
    unfold Settings.isDarkModeEnabled at 1. rewrite updateSetting_read. reflexivity.
  - assert (Hfst : forall q, (Settings.toggleDarkMode q).1
                             = negb (Settings.isDarkModeEnabled q)) by reflexivity.
    rewrite (Hfst (Settings.toggleDarkMode p).2), Hdark.
    apply negb_involutive.
Qed.

Lemma toggles_take_effect_and_undo_witness :
  (Settings.toggleTemperatureUnit (Settings.toggleTemperatureUnit admin_page).2).1
  = "celsius".
Proof.
  rewrite (proj1 (proj2 (proj2 (toggles_take_effect_and_undo admin_page)))).
  - reflexivity.
  - left. reflexivity.
Defined.

(** ** What a valid address looks like *)

Lemma inner_dot_split (l : list Ascii.ascii) :
  Auth.inner_dot l = true ->
  exists host tld, l = host ++ "."%char :: tld /\ host <> [] /\ tld <> [].
Proof.
  induction l as [| c l IH]; [discriminate |].
  destruct l as [| d rest]; [discriminate |].
  intros Hd. change (Auth.inner_dot (c :: d :: rest))
    with ((Ascii.eqb d "." && negb (bool_decide (rest = []))) || Auth.inner_dot (d :: rest))
    in Hd.
  apply orb_true_iff in Hd. destruct Hd as [Hd | Hd].
  - apply andb_true_iff in Hd. destruct Hd as [Hdot Hr].
    apply Ascii.eqb_eq in Hdot. subst d.
    exists [c], rest. split; [reflexivity |]. split; [discriminate |].
    intros ->. discriminate Hr.
  - destruct (IH Hd) as (host & tld & Heq & _ & Htld).
    exists (c :: host), tld. rewrite Heq. split; [reflexivity |].
    split; [discriminate | exact Htld].
Qed.

Lemma is_atom_facts (c : Ascii.ascii) :
  Auth.is_atom c = true -> Auth.is_space c = false /\ c <> "@"%char.
Proof.
  unfold Auth.is_atom. intros Ha. apply andb_true_iff in Ha. destruct Ha as [Hs Hat].
  apply negb_true_iff in Hs, Hat. split; [exact Hs |].
  intros ->. discriminate Hat.
Qed.

Lemma atoms_without_at (l : list Ascii.ascii) :
  Forall (fun c => Auth.is_atom c = true) l -> "@"%char ∉ l.
Proof.
  intros Hall Hin. rewrite Forall_forall in Hall.
  destruct (is_atom_facts _ (Hall _ Hin)) as [_ Hne]. congruence.
Qed.

Lemma email_match_shape (seen : bool) (l : list Ascii.ascii) :
  Auth.email_match seen l = true ->
  exists local domain,
    l = local ++ "@"%char :: domain /\
    Forall (fun c => Auth.is_atom c = true) local /\
    (seen = false -> local <> []) /\
    Forall (fun c => Auth.is_atom c = true) domain /\
    Auth.inner_dot domain = true.
Proof.
  revert seen. induction l as [| c l IH]; intros seen; simpl; [discriminate |].
  destruct (Ascii.eqb_spec c "@") as [-> | Hc].
  - intros Hd. apply andb_true_iff in Hd. destruct Hd as [Hseen Hd].
    unfold Auth.domain_ok in Hd. apply andb_true_iff in Hd. destruct Hd as [Hatoms Hdot].
    exists [], l. split; [reflexivity |]. split; [constructor |].
    split; [intros ->; discriminate Hseen |].
    split; [apply Forall_forall; intros x Hx;
            rewrite forallb_forall in Hatoms; apply Hatoms, list_elem_of_In, Hx
           | exact Hdot].
  - intros Hm. apply andb_true_iff in Hm. destruct Hm as [Hatom Hm].
    destruct (IH true Hm) as (local & domain & -> & Hl & _ & Hd & Hdot).
    exists (c :: local), domain. split; [reflexivity |].
    split; [constructor; assumption |]. split; [discriminate |]. split; assumption.
Qed.

Lemma no_space_suffix (before after : list Ascii.ascii) :
  Auth.no_space (before ++ after) = true -> Auth.starts_with_space after = false.
Proof.
  induction before as [| c before IH]; simpl.
  - destruct after as [| c after]; [reflexivity |].
    intros Hn. apply andb_true_iff in Hn. destruct Hn as [Hn _].
    apply negb_true_iff in Hn. exact Hn.
  - intros Hn. apply andb_true_iff in Hn. destruct Hn as [_ Hn]. apply IH. exact Hn.
Qed.

Lemma starts_with_space_false (l : list Ascii.ascii) :
  Auth.starts_with_space l = false ->
  match l with
  | [] => True
  | c1 :: r1 =>
      Auth.is_space c1 = false /\
      match r1 with
      | [] => True
      | c2 :: r2 =>
          Auth.is_nbsp c1 c2 = false /\
          match r2 with
          | [] => True
          | c3 :: _ => Auth.is_wide_space c1 c2 c3 = false
          end
      end
  end.
Proof.
  destruct l as [| c1 [| c2 [| c3 r]]]; unfold Auth.starts_with_space; intros Hs;
    repeat match type of Hs with
           | (_ || _) = false => apply orb_false_iff in Hs; destruct Hs as [? Hs]
           end;
    auto.
Qed.

Lemma trim_start_id (l : list Ascii.ascii) :
  Auth.starts_with_space l = false -> Auth.trim_start l = l.
Proof.
  intros Hs. apply starts_with_space_false in Hs.
  destruct l as [| c1 [| c2 [| c3 r]]]; cbn [Auth.trim_start]; [reflexivity | | |].
  - destruct Hs as [-> _]. reflexivity.
  - destruct Hs as (-> & -> & _). reflexivity.
  - destruct Hs as (-> & -> & ->). reflexivity.
Qed.

Lemma trim_end_rev_id (l : list Ascii.ascii) :
  (forall before after, l = before ++ after -> Auth.starts_with_space after = false) ->
  Auth.trim_end_rev (rev l) = rev l.
Proof.
  intros Hno.
  assert (Hrev : forall tail, (exists before, l = before ++ rev tail) ->
                              Auth.starts_with_space (rev tail) = false).
  { intros tail [before Heq]. exact (Hno before _ Heq). }
  rewrite <- (rev_involutive l) in Hrev.
  destruct (rev l) as [| c1 [| c2 [| c3 r]]]; [reflexivity | | |].
  - pose proof (starts_with_space_false _ (Hrev [c1] (ex_intro _ [] eq_refl))) as H1.
    destruct H1 as [H1 _]. cbn [Auth.trim_end_rev]. rewrite H1. reflexivity.
  - pose proof (starts_with_space_false _ (Hrev [c1] (ex_intro _ [c2] eq_refl))) as H1.
    pose proof (starts_with_space_false _ (Hrev [c1; c2] (ex_intro _ [] eq_refl))) as H2.
    destruct H1 as [H1 _]. destruct H2 as (_ & H2 & _).
    cbn [Auth.trim_end_rev]. rewrite H1, H2. reflexivity.
  - assert (E1 : exists before, rev (c1 :: c2 :: c3 :: r) = before ++ rev [c1]).
    { exists (rev r ++ [c3; c2]). simpl. rewrite <- !app_assoc. reflexivity. }
    assert (E2 : exists before, rev (c1 :: c2 :: c3 :: r) = before ++ rev [c1; c2]).
    { exists (rev r ++ [c3]). simpl. rewrite <- !app_assoc. reflexivity. }
    assert (E3 : exists before, rev (c1 :: c2 :: c3 :: r) = before ++ rev [c1; c2; c3]).
    { exists (rev r). simpl. rewrite <- !app_assoc. reflexivity. }
    pose proof (starts_with_space_false _ (Hrev _ E1)) as H1.
    pose proof (starts_with_space_false _ (Hrev _ E2)) as H2.
    pose proof (starts_with_space_false _ (Hrev _ E3)) as H3.
    destruct H1 as [H1 _]. destruct H2 as (_ & H2 & _). destruct H3 as (_ & _ & H3).
    cbn [Auth.trim_end_rev]. rewrite H1, H2, H3. reflexivity.
Qed.

(** X30.  An address accepted by [isValidEmail] contains no white space of
    the class [\s], ASCII or not, and exactly one [@]; it splits into a
    non-empty local part, the [@], a non-empty host, a dot and a non-empty
    rest; trimming such an address, as [registerUser] does before storing
    it, leaves it unchanged. *)
Theorem valid_email_shape (mail : string) :
  Auth.isValidEmail mail = true ->
  let chars := list_ascii_of_string mail in
  (forall before after,
     chars = before ++ after -> Auth.starts_with_space after = false) /\
  length (filter (fun c => c = "@"%char) chars) = 1%nat /\
  (exists local host tld,
     chars = local ++ "@"%char :: host ++ "."%char :: tld /\
     local <> [] /\ host <> [] /\ tld <> []) /\
  Auth.trim mail = mail.
Proof.
  unfold Auth.isValidEmail. intros Hv. cbv zeta.
  apply andb_true_iff in Hv. destruct Hv as [Hno Hv].
  destruct (email_match_shape false _ Hv) as (local & domain & Hsplit & Hl & Hne & Hd & Hdot).
  assert (Hnospace : forall before after,
             list_ascii_of_string mail = before ++ after ->
             Auth.starts_with_space after = false).
  { intros before after Heq. apply (no_space_suffix before). rewrite <- Heq. exact Hno. }
  split; [exact Hnospace |]. split; [| split].
  - rewrite Hsplit, filter_app, filter_cons_True by reflexivity.
    rewrite !filter_none; [reflexivity | |].
    + eapply Forall_impl; [exact Hd |]. intros c Hc. apply is_atom_facts, Hc.
    + eapply Forall_impl; [exact Hl |]. intros c Hc. apply is_atom_facts, Hc.
  - destruct (inner_dot_split domain Hdot) as (host & tld & -> & Hhost & Htld).
    exists local, host, tld. split; [exact Hsplit |].
    split; [apply Hne; reflexivity |]. split; assumption.
  - unfold Auth.trim.
    rewrite (trim_start_id _ (Hnospace [] _ eq_refl)).
    rewrite (trim_end_rev_id _ Hnospace).
    rewrite rev_involutive. apply string_of_list_ascii_of_string.
Qed.

Lemma valid_email_shape_witness :
  Auth.trim "admin@weather.com" = "admin@weather.com".
Proof. apply (valid_email_shape "admin@weather.com"). reflexivity. Defined.

(** A no-break space inside an address makes it invalid, as an ASCII space
    does. *)
Example isValidEmail_no_break_space :
  Auth.isValidEmail
    ("a" +:+ String (ascii_of_nat 194) (String (ascii_of_nat 160) "b@c.de")) = false /\
  Auth.isValidEmail "a b@c.de" = false /\
  Auth.isValidEmail "ab@c.de" = true.
Proof. repeat split. Qed.

Lemma fetch_touches_one_entry_witness :
  let w := (@Weather.fetchCurrentWeather ascii_host (answering 200 paris_now) "Paris"
              (empty_world 1700000000000)).2 in
  let w' := (@Weather.fetchCurrentWeather ascii_host
               (answering 200 (sample_current 30 2 60 8000 "Clouds")) "paris" w).2 in
  Weather.current w' !! "Paris" = Weather.current w !! "Paris".
Proof.
  intros w w'.
  apply (proj1 (proj1 (proj2 (proj2 (@fetch_touches_one_entry ascii_host
                  (answering 200 (sample_current 30 2 60 8000 "Clouds"))
                  (answering 200 paris_forecast) "paris" w))) "Paris"
                  ltac:(discriminate))).
Defined.

(** ** Daily forecast: which days are kept *)

Lemma group_fold_keys (items : list Weather.ForecastItem)
    (acc dailyData : list (Z * Weather.DayGroup)) :
  fold_left Weather.group_step items (Returned acc) = Returned dailyData ->
  Object_keys dailyData
  = Object_keys acc ++ filter (fun x => x ∉ Object_keys acc) (first_days (days_of items)).
Proof.
  revert acc. induction items as [| item items IH]; intros acc Hfold.
  - simpl in Hfold. injection Hfold as <-. simpl. rewrite filter_nil, app_nil_r.
    reflexivity.
  - simpl in Hfold.
    destruct (valid_time_dec (Weather.fc_dt item)) as [Hv | Hv].
    + rewrite (dateKey_valid _ Hv) in Hfold.
      rewrite (IH _ Hfold). simpl.
      set (k := day_of (Weather.fc_dt item)).
      rewrite !(keys_upsert k _ acc).
      destruct (decide (k ∈ Object_keys acc)) as [Hin | Hout].
      * rewrite filter_cons_False by (intros Hc; exact (Hc Hin)).
        rewrite list_filter_filter_l; [reflexivity |].
        intros x Hx ->. exact (Hx Hin).
      * rewrite filter_cons_True by exact Hout.
        rewrite <- app_assoc. simpl. do 2 f_equal.
        rewrite list_filter_filter. apply list_filter_iff.
        intros x. rewrite elem_of_app, list_elem_of_singleton. tauto.
    + rewrite (dateKey_invalid _ Hv), group_step_thrown in Hfold. discriminate Hfold.
Qed.

(** The groups are created in the order in which their days first occur. *)
Lemma groupByDate_keys (items : list Weather.ForecastItem)
    (dailyData : list (Z * Weather.DayGroup)) :
  Weather.groupByDate items = Returned dailyData ->
  Object_keys dailyData = first_days (days_of items).
Proof.
  intros Hg. rewrite (group_fold_keys items [] dailyData Hg). simpl.
  induction (first_days (days_of items)) as [| x l IH]; [reflexivity |].
  rewrite filter_cons_True by apply not_elem_of_nil. f_equal. exact IH.
Qed.

Lemma summaries_dates (unit : string) (dailyData : list (Z * Weather.DayGroup))
    (all : list Weather.DailyEntry) :
  Forall2 (fun day entry => Weather.summarise unit day = Returned entry)
    (Object_values dailyData) all ->
  (forall k day, (k, day) ∈ dailyData -> Weather.date day = k) ->
  map Weather.day_date all = map (fun k => k * 86400000) (Object_keys dailyData).
Proof.
  unfold Object_keys, Object_values. revert all.
  induction dailyData as [| [k day] rest IH]; intros all Hall Hdates.
  - inversion Hall. reflexivity.
  - simpl in Hall. inversion Hall as [| ? entry ? all' Hs Hrest]; subst. simpl.
    rewrite (summarise_date _ _ _ Hs), (Hdates k day (list_elem_of_here _ _)).
    f_equal. apply IH; [exact Hrest |].
    intros k' day' Hin. apply (Hdates k' day'). apply list_elem_of_further. exact Hin.
Qed.

Lemma Qmin_either (x y : Q) : Qmin x y = x \/ Qmin x y = y.
Proof.
  unfold Qmin, GenericMinMax.gmin. destruct (x ?= y)%Q; auto.
Qed.

Lemma Qmax_either (x y : Q) : Qmax x y = x \/ Qmax x y = y.
Proof.
  unfold Qmax, GenericMinMax.gmax. destruct (x ?= y)%Q; auto.
Qed.

Lemma Math_min_elem (t : Q) (ts : list Q) : Weather.Math_min t ts ∈ t :: ts.
Proof.
  unfold Weather.Math_min. revert t.
  induction ts as [| x ts IH]; intros t; simpl; [apply list_elem_of_here |].
  specialize (IH (Qmin t x)). apply elem_of_cons in IH.
  destruct IH as [-> | IH].
  - destruct (Qmin_either t x) as [-> | ->];
      [apply list_elem_of_here | apply list_elem_of_further, list_elem_of_here].
  - do 2 apply list_elem_of_further. exact IH.
Qed.

Lemma Math_max_elem (t : Q) (ts : list Q) : Weather.Math_max t ts ∈ t :: ts.
Proof.
  unfold Weather.Math_max. revert t.
  induction ts as [| x ts IH]; intros t; simpl; [apply list_elem_of_here |].
  specialize (IH (Qmax t x)). apply elem_of_cons in IH.
  destruct IH as [-> | IH].
  - destruct (Qmax_either t x) as [-> | ->];
      [apply list_elem_of_here | apply list_elem_of_further, list_elem_of_here].
  - do 2 apply list_elem_of_further. exact IH.
Qed.

(** The extremes of a day are the displayed temperatures of two of its
    records. *)
Lemma summarise_attains (unit : string) (day : Weather.DayGroup)
    (entry : Weather.DailyEntry) :
  Weather.summarise unit day = Returned entry ->
  (exists item, item ∈ Weather.rows day /\ Weather.minTemp entry = shown_temp unit item) /\
  (exists item, item ∈ Weather.rows day /\ Weather.maxTemp entry = shown_temp unit item).
Proof.
  unfold Weather.summarise. intros Hs.
  assert (Hpick : forall x, x ∈ Weather.temps day ->
                    exists item, item ∈ Weather.rows day /\ Weather.fc_temp item = x).
  { unfold Weather.temps. intros x Hx. apply list_elem_of_In, in_map_iff in Hx.
    destruct Hx as (item & <- & Hin). exists item.
    split; [apply list_elem_of_In; exact Hin | reflexivity]. }
  destruct (Weather.temps day) as [| t ts]; [discriminate Hs |].
  destruct (Weather.dominantCondition _) as [dominant | e]; [| discriminate Hs].
  injection Hs as <-. simpl. unfold shown_temp. split.
  - destruct (Hpick _ (Math_min_elem t ts)) as (item & Hin & Heq).
    exists item. rewrite Heq. split; [exact Hin | reflexivity].
  - destruct (Hpick _ (Math_max_elem t ts)) as (item & Hin & Heq).
    exists item. rewrite Heq. split; [exact Hin | reflexivity].
Qed.

Lemma summary_spans_its_day (unit : string) (items : list Weather.ForecastItem)
    (dailyData : list (Z * Weather.DayGroup)) (all : list Weather.DailyEntry) :
  Weather.groupByDate items = Returned dailyData ->
  Forall2 (fun day entry => Weather.summarise unit day = Returned entry)
    (Object_values dailyData) all ->
  Forall (spans_its_day unit items) all.
Proof.
  intros Hg Hall. destruct (groupByDate_groups _ _ Hg) as (_ & Hgroups).
  apply Forall_forall. intros entry Hin.
  destruct (Forall2_elem_r _ _ _ _ Hall Hin) as (day & Hdayin & Hs).
  unfold Object_values in Hdayin. apply list_elem_of_In, in_map_iff in Hdayin.
  destruct Hdayin as ([k day'] & Heq & Hin'). simpl in Heq. subst day'.
  apply list_elem_of_In in Hin'.
  destruct (Hgroups k day Hin') as (Hdate & Hrows & _).
  unfold spans_its_day. cbv zeta.
  rewrite (summarise_date _ _ _ Hs), Hdate, Z.div_mul by discriminate.
  rewrite <- Hrows.
  destruct (summarise_attains unit day entry Hs) as (Hlo & Hhi).
  split; [exact Hlo |]. split; [exact Hhi |].
  intros item Hitem. apply (summarise_band unit day entry item Hs Hitem).
Qed.

Lemma first_days_shift (d : Z) (l : list Z) :
  first_days (map (fun j => d + j) l) = map (fun j => d + j) (first_days l).
Proof.
  induction l as [| c l IH]; simpl; [reflexivity |].
  f_equal. rewrite IH. clear IH.
  induction (first_days l) as [| x xs IH]; simpl; [reflexivity |].
  destruct (decide (x = c)) as [-> | Hne].
  - rewrite !filter_cons_False by (intros Hc; apply Hc; reflexivity). exact IH.
  - rewrite !filter_cons_True by lia. simpl. f_equal. exact IH.
Qed.

(** The day of the [i]-th record of a three-hourly forecast: [k] counts the
    three-hour steps between midnight and the first record. *)
Lemma three_hourly_day (t0 : Z) (i : Z) :
  0 <= i ->
  day_of (t0 + 10800 * i) = day_of t0 + (t0 mod 86400 / 10800 + i) / 8.
Proof.
  intros Hi. unfold day_of.
  Z.div_mod_to_equations. lia.
Qed.

Lemma three_hourly_days_of (t0 : Z) (items : list Weather.ForecastItem) :
  three_hourly t0 items ->
  days_of items
  = map (fun j => day_of t0 + j)
        (map (fun i : nat => (t0 mod 86400 / 10800 + Z.of_nat i) / 8) (seq 0 40)).
Proof.
  intros [Hlen Hdt]. rewrite map_map. unfold days_of.
  apply list_eq. intros i. rewrite !list_lookup_fmap.
  destruct (items !! i) as [item |] eqn:Hi.
  - pose proof (lookup_lt_Some _ _ _ Hi) as Hlt. rewrite Hlen in Hlt.
    rewrite lookup_seq_lt by exact Hlt. simpl.
    rewrite (Hdt i item Hi), three_hourly_day by lia. reflexivity.
  - apply lookup_ge_None in Hi. rewrite Hlen in Hi.
    rewrite lookup_seq_ge by exact Hi. reflexivity.
Qed.

(** Forty records three hours apart touch five or six consecutive days, and
    the first five are the day of the first record and the four that
    follow. *)
Lemma three_hourly_first_days (t0 : Z) (items : list Weather.ForecastItem) :
  three_hourly t0 items ->
  take 5 (first_days (days_of items))
  = map (fun j => day_of t0 + j) [0; 1; 2; 3; 4].
Proof.
  intros H3. rewrite (three_hourly_days_of t0 items H3), first_days_shift.
  rewrite firstn_map. f_equal.
  assert (Hk : 0 <= t0 mod 86400 / 10800 < 8) by (Z.div_mod_to_equations; lia).
  set (k := t0 mod 86400 / 10800) in *.
  assert (Hcases : k = 0 \/ k = 1 \/ k = 2 \/ k = 3 \/ k = 4 \/ k = 5 \/ k = 6 \/ k = 7)
    by lia.
  destruct Hcases as [-> | [-> | [-> | [-> | [-> | [-> | [-> | ->]]]]]]];
    vm_compute; reflexivity.
Qed.

(** C6.  Whenever the daily aggregation returns, its entries are the first
    five days of the input in the order in which they first occur (fewer
    when the input has fewer days), whatever the number of days the input
    spans; each entry is for a day that has records, and its [minTemp] and
    [maxTemp] are the lowest and the highest temperature displayed for a
    record of that day.  On forty records three hours apart (with valid
    dates) it returns exactly five entries, for the day of the first record
    and the four days that follow, each with [minTemp <= maxTemp]. *)
Theorem processDailyForecast_five_days (unit : string) :
  (forall (forecastData : Weather.ForecastData) (days : list Weather.DailyEntry),
     Weather.processDailyForecast forecastData unit = Returned days ->
     (length days <= 5)%nat /\
     map Weather.day_date days
     = map (fun k => k * 86400000)
           (take 5 (first_days (days_of (Weather.fc_list forecastData)))) /\
     Forall (spans_its_day unit (Weather.fc_list forecastData)) days) /\
  (forall (t0 : Z) (items : list Weather.ForecastItem),
     three_hourly t0 items ->
     valid_time t0 -> valid_time (t0 + 421200) ->
     exists days,
       Weather.processDailyForecast {| Weather.fc_list := items |} unit = Returned days /\
       length days = 5%nat /\
       map Weather.day_date days
       = [day_of t0 * 86400000; (day_of t0 + 1) * 86400000; (day_of t0 + 2) * 86400000;
          (day_of t0 + 3) * 86400000; (day_of t0 + 4) * 86400000] /\
       Forall (spans_its_day unit items) days /\
       Forall (fun entry => Weather.minTemp entry <= Weather.maxTemp entry) days).
Proof.
  assert (Hgeneral :
            forall (forecastData : Weather.ForecastData) (days : list Weather.DailyEntry),
              Weather.processDailyForecast forecastData unit = Returned days ->
              (length days <= 5)%nat /\
              map Weather.day_date days
              = map (fun k => k * 86400000)
                    (take 5 (first_days (days_of (Weather.fc_list forecastData)))) /\
              Forall (spans_its_day unit (Weather.fc_list forecastData)) days).
  { intros fd days Hp.
    split; [exact (processDailyForecast_at_most_five fd unit days Hp) |].
    unfold Weather.processDailyForecast in Hp.
    destruct (Weather.groupByDate _) as [dailyData | e] eqn:Hg; [| discriminate Hp].
    destruct (Weather.map_throwing _ _) as [all | e] eqn:Hall; [| discriminate Hp].
    injection Hp as <-.
    apply map_throwing_Forall2 in Hall.
    destruct (groupByDate_groups _ _ Hg) as (_ & Hgroups).
    split.
    - rewrite <- !firstn_map, <- (groupByDate_keys _ _ Hg).
      rewrite <- (summaries_dates unit dailyData all Hall)
        by (intros k day Hin; apply (Hgroups k day Hin)).
      reflexivity.
    - apply Forall_take. exact (summary_spans_its_day unit _ dailyData all Hg Hall). }
  split; [exact Hgeneral |].
  intros t0 items H3 Hlo Hhi.
  destruct (groupByDate_fold items (three_hourly_valid t0 items H3 Hlo Hhi) [])
    as (dailyData & Hgroup & _ & Hne & _); [constructor | constructor |].
  destruct (map_throwing_all (Weather.summarise unit)
              (fun entry => Weather.minTemp entry <= Weather.maxTemp entry)
              (Object_values dailyData)) as (all & Hall & _ & Hle).
  { eapply Forall_impl; [exact Hne |]. intros day Hday.
    apply summarise_returns. exact Hday. }
  assert (Hp : Weather.processDailyForecast {| Weather.fc_list := items |} unit
               = Returned (take 5 all)).
  { unfold Weather.processDailyForecast, Weather.groupByDate. simpl.
    rewrite Hgroup, Hall. reflexivity. }
  destruct (Hgeneral _ _ Hp) as (_ & Hdates & Hspan). simpl in Hdates, Hspan.
  rewrite (three_hourly_first_days t0 items H3) in Hdates. simpl in Hdates.
  rewrite Z.add_0_r in Hdates.
  exists (take 5 all). split; [exact Hp |]. split.
  - rewrite <- (length_map Weather.day_date), Hdates. reflexivity.
  - split; [exact Hdates |]. split; [exact Hspan | apply Forall_take; exact Hle].
Qed.

Lemma processDailyForecast_five_days_witness :
  exists days,
    Weather.processDailyForecast (steady_forecast 1700020000) "fahrenheit" = Returned days /\
    length days = 5%nat /\
    map Weather.day_date days
    = [19676 * 86400000; 19677 * 86400000; 19678 * 86400000; 19679 * 86400000;
       19680 * 86400000] /\
    Forall (spans_its_day "fahrenheit" (Weather.fc_list (steady_forecast 1700020000))) days /\
    Forall (fun entry => Weather.minTemp entry <= Weather.maxTemp entry) days.
Proof.
  apply (proj2 (processDailyForecast_five_days "fahrenheit") 1700020000
           (Weather.fc_list (steady_forecast 1700020000))).
  - apply steady_forecast_three_hourly.
  - unfold valid_time, Weather.MAX_DATE_MS. simpl. lia.
  - unfold valid_time, Weather.MAX_DATE_MS. simpl. lia.
Defined.

(** The five entries of that forecast in Celsius: day, lowest and highest
    temperature.  The records carry 0, 0.5, 1, ... degrees, seven of them
    on the first day and eight on each of the next; halves round up. *)
Example steady_forecast_entries :
  match Weather.processDailyForecast (steady_forecast 1700020000) "celsius" with
  | Returned days =>
      map (fun entry => (Weather.day_date entry / 86400000,
                         Weather.minTemp entry, Weather.maxTemp entry)) days
  | Thrown _ => []
  end
  = [(19676, 0, 3); (19677, 4, 7); (19678, 8, 11); (19679, 12, 15); (19680, 16, 19)].
Proof. vm_compute. reflexivity. Qed.
